(** * Bank-Root: the transaction controller, embedded and verified

    Shallow embedding of [controllers/transactions.py] (the route
    [create_transaction] and its helper [validate_account_owner_by_number])
    over the tables of [models.py].

    Modelling conventions.
    - [Decimal] is an exact count of hundredths, as held by the columns
      [DECIMAL(10, 2)]; sums, differences and comparisons are those of [Z].
      The special values of Python's [Decimal] (NaN, infinities) and
      amounts with more than two fractional digits are outside this first
      model; [create_transaction_posted] is the route over the values of
      the library and the server, and [posted_hundredths] shows that the
      two agree on amounts of at most two decimals.
    - A table is the list of its rows in storage order.
    - An ORM object is designated by its primary key: the session's
      identity map hands out one object per row, so two queries that reach
      the same row yield the same object.
    - Every request works in a session of its own, opened by
      [SessionLocal()] and closed by [close_session] on every way out.
    - The storage engine is an oracle [Env]: it says which statement of a
      flush raises (if any) and what the clock reads. *)

From Stdlib Require Import ZArith List String Bool Lia.
Import ListNotations.

Open Scope string_scope.
Open Scope list_scope.
Open Scope Z_scope.

Definition Decimal := Z.
Definition DateTime := Z.

(** ** models.py *)

Module Account.
Record t := mk {
    id : Z;
    user_id : Z;
    account_type : string;
    account_number : string;
    balance : Decimal;
    created_at : DateTime;
    updated_at : DateTime
  }.

Definition with_balance (b : Decimal) (a : t) : t :=
    mk (id a) (user_id a) (account_type a) (account_number a) b
       (created_at a) (updated_at a).

Definition with_updated_at (ts : DateTime) (a : t) : t :=
    mk (id a) (user_id a) (account_type a) (account_number a) (balance a)
       (created_at a) ts.
End Account.

Module Transaction.
Record t := mk {
    id : Z;
    from_account_id : option Z;
    to_account_id : option Z;
    amount : Decimal;
    type : string;
    description : string;
    created_at : DateTime
  }.

  (** The object built by the constructor call [Transaction(...)]: [id] and
      [created_at] are filled in when the row is inserted. *)
Record pending := new {
    p_from_account_id : option Z;
    p_to_account_id : option Z;
    p_amount : Decimal;
    p_type : string;
    p_description : string
  }.
End Transaction.

Record Database := mkDatabase {
  accounts : list Account.t;
  transactions : list Transaction.t
}.

(** ** The storage oracle *)

Record Env := mkEnv {
  fault : option nat;        (* index of the flush statement that raises *)
  fault_text : string;       (* str(e) of the SQLAlchemyError *)
  utcnow : nat -> DateTime   (* clock reading at the n-th statement *)
}.

(** ** db.py: the session *)

(** A loaded object with the value of [balance] it was loaded with
    (SQLAlchemy's committed state), which decides at flush time whether an
    UPDATE is emitted. *)
Record Loaded := mkLoaded {
  loaded_balance : Decimal;
  object : Account.t
}.

Record Session := mkSession {
  committed : Database;          (* what other connections see *)
  txn : Database;                (* this connection's open transaction *)
  identity_map : list Loaded;
  pending_new : list Transaction.pending
}.

Definition load (row : Account.t) : Loaded :=
  mkLoaded (Account.balance row) row.

Definition SessionLocal (db : Database) : Session :=
  mkSession db db (map load (accounts db)) [].

Inductive Statement :=
| UPDATE_accounts (pk : Z) (balance : Decimal)
| INSERT_transactions (row : Transaction.pending).

Definition auto_increment (rows : list Transaction.t) : Z :=
  1 + fold_right Z.max 0 (map Transaction.id rows).

Definition execute (now : DateTime) (st : Statement) (d : Database) : Database :=
  match st with
  | UPDATE_accounts pk b =>
      mkDatabase
        (map (fun row =>
                if Account.id row =? pk
                then Account.with_updated_at now (Account.with_balance b row)
                else row)
             (accounts d))
        (transactions d)
  | INSERT_transactions p =>
      mkDatabase
        (accounts d)
        (transactions d ++
           [Transaction.mk (auto_increment (transactions d))
              (Transaction.p_from_account_id p)
              (Transaction.p_to_account_id p)
              (Transaction.p_amount p)
              (Transaction.p_type p)
              (Transaction.p_description p)
              now])
  end.

(** The unit of work: one UPDATE per loaded object whose [balance] differs
    from its loaded value, then one INSERT per added object. *)
Definition flush_plan (s : Session) : list Statement :=
  map (fun l => UPDATE_accounts (Account.id (object l)) (Account.balance (object l)))
      (filter (fun l => negb (Account.balance (object l) =? loaded_balance l))
              (identity_map s))
  ++ map INSERT_transactions (pending_new s).

Definition faults_at (env : Env) (i : nat) : bool :=
  match fault env with
  | Some k => Nat.eqb k i
  | None => false
  end.

(** Runs the statements from index [i] on; the flag is [false] when one of
    them raises, with the transaction left as far as it got. *)
Fixpoint run_statements (env : Env) (i : nat) (sts : list Statement)
    (d : Database) : Database * bool :=
  match sts with
  | [] => (d, true)
  | st :: rest =>
      if faults_at env i then (d, false)
      else run_statements env (S i) rest (execute (utcnow env i) st d)
  end.

Inductive Raises (A : Type) :=
| Returns (a : A)
| SQLAlchemyError (s : Session).
Arguments Returns {A} a.
Arguments SQLAlchemyError {A} s.

(** [session.commit()]: flush, then COMMIT (the statement after the last
    one of the plan); afterwards every object is expired and reloads from
    the committed rows. *)
Definition commit (env : Env) (s : Session) : Raises Session :=
  let plan := flush_plan s in
  match run_statements env 0 plan (txn s) with
  | (d, false) => SQLAlchemyError (mkSession (committed s) d (identity_map s) (pending_new s))
  | (d, true) =>
      if faults_at env (List.length plan)
      then SQLAlchemyError (mkSession (committed s) d (identity_map s) (pending_new s))
      else Returns (SessionLocal d)
  end.

(** [session.rollback()]: the open transaction is discarded and the
    in-memory objects go back to the committed rows. *)
Definition rollback (s : Session) : Session :=
  SessionLocal (committed s).

(** [close_session(session)]: closing releases the connection, which
    discards whatever was not committed; what remains is the store. *)
Definition close_session (s : Session) : Database :=
  committed s.

Definition add (p : Transaction.pending) (s : Session) : Session :=
  mkSession (committed s) (txn s) (identity_map s) (pending_new s ++ [p]).

(** Attribute read [obj.balance] on the object with primary key [pk]. *)
Definition get_balance (s : Session) (pk : Z) : Decimal :=
  match find (fun l => Account.id (object l) =? pk) (identity_map s) with
  | Some l => Account.balance (object l)
  | None => 0
  end.

(** Attribute write [obj.balance = b]. *)
Definition set_balance (pk : Z) (b : Decimal) (s : Session) : Session :=
  mkSession (committed s) (txn s)
    (map (fun l =>
            if Account.id (object l) =? pk
            then mkLoaded (loaded_balance l) (Account.with_balance b (object l))
            else l)
         (identity_map s))
    (pending_new s).

(** [obj.balance += x] and [obj.balance -= x]. *)
Definition iadd_balance (pk : Z) (x : Decimal) (s : Session) : Session :=
  set_balance pk (get_balance s pk + x) s.

Definition isub_balance (pk : Z) (x : Decimal) (s : Session) : Session :=
  set_balance pk (get_balance s pk - x) s.

(** ** controllers/transactions.py *)

(** The request as the route reads it: the JWT identity and the fields of
    the JSON body after [data.get]. [amount] is the outcome of
    [Decimal(data.get('amount'))]: [None] when the constructor raises. *)
Record Request := mkRequest {
  jwt_identity : Z;
  from_account_number : option string;
  to_account_number : option string;
  amount : option Decimal;
  type : option string;
  description : string
}.

Inductive Body :=
| message (text : string)
| error (text : string).

Inductive Outcome :=
| Reply (body : Body) (status : Z)
| Uncaught.   (* decimal.InvalidOperation / TypeError leaves the route *)

(** Python's [==] between the value of [data.get(...)] and a string. *)
Definition py_eq (v : option string) (s : string) : bool :=
  match v with
  | Some x => String.eqb x s
  | None => false
  end.

(** Truth value of an optional string: [None] and the empty string are
    false. *)
Definition truthy (v : option string) : bool :=
  match v with
  | Some EmptyString => false
  | Some _ => true
  | None => false
  end.

(** [session.query(Account).filter_by(account_number=..., user_id=...).first()] *)
Definition validate_account_owner_by_number (user_id : Z)
    (account_number : option string) (session : Session) : option Z :=
  option_map Account.id
    (find (fun row => py_eq account_number (Account.account_number row)
                      && (Account.user_id row =? user_id))
          (accounts (txn session))).

(** [session.query(Account).filter_by(account_number=...).first()] *)
Definition query_account_by_number (account_number : option string)
    (session : Session) : option Z :=
  option_map Account.id
    (find (fun row => py_eq account_number (Account.account_number row))
          (accounts (txn session))).

(** [c and obj] used as a condition: the object when [c] holds and the
    object is not [None]. *)
Definition py_and {A : Type} (c : bool) (obj : option A) : option A :=
  if c then obj else None.

(** The branch on the transaction type: either the session after the
    balance updates, or the early return. *)
Definition process (transaction_type : option string) (amount : Decimal)
    (from_account : Z) (to_account : option Z) (session : Session)
    : Session + Outcome :=
  if py_eq transaction_type "deposit" then
    inl (iadd_balance from_account amount session)
  else if py_eq transaction_type "withdrawal" then
    if get_balance session from_account >=? amount
    then inl (isub_balance from_account amount session)
    else inr (Reply (error "Insufficient funds") 400)
  else if py_eq transaction_type "transfer" then
    match py_and (get_balance session from_account >=? amount) to_account with
    | Some target =>
        inl (iadd_balance target amount
               (isub_balance from_account amount session))
    | None => inr (Reply (error "Insufficient funds or invalid target account") 400)
    end
  else inr (Reply (error "Invalid transaction type") 400).

Definition type_text (transaction_type : option string) : string :=
  match transaction_type with
  | Some s => s
  | None => EmptyString
  end.

Definition create_transaction (env : Env) (db : Database) (req : Request)
    : Outcome * Database :=
  let user_id := jwt_identity req in
  match amount req with
  | None => (Uncaught, db)
  | Some amount =>
      let session := SessionLocal db in
      match validate_account_owner_by_number user_id (from_account_number req) session with
      | None =>
          (Reply (error "Unauthorized access to the account") 403,
           close_session session)
      | Some from_account =>
          let to_account :=
            if truthy (to_account_number req)
            then query_account_by_number (to_account_number req) session
            else None in
          match process (type req) amount from_account to_account session with
          | inr early => (early, close_session session)
          | inl session =>
              let transaction :=
                Transaction.new (Some from_account) to_account amount
                  (type_text (type req)) (description req) in
              match commit env (add transaction session) with
              | Returns session =>
                  (Reply (message "Transaction completed successfully") 201,
                   close_session session)
              | SQLAlchemyError session =>
                  let session := rollback session in
                  (Reply (error (fault_text env)) 500, close_session session)
              end
          end
      end
  end.

(** ** Sample data *)

Definition alice : Account.t := Account.mk 1 10 "Savings" "ACC-1" 10000 0 0.
Definition bob : Account.t := Account.mk 2 20 "Checking" "ACC-2" 5000 0 0.
Definition carol : Account.t := Account.mk 3 30 "Savings" "ACC-3" 75 0 0.
Definition bank : Database := mkDatabase [alice; bob; carol] [].
Definition sound : Env := mkEnv None "storage error" (fun n => 100 + Z.of_nat n).
Definition broken_at (k : nat) : Env :=
  mkEnv (Some k) "storage error" (fun n => 100 + Z.of_nat n).

Definition deposit_req (who : Z) (acct : string) (amt : Decimal) : Request :=
  mkRequest who (Some acct) None (Some amt) (Some "deposit") "memo".
Definition withdrawal_req (who : Z) (acct : string) (amt : Decimal) : Request :=
  mkRequest who (Some acct) None (Some amt) (Some "withdrawal") "memo".
Definition transfer_req (who : Z) (acct target : string) (amt : Decimal) : Request :=
  mkRequest who (Some acct) (Some target) (Some amt) (Some "transfer") "memo".


(** ** Reading the ledger

    What a ledger row says about an account, by the row's kind, as the
    branches of [create_transaction] apply it: a deposit credits the row's
    source account, a withdrawal debits it, a transfer debits the source
    and credits the target. *)

Definition refers (ref : option Z) (pk : Z) : bool :=
  match ref with
  | Some k => k =? pk
  | None => false
  end.

Definition credit (t : Transaction.t) (pk : Z) : Decimal :=
  (if String.eqb (Transaction.type t) "deposit" && refers (Transaction.from_account_id t) pk
   then Transaction.amount t else 0)
  + (if String.eqb (Transaction.type t) "transfer" && refers (Transaction.to_account_id t) pk
     then Transaction.amount t else 0).

Definition debit (t : Transaction.t) (pk : Z) : Decimal :=
  if (String.eqb (Transaction.type t) "withdrawal" || String.eqb (Transaction.type t) "transfer")
     && refers (Transaction.from_account_id t) pk
  then Transaction.amount t else 0.

Definition credits (ledger : list Transaction.t) (pk : Z) : Decimal :=
  fold_right (fun t acc => credit t pk + acc) 0 ledger.

Definition debits (ledger : list Transaction.t) (pk : Z) : Decimal :=
  fold_right (fun t acc => debit t pk + acc) 0 ledger.

(** Net movement that the row [t] records for the account [pk]. *)
Definition effect (t : Transaction.t) (pk : Z) : Decimal :=
  credit t pk - debit t pk.

(** The target object of a request, as [create_transaction] looks it up. *)
Definition target_of (db : Database) (req : Request) : option Z :=
  if truthy (to_account_number req)
  then query_account_by_number (to_account_number req) (SessionLocal db)
  else None.

(** The source object of a request, as [create_transaction] looks it up. *)
Definition source_of (db : Database) (req : Request) : option Z :=
  validate_account_owner_by_number (jwt_identity req) (from_account_number req)
    (SessionLocal db).

(** Balance of the account with primary key [pk] in the store. *)
Definition balance_of (db : Database) (pk : Z) : Decimal :=
  match find (fun row => Account.id row =? pk) (accounts db) with
  | Some row => Account.balance row
  | None => 0
  end.

(** The quantity that the conservation claim holds constant. *)
Definition provisioned (db : Database) (pk : Z) : Decimal :=
  balance_of db pk - credits (transactions db) pk + debits (transactions db) pk.

(** A sequence of requests, each served under its own storage conditions. *)
Fixpoint serve (db : Database) (calls : list (Env * Request)) : Database :=
  match calls with
  | [] => db
  | (env, req) :: rest => serve (snd (create_transaction env db req)) rest
  end.

(** The primary key constraint on [accounts.id]. *)
Definition primary_key (db : Database) : Prop :=
  NoDup (map Account.id (accounts db)).

Definition completed : Outcome :=
  Reply (message "Transaction completed successfully") 201.

(** Columns of an account row that no statement of the route assigns. *)
Definition same_identity (row row' : Account.t) : Prop :=
  Account.id row' = Account.id row /\
  Account.user_id row' = Account.user_id row /\
  Account.account_type row' = Account.account_type row /\
  Account.account_number row' = Account.account_number row /\
  Account.created_at row' = Account.created_at row.

(** ** Views used in the proofs *)

(** A statement and a flush, seen from one row of [accounts]. *)
Definition execute_row (now : DateTime) (st : Statement) (row : Account.t) : Account.t :=
  match st with
  | UPDATE_accounts pk b =>
      if Account.id row =? pk
      then Account.with_updated_at now (Account.with_balance b row)
      else row
  | INSERT_transactions _ => row
  end.

Fixpoint row_after (clock : nat -> DateTime) (i : nat) (sts : list Statement)
    (row : Account.t) : Account.t :=
  match sts with
  | [] => row
  | st :: rest => row_after clock (S i) rest (execute_row (clock i) st row)
  end.

Definition is_update (st : Statement) : Prop :=
  match st with
  | UPDATE_accounts _ _ => True
  | INSERT_transactions _ => False
  end.

(** The objects of a session against the rows they were loaded from, when
    the balance of the row with primary key [pk] has moved by [delta pk]. *)
Section Tracking.
Variable delta : Z -> Decimal.

(** The object of [row] after its balance moved by [delta]. *)
Definition touch (row : Account.t) : Loaded :=
  mkLoaded (Account.balance row)
    (Account.with_balance (Account.balance row + delta (Account.id row)) row).

Definition tracks (db : Database) (s : Session) : Prop :=
  committed s = db /\ txn s = db /\ pending_new s = [] /\
  identity_map s = map touch (accounts db).

Definition write_of (row : Account.t) : Statement :=
  UPDATE_accounts (Account.id row) (Account.balance row + delta (Account.id row)).

Definition moved (row : Account.t) : bool :=
  negb (delta (Account.id row) =? 0).

Definition writes (rows : list Account.t) : list Statement :=
  map write_of (filter moved rows).

(** A row after the flush: untouched, or rewritten with the new balance
    and a fresh modification time. *)
Definition stepped (row row' : Account.t) : Prop :=
  (delta (Account.id row) = 0 /\ row' = row) \/
  (delta (Account.id row) <> 0 /\
   exists ts, row' = Account.with_updated_at ts
                (Account.with_balance (Account.balance row + delta (Account.id row)) row)).
End Tracking.

(** The ledger row that the INSERT of [p] adds to [db] at time [ts]. *)
Definition inserted (db : Database) (p : Transaction.pending) (ts : DateTime)
    : Transaction.t :=
  Transaction.mk (auto_increment (transactions db))
    (Transaction.p_from_account_id p) (Transaction.p_to_account_id p)
    (Transaction.p_amount p) (Transaction.p_type p)
    (Transaction.p_description p) ts.

Ltac split_eqb :=
  repeat match goal with
         | |- context [?a =? ?b] => destruct (Z.eqb_spec a b)
         end.

(** A sequence of calls for the examples. *)
Definition busy_day : list (Env * Request) :=
  [ (sound, deposit_req 10 "ACC-1" 250);
    (sound, transfer_req 10 "ACC-1" "ACC-2" 4000);
    (broken_at 1, transfer_req 20 "ACC-2" "ACC-1" 100);
    (sound, transfer_req 20 "ACC-2" "ACC-2" 10);
    (sound, withdrawal_req 20 "ACC-2" 9000);
    (sound, withdrawal_req 10 "ACC-1" 50000) ].

(** * The other routes

    [get_transactions] of [controllers/transactions.py] and the routes of
    [controllers/accounts.py], over the same store. Further conventions.
    - Queries are taken to succeed; only a flush or a COMMIT may raise.
    - A JSON number for a balance stands for its value in hundredths:
      [float] of a [DECIMAL(10, 2)] value prints back as that value.
    - The server refuses rows that break a constraint of [models.py]
      (NOT NULL, UNIQUE, FOREIGN KEY); the width of the columns is not
      modelled.
    - The value handed out by AUTO_INCREMENT for a new account is a
      parameter of the route that inserts. *)

(** ** models.py: users *)

Module User.
Record t := mk {
  id : Z;
  username : string;
  email : string;
  password_hash : string;
  created_at : DateTime;
  updated_at : DateTime
}.
End User.

(** Reply of a route that sends data back: [jsonify(data), status], or one
    of the plain replies. *)
Inductive Answer (A : Type) :=
| Data (payload : A) (status : Z)
| Plain (reply : Outcome).
Arguments Data {A} payload status.
Arguments Plain {A} reply.

(** Does the flush of [n] statements, or the COMMIT after it, raise? *)
Definition fault_within (env : Env) (n : nat) : bool :=
  match fault env with
  | Some k => Nat.leb k n
  | None => false
  end.

(** ** controllers/transactions.py: get_transactions *)

(** [session.query(Transaction).filter_by(from_account_id=account.id).all()] *)
Definition account_transactions (session : Session) (account : Account.t)
    : list Transaction.t :=
  filter (fun t => refers (Transaction.from_account_id t) (Account.id account))
         (transactions (txn session)).

(** The rows are sent with all their columns, so a row stands for its JSON
    object. The route runs one query for the accounts of the caller and
    one more for each of them; [fault env] is here the index of the query
    that raises, if any, and the [except] branch answers 500 with its
    text. *)
Definition get_transactions (env : Env) (db : Database) (user_id : Z)
    : Answer (list Transaction.t) :=
  let session := SessionLocal db in
  let accounts :=
    filter (fun account => Account.user_id account =? user_id)
           (accounts (txn session)) in
  if fault_within env (List.length accounts)
  then Plain (Reply (error (fault_text env)) 500)
  else
    let transactions := flat_map (account_transactions session) accounts in
    Data transactions 200.

(** ** controllers/accounts.py *)

(** The JSON object that [get_all_accounts] and [get_account] build. *)
Record AccountJson := mkAccountJson {
  j_id : Z;
  j_account_type : string;
  j_account_number : string;
  j_balance : Decimal;
  j_owner_id : Z;
  j_owner_username : string
}.

(** [session.query(User).filter_by(id=user_id).first()] *)
Definition query_user (users : list User.t) (user_id : Z) : option User.t :=
  find (fun u => User.id u =? user_id) users.

(** The object built for one account; [None] when [.username] is read
    off a missing user (AttributeError). *)
Definition account_data (users : list User.t) (user_id : Z) (account : Account.t)
    : option AccountJson :=
  match query_user users user_id with
  | Some u =>
      Some (mkAccountJson (Account.id account) (Account.account_type account)
              (Account.account_number account) (Account.balance account)
              user_id (User.username u))
  | None => None
  end.

(** A list comprehension whose body may raise. *)
Fixpoint comprehension {A B : Type} (f : A -> option B) (l : list A)
    : option (list B) :=
  match l with
  | [] => Some []
  | x :: rest =>
      match f x with
      | Some y =>
          match comprehension f rest with
          | Some ys => Some (y :: ys)
          | None => None
          end
      | None => None
      end
  end.

Definition get_all_accounts (users : list User.t) (db : Database) (user_id : Z)
    : Answer (list AccountJson) :=
  let session := SessionLocal db in
  let accounts :=
    filter (fun account => Account.user_id account =? user_id)
           (accounts (txn session)) in
  match comprehension (account_data users user_id) accounts with
  | Some accounts_data => Data accounts_data 200
  | None => Plain Uncaught
  end.

(** [session.query(Account).filter_by(id=account_id, user_id=user_id).first()] *)
Definition query_own_account (db : Database) (user_id account_id : Z)
    : option Account.t :=
  find (fun row => (Account.id row =? account_id) && (Account.user_id row =? user_id))
       (accounts db).

Definition get_account (users : list User.t) (db : Database)
    (user_id account_id : Z) : Answer AccountJson :=
  match query_own_account db user_id account_id with
  | Some account =>
      match account_data users user_id account with
      | Some account_data => Data account_data 200
      | None => Plain Uncaught
      end
  | None => Plain (Reply (message "Account not found") 404)
  end.

(** The body of [POST /accounts/new] after [data.get]; a missing key and a
    JSON null both read as [None]. A balance that reads as [None] is left
    out of the INSERT and takes the default of the column, the same zero
    that [data.get("balance", 0.0)] puts in for a missing key. *)
Record NewAccount := mkNewAccount {
  new_account_type : option string;
  new_account_number : option string;
  new_balance : option Decimal
}.

Definition initial_balance (data : NewAccount) : Decimal :=
  match new_balance data with
  | Some b => b
  | None => 0
  end.

(** The row that the INSERT makes of the new object, when the
    constraints of the table admit it: both strings present, the number
    not taken, the owner an existing user. *)
Definition admitted (users : list User.t) (db : Database) (user_id : Z)
    (data : NewAccount) : option (string * string) :=
  match new_account_type data, new_account_number data with
  | Some account_type, Some account_number =>
      if existsb (fun row => String.eqb (Account.account_number row) account_number)
                 (accounts db)
      then None
      else match query_user users user_id with
           | Some _ => Some (account_type, account_number)
           | None => None
           end
  | _, _ => None
  end.

(** [create_account]: no [try] around the commit, so an IntegrityError or
    any other error of the store leaves the route. [pk] is the value that
    AUTO_INCREMENT hands out; the clock is read once for each of
    [created_at] and [updated_at]. *)
Definition create_account (env : Env) (pk : Z) (users : list User.t)
    (db : Database) (user_id : Z) (data : NewAccount) : Outcome * Database :=
  match admitted users db user_id data with
  | Some (account_type, account_number) =>
      if fault_within env 1 then (Uncaught, db)
      else
        (Reply (message "Account created successfully") 201,
         mkDatabase
           (accounts db ++
              [Account.mk pk user_id account_type account_number
                 (initial_balance data) (utcnow env 0) (utcnow env 1)])
           (transactions db))
  | None => (Uncaught, db)
  end.

(** The body of [PUT /accounts/<id>] after [data.get]. *)
Record AccountUpdate := mkAccountUpdate {
  upd_account_type : option string;
  upd_balance : option Decimal
}.

(** The object after the two conditional assignments. *)
Definition assign (data : AccountUpdate) (account : Account.t) : Account.t :=
  let account_type :=
    if truthy (upd_account_type data)
    then type_text (upd_account_type data)
    else Account.account_type account in
  let balance :=
    match upd_balance data with
    | Some b => b
    | None => Account.balance account
    end in
  Account.mk (Account.id account) (Account.user_id account) account_type
    (Account.account_number account) balance
    (Account.created_at account) (Account.updated_at account).

(** Has an attribute a value other than the loaded one? *)
Definition modified (account account' : Account.t) : bool :=
  negb (String.eqb (Account.account_type account') (Account.account_type account)
        && (Account.balance account' =? Account.balance account)).

(** [update_account]: one UPDATE by primary key when an attribute has
    changed, none otherwise; no [try] around the commit. *)
Definition update_account (env : Env) (db : Database) (user_id account_id : Z)
    (data : AccountUpdate) : Outcome * Database :=
  match query_own_account db user_id account_id with
  | None => (Reply (message "Account not found") 404, db)
  | Some account =>
      let account' := assign data account in
      if modified account account' then
        if fault_within env 1 then (Uncaught, db)
        else
          (Reply (message "Account updated successfully") 200,
           mkDatabase
             (map (fun row =>
                     if Account.id row =? Account.id account
                     then Account.with_updated_at (utcnow env 0)
                            (Account.mk (Account.id row) (Account.user_id row)
                               (Account.account_type account')
                               (Account.account_number row)
                               (Account.balance account')
                               (Account.created_at row) (Account.updated_at row))
                     else row)
                  (accounts db))
             (transactions db))
      else
        if fault_within env 0 then (Uncaught, db)
        else (Reply (message "Account updated successfully") 200, db)
  end.

(** What deleting the account [pk] does to a ledger row: the two
    relationships of [Account] to [Transaction] carry no delete cascade,
    so the unit of work sets the foreign keys that point to the account to
    NULL before it deletes the account. *)
Definition detach (pk : Z) (t : Transaction.t) : Transaction.t :=
  Transaction.mk (Transaction.id t)
    (if refers (Transaction.from_account_id t) pk then None
     else Transaction.from_account_id t)
    (if refers (Transaction.to_account_id t) pk then None
     else Transaction.to_account_id t)
    (Transaction.amount t) (Transaction.type t) (Transaction.description t)
    (Transaction.created_at t).

Definition attached (pk : Z) (t : Transaction.t) : bool :=
  refers (Transaction.from_account_id t) pk || refers (Transaction.to_account_id t) pk.

(** [delete_account]: one UPDATE per ledger row attached to the account,
    then the DELETE by primary key; no [try] around the commit. *)
Definition delete_account (env : Env) (db : Database) (user_id account_id : Z)
    : Outcome * Database :=
  match query_own_account db user_id account_id with
  | None => (Reply (message "Account not found") 404, db)
  | Some account =>
      let pk := Account.id account in
      let children := filter (attached pk) (transactions db) in
      if fault_within env (S (List.length children)) then (Uncaught, db)
      else
        (Reply (message "Account deleted successfully") 200,
         mkDatabase
           (filter (fun row => negb (Account.id row =? pk)) (accounts db))
           (map (detach pk) (transactions db)))
  end.

(** ** controllers/users.py

    The two functions of [werkzeug.security] are parameters.
    [generate_password_hash] draws a salt, which is an argument here;
    [check_password_hash] answers [None] when it raises (a password that
    is not a string). The access token that [login] issues stands for the
    identity it is created for. *)

Section Users.
Variable generate_password_hash : string -> string -> string.
Variable check_password_hash : string -> option string -> option bool.

(** The string held by a field that has passed a truth test. *)
Definition field_text (v : option string) : string :=
  match v with
  | Some s => s
  | None => EmptyString
  end.

Record Registration := mkRegistration {
  reg_username : option string;
  reg_email : option string;
  reg_password : option string
}.

(** The UNIQUE constraints of [users]: is the username or the email held
    by one of the rows? *)
Definition taken (rows : list User.t) (username email : string) : bool :=
  existsb (fun u => String.eqb (User.username u) username
                    || String.eqb (User.email u) email)
          rows.

(** [register]: the [except Exception] branch answers 400 for whatever
    the insert or the commit raises. The fields of the body are text or
    missing; a password of another JSON type, on which the hash function
    would raise before the [try], is outside this definition. *)
Definition register (env : Env) (pk : Z) (salt : string) (users : list User.t)
    (data : Registration) : Outcome * list User.t :=
  let username := reg_username data in
  let email := reg_email data in
  let password := reg_password data in
  if negb (truthy username) || negb (truthy email) || negb (truthy password) then
    (Reply (message "Missing required fields") 400, users)
  else
    let password_hash := generate_password_hash salt (field_text password) in
    if taken users (field_text username) (field_text email) || fault_within env 1
    then (Reply (message "Error registering user") 400, users)
    else
      (Reply (message "User registered successfully") 201,
       users ++ [User.mk pk (field_text username) (field_text email) password_hash
                   (utcnow env 0) (utcnow env 1)]).

Record Credentials := mkCredentials {
  cred_email : option string;
  cred_password : option string
}.

(** [session.query(User).filter_by(email=email).first()] *)
Definition query_user_by_email (users : list User.t) (email : option string)
    : option User.t :=
  find (fun u => py_eq email (User.email u)) users.

Definition login (users : list User.t) (data : Credentials) : Answer Z :=
  match query_user_by_email users (cred_email data) with
  | Some user =>
      match check_password_hash (User.password_hash user) (cred_password data) with
      | Some true => Data (User.id user) 200
      | Some false => Plain (Reply (message "Invalid credentials") 401)
      | None => Plain Uncaught
      end
  | None => Plain (Reply (message "Invalid credentials") 401)
  end.
End Users.

(** The JSON object of [get_user_profile]. *)
Record ProfileJson := mkProfileJson {
  j_username : string;
  j_email : string
}.

Definition get_user_profile (users : list User.t) (user_id : Z) : Answer ProfileJson :=
  match query_user users user_id with
  | Some user => Data (mkProfileJson (User.username user) (User.email user)) 200
  | None => Plain (Reply (message "User not found") 404)
  end.

Record ProfileUpdate := mkProfileUpdate {
  upd_username : option string;
  upd_email : option string
}.

(** The user object after the two conditional assignments. *)
Definition reassign (data : ProfileUpdate) (user : User.t) : User.t :=
  User.mk (User.id user)
    (if truthy (upd_username data) then field_text (upd_username data)
     else User.username user)
    (if truthy (upd_email data) then field_text (upd_email data)
     else User.email user)
    (User.password_hash user) (User.created_at user) (User.updated_at user).

(** [update_profile]: one UPDATE by primary key when an attribute has
    changed; no [try] around the commit, so a broken UNIQUE constraint
    leaves the route as an error. *)
Definition update_profile (env : Env) (users : list User.t) (user_id : Z)
    (data : ProfileUpdate) : Outcome * list User.t :=
  match query_user users user_id with
  | None => (Reply (message "User not found") 404, users)
  | Some user =>
      let user' := reassign data user in
      if String.eqb (User.username user') (User.username user)
         && String.eqb (User.email user') (User.email user)
      then
        if fault_within env 0 then (Uncaught, users)
        else (Reply (message "User profile updated successfully") 200, users)
      else
        if taken (filter (fun u => negb (User.id u =? User.id user)) users)
             (User.username user') (User.email user')
           || fault_within env 1
        then (Uncaught, users)
        else
          (Reply (message "User profile updated successfully") 200,
           map (fun u =>
                  if User.id u =? User.id user
                  then User.mk (User.id u) (User.username user') (User.email user')
                         (User.password_hash u) (User.created_at u) (utcnow env 0)
                  else u)
               users)
  end.

(** The JSON objects of [get_all_users]: id, username, email. *)
Definition get_all_users (users : list User.t) : Answer (list (Z * string * string)) :=
  Data (map (fun user => (User.id user, User.username user, User.email user)) users) 200.

(** The key constraints of [users]. *)
Definition user_keys (users : list User.t) : Prop :=
  NoDup (map User.id users) /\
  NoDup (map User.username users) /\
  NoDup (map User.email users).

Definition registered : Outcome := Reply (message "User registered successfully") 201.

(** Stand-ins of the two hash functions for the examples: the password
    kept as it is. *)
Definition plain_generate (salt password : string) : string := password.

Definition plain_check (pwhash : string) (password : option string) : option bool :=
  match password with
  | Some p => Some (String.eqb pwhash p)
  | None => None
  end.

(** ** Further readings of the store *)

(** The UNIQUE constraint on [accounts.account_number]. *)
Definition unique_numbers (db : Database) : Prop :=
  NoDup (map Account.account_number (accounts db)).

(** The primary key constraint on [transactions.id]. *)
Definition ledger_key (db : Database) : Prop :=
  NoDup (map Transaction.id (transactions db)).

(** The money held in all accounts together. *)
Definition total_balance (db : Database) : Decimal :=
  fold_right (fun row acc => Account.balance row + acc) 0 (accounts db).

(** Users for the examples. *)
Definition people : list User.t :=
  [ User.mk 10 "alice" "alice@example.org" "pbkdf2:a" 0 0;
    User.mk 20 "bob" "bob@example.org" "pbkdf2:b" 0 0;
    User.mk 30 "carol" "carol@example.org" "pbkdf2:c" 0 0 ].

Definition created : Outcome := Reply (message "Account created successfully") 201.
Definition deleted : Outcome := Reply (message "Account deleted successfully") 200.

(** Sum of [f] over a list of primary keys. *)
Definition sum_over (f : Z -> Decimal) (keys : list Z) : Decimal :=
  fold_right (fun k acc => f k + acc) 0 keys.

(** What a completed request of the given type and amount adds to the
    money held in all accounts together. *)
Definition inflow (transaction_type : option string) (amt : Decimal) : Decimal :=
  if py_eq transaction_type "deposit" then amt
  else if py_eq transaction_type "withdrawal" then - amt
  else 0.

(** The rows that [get_transactions] sends when no query raises. *)
Definition listed (db : Database) (user_id : Z) : list Transaction.t :=
  match get_transactions (mkEnv None EmptyString (fun _ => 0)) db user_id with
  | Data rows _ => rows
  | Plain _ => []
  end.

(** * The amount as posted

    [create_transaction] once more, with the amount as it comes in the
    body and the arithmetic of [decimal.Decimal] as the route uses it.
    The library and the server are parameters: the values of [Decimal],
    its constructor ([None] when it raises), [+], [-], [>=] ([None] when
    they raise [InvalidOperation], as on a NaN), [==], the value read
    from a [DECIMAL(10, 2)] column, and what the server stores in such a
    column for a value sent to it ([None] when it refuses the value). The
    objects of the session are kept as a function from primary keys to
    the value of their [balance] attribute. *)

Record Posted (Json : Type) := mkPosted {
  posted_identity : Z;
  posted_from : option string;
  posted_to : option string;
  posted_amount : Json;
  posted_type : option string;
  posted_description : string
}.
Arguments mkPosted {Json} _ _ _ _ _ _.
Arguments posted_identity {Json} _.
Arguments posted_from {Json} _.
Arguments posted_to {Json} _.
Arguments posted_amount {Json} _.
Arguments posted_type {Json} _.
Arguments posted_description {Json} _.

(** The body with its amount as a count of hundredths, or left out. *)
Definition in_hundredths {Json : Type} (body : Posted Json) (amount : option Decimal)
    : Request :=
  mkRequest (posted_identity body) (posted_from body) (posted_to body) amount
    (posted_type body) (posted_description body).

Section Posted.
Variable Json : Type.
Variable PyDecimal : Type.
Variable Decimal_of : Json -> option PyDecimal.
Variable of_column : Z -> PyDecimal.
Variable py_add : PyDecimal -> PyDecimal -> option PyDecimal.
Variable py_sub : PyDecimal -> PyDecimal -> option PyDecimal.
Variable py_ge : PyDecimal -> PyDecimal -> option bool.
Variable py_same : PyDecimal -> PyDecimal -> bool.
Variable to_column : PyDecimal -> option Z.

(** The [balance] attribute of the object with primary key [pk]. *)
Definition Objects := Z -> PyDecimal.

Definition loaded (db : Database) : Objects :=
  fun pk => of_column (balance_of db pk).

Definition assign_balance (pk : Z) (v : PyDecimal) (objects : Objects) : Objects :=
  fun k => if k =? pk then v else objects k.

(** The branch on the transaction type: the objects after the balance
    updates, or the early return; [Uncaught] when the arithmetic raises. *)
Definition process_posted (transaction_type : option string) (amount : PyDecimal)
    (from_account : Z) (to_account : option Z) (objects : Objects)
    : Objects + Outcome :=
  if py_eq transaction_type "deposit" then
    match py_add (objects from_account) amount with
    | Some v => inl (assign_balance from_account v objects)
    | None => inr Uncaught
    end
  else if py_eq transaction_type "withdrawal" then
    match py_ge (objects from_account) amount with
    | Some true =>
        match py_sub (objects from_account) amount with
        | Some v => inl (assign_balance from_account v objects)
        | None => inr Uncaught
        end
    | Some false => inr (Reply (error "Insufficient funds") 400)
    | None => inr Uncaught
    end
  else if py_eq transaction_type "transfer" then
    match py_ge (objects from_account) amount with
    | Some enough =>
        match py_and enough to_account with
        | Some target =>
            match py_sub (objects from_account) amount with
            | Some v =>
                let objects := assign_balance from_account v objects in
                match py_add (objects target) amount with
                | Some w => inl (assign_balance target w objects)
                | None => inr Uncaught
                end
            | None => inr Uncaught
            end
        | None => inr (Reply (error "Insufficient funds or invalid target account") 400)
        end
    | None => inr Uncaught
    end
  else inr (Reply (error "Invalid transaction type") 400).

(** A statement as the session sends it, with the values not yet
    converted by the server. *)
Inductive Sent :=
| SET_balance (pk : Z) (v : PyDecimal)
| ADD_transaction (from_account_id to_account_id : option Z) (amount : PyDecimal)
    (transaction_type description : string).

(** The statement as the server runs it, when it takes the values. *)
Definition received (st : Sent) : option Statement :=
  match st with
  | SET_balance pk v => option_map (UPDATE_accounts pk) (to_column v)
  | ADD_transaction f t v ty d =>
      option_map (fun a => INSERT_transactions (Transaction.new f t a ty d))
                 (to_column v)
  end.

(** One UPDATE per object whose balance is no longer the value it was
    loaded with. *)
Definition plan_posted (db : Database) (objects : Objects) : list Sent :=
  map (fun row => SET_balance (Account.id row) (objects (Account.id row)))
      (filter (fun row => negb (py_same (objects (Account.id row))
                                        (of_column (Account.balance row))))
              (accounts db)).

(** As [run_statements]; a value that the server refuses raises as well. *)
Fixpoint run_sent (env : Env) (i : nat) (sts : list Sent) (d : Database)
    : Database * bool :=
  match sts with
  | [] => (d, true)
  | st :: rest =>
      if faults_at env i then (d, false)
      else match received st with
           | Some statement =>
               run_sent env (S i) rest (execute (utcnow env i) statement d)
           | None => (d, false)
           end
  end.

Definition create_transaction_posted (env : Env) (db : Database)
    (body : Posted Json) : Outcome * Database :=
  match Decimal_of (posted_amount body) with
  | None => (Uncaught, db)
  | Some amount =>
      match source_of db (in_hundredths body None) with
      | None => (Reply (error "Unauthorized access to the account") 403, db)
      | Some from_account =>
          let to_account := target_of db (in_hundredths body None) in
          match process_posted (posted_type body) amount from_account to_account
                  (loaded db) with
          | inr early => (early, db)
          | inl objects =>
              let plan :=
                plan_posted db objects
                ++ [ADD_transaction (Some from_account) to_account amount
                      (type_text (posted_type body)) (posted_description body)] in
              match run_sent env 0 plan db with
              | (d, true) =>
                  if faults_at env (List.length plan)
                  then (Reply (error (fault_text env)) 500, db)
                  else (Reply (message "Transaction completed successfully") 201, d)
              | (_, false) => (Reply (error (fault_text env)) 500, db)
              end
          end
      end
  end.

Fixpoint serve_posted (db : Database) (calls : list (Env * Posted Json)) : Database :=
  match calls with
  | [] => db
  | (env, body) :: rest => serve_posted (snd (create_transaction_posted env db body)) rest
  end.

(** What the arithmetic and the server do with amounts of at most two
    decimals: sums, differences and comparisons are exact, and a value of
    two decimals is stored as it is. *)
Definition exact_on_hundredths : Prop :=
  (forall a b, py_add (of_column a) (of_column b) = Some (of_column (a + b))) /\
  (forall a b, py_sub (of_column a) (of_column b) = Some (of_column (a - b))) /\
  (forall a b, py_ge (of_column a) (of_column b) = Some (a >=? b)) /\
  (forall a b, py_same (of_column a) (of_column b) = (a =? b)) /\
  (forall a, to_column (of_column a) = Some a).

(** The amount of the body is refused by the constructor, or is a value
    of at most two decimals. *)
Definition two_decimals (body : Posted Json) : Prop :=
  Decimal_of (posted_amount body) = None \/
  exists h, Decimal_of (posted_amount body) = Some (of_column h).
End Posted.

(** ** An instance: amounts of at most three decimals

    Values are counts of thousandths; a JSON amount is such a count, or
    something that the constructor refuses; the server rounds to the
    nearest hundredth, halves away from zero. *)

Definition milli_of_column (h : Z) : Z := 10 * h.
Definition milli_add (a b : Z) : option Z := Some (a + b).
Definition milli_sub (a b : Z) : option Z := Some (a - b).
Definition milli_ge (a b : Z) : option bool := Some (a >=? b).
Definition milli_to_column (v : Z) : option Z :=
  Some (Z.sgn v * ((Z.abs v + 5) / 10)).
Definition milli_Decimal (j : option Z) : option Z := j.

Definition create_transaction_milli : Env -> Database -> Posted (option Z)
                                      -> Outcome * Database :=
  create_transaction_posted (option Z) Z milli_Decimal milli_of_column
    milli_add milli_sub milli_ge Z.eqb milli_to_column.

Definition posted (who : Z) (acct : string) (target : option string)
    (millis : option Z) (kind : string) : Posted (option Z) :=
  mkPosted who (Some acct) target millis (Some kind) "memo".

(** * Proofs *)

(** ** Records *)

Lemma with_balance_same (row : Account.t) :
  Account.with_balance (Account.balance row) row = row.
Proof. destruct row; reflexivity. Qed.

Lemma with_balance_twice (b b' : Decimal) (row : Account.t) :
  Account.with_balance b (Account.with_balance b' row) = Account.with_balance b row.
Proof. destruct row; reflexivity. Qed.

Lemma same_identity_refl (row : Account.t) : same_identity row row.
Proof. repeat split. Qed.

Lemma same_identity_written (ts : DateTime) (b : Decimal) (row : Account.t) :
  same_identity row (Account.with_updated_at ts (Account.with_balance b row)).
Proof. repeat split. Qed.

Lemma py_eq_true (v : option string) (s : string) :
  py_eq v s = true -> v = Some s.
Proof.
  destruct v as [x|]; simpl; [|discriminate].
  intros H. apply String.eqb_eq in H. now subst.
Qed.

(** ** Statements, row by row *)

Lemma execute_accounts (now : DateTime) (st : Statement) (d : Database) :
  accounts (execute now st d) = map (execute_row now st) (accounts d).
Proof.
  destruct st; simpl; [reflexivity|].
  now rewrite map_id.
Qed.

Lemma run_statements_accounts (env : Env) (sts : list Statement) :
  forall i d d' ok,
    run_statements env i sts d = (d', ok) ->
    ok = true ->
    accounts d' = map (row_after (utcnow env) i sts) (accounts d).
Proof.
  induction sts as [|st rest IH]; intros i d d' ok Hrun Hok; simpl in *.
  - injection Hrun as <- _. now rewrite map_id.
  - destruct (faults_at env i).
    + injection Hrun as _ <-. discriminate.
    + rewrite (IH _ _ _ _ Hrun Hok), execute_accounts, map_map. reflexivity.
Qed.

Lemma run_statements_app (env : Env) (a b : list Statement) :
  forall i d,
    run_statements env i (a ++ b) d =
    match run_statements env i a d with
    | (d1, true) => run_statements env (i + List.length a) b d1
    | (d1, false) => (d1, false)
    end.
Proof.
  induction a as [|st rest IH]; intros i d; simpl.
  - now rewrite Nat.add_0_r.
  - destruct (faults_at env i); [reflexivity|].
    rewrite IH. now rewrite Nat.add_succ_r.
Qed.

Lemma run_updates_transactions (env : Env) (sts : list Statement) :
  Forall is_update sts ->
  forall i d, transactions (fst (run_statements env i sts d)) = transactions d.
Proof.
  induction 1 as [|st rest Hst _ IH]; intros i d; simpl; [reflexivity|].
  destruct (faults_at env i); [reflexivity|].
  rewrite IH. destruct st; [reflexivity|contradiction].
Qed.

Lemma row_after_app (clock : nat -> DateTime) (a b : list Statement) :
  forall i row,
    row_after clock i (a ++ b) row =
    row_after clock (i + List.length a) b (row_after clock i a row).
Proof.
  induction a as [|st rest IH]; intros i row; simpl.
  - now rewrite Nat.add_0_r.
  - rewrite IH. now rewrite Nat.add_succ_r.
Qed.

(** ** The objects of a session against the rows they were loaded from *)

Section TrackingFacts.
Variable delta : Z -> Decimal.

Lemma writes_app (a b : list Account.t) : writes delta (a ++ b) = writes delta a ++ writes delta b.
Proof. unfold writes. now rewrite filter_app, map_app. Qed.

Lemma writes_are_updates (rows : list Account.t) : Forall is_update (writes delta rows).
Proof.
  unfold writes. apply Forall_forall. intros st Hin.
  apply in_map_iff in Hin as (row & <- & _). exact I.
Qed.

Lemma row_after_others (clock : nat -> DateTime) (row : Account.t) (rows : list Account.t) :
  ~ In (Account.id row) (map Account.id rows) ->
  forall i, row_after clock i (writes delta rows) row = row.
Proof.
  induction rows as [|r rest IH]; intros Hnot i; [reflexivity|].
  simpl in Hnot. unfold writes in *. simpl.
  destruct (moved delta r); simpl.
  - destruct (Z.eqb_spec (Account.id row) (Account.id r)) as [E|_].
    + exfalso. apply Hnot. left. now symmetry.
    + apply IH. tauto.
  - apply IH. tauto.
Qed.

Lemma row_after_writes (clock : nat -> DateTime) (rows : list Account.t) (row : Account.t) :
  NoDup (map Account.id rows) ->
  In row rows ->
  forall i, stepped delta row (row_after clock i (writes delta rows) row).
Proof.
  intros Hnd Hin i.
  apply in_split in Hin as (before & after & ->).
  rewrite map_app in Hnd. simpl in Hnd.
  pose proof (NoDup_remove_2 _ _ _ Hnd) as Hnot.
  assert (Hb : ~ In (Account.id row) (map Account.id before))
    by (intro; apply Hnot, in_or_app; now left).
  assert (Ha : ~ In (Account.id row) (map Account.id after))
    by (intro; apply Hnot, in_or_app; now right).
  rewrite writes_app, row_after_app, (row_after_others _ _ _ Hb).
  change (row :: after) with ([row] ++ after).
  rewrite writes_app, row_after_app.
  rewrite (row_after_others clock).
  - unfold writes, moved. simpl.
    destruct (Z.eqb_spec (delta (Account.id row)) 0) as [E|E]; simpl.
    + left. split; [assumption|reflexivity].
    + right. split; [assumption|]. rewrite Z.eqb_refl. eauto.
  - unfold writes, moved. simpl.
    destruct (negb (delta (Account.id row) =? 0)); simpl; [|assumption].
    rewrite Z.eqb_refl. simpl. assumption.
Qed.

Lemma flush_plan_tracks (db : Database) (s : Session) (p : Transaction.pending) :
  tracks delta db s ->
  flush_plan (add p s) = writes delta (accounts db) ++ [INSERT_transactions p].
Proof.
  intros (_ & _ & Hnew & Hmap). unfold flush_plan, add. simpl.
  rewrite Hnew, Hmap. clear Hmap. simpl. f_equal.
  unfold writes. induction (accounts db) as [|r rest IH]; [reflexivity|].
  simpl. unfold moved at 1.
  replace (Account.balance r + delta (Account.id r) =? Account.balance r)
    with (delta (Account.id r) =? 0).
  - destruct (negb (delta (Account.id r) =? 0)); simpl; now rewrite IH.
  - destruct (Z.eqb_spec (delta (Account.id r)) 0), (Z.eqb_spec (Account.balance r + delta (Account.id r)) (Account.balance r)); (reflexivity || lia).
Qed.
End TrackingFacts.

Lemma Forall2_map_in {A B : Type} (R : A -> B -> Prop) (f : A -> B) (l : list A) :
  (forall x, In x l -> R x (f x)) -> Forall2 R l (map f l).
Proof.
  induction l as [|a l IH]; intros H; simpl; constructor.
  - apply H. now left.
  - apply IH. intros x Hx. apply H. now right.
Qed.

Lemma tracks_ext (delta delta' : Z -> Decimal) (db : Database) (s : Session) :
  (forall row, In row (accounts db) -> delta (Account.id row) = delta' (Account.id row)) ->
  tracks delta db s -> tracks delta' db s.
Proof.
  intros Hext (Hc & Ht & Hn & Hm). repeat split; try assumption.
  rewrite Hm. apply map_ext_in. intros row Hin. unfold touch.
  now rewrite (Hext row Hin).
Qed.

Lemma tracks_SessionLocal (db : Database) : tracks (fun _ => 0) db (SessionLocal db).
Proof.
  repeat split. simpl. apply map_ext. intros row. unfold touch, load.
  now rewrite Z.add_0_r, with_balance_same.
Qed.

Lemma find_touch (delta : Z -> Decimal) (rows : list Account.t) (row : Account.t) :
  NoDup (map Account.id rows) ->
  In row rows ->
  find (fun l => Account.id (object l) =? Account.id row) (map (touch delta) rows)
  = Some (touch delta row).
Proof.
  induction rows as [|r rest IH]; intros Hnd Hin; [contradiction|].
  simpl in *. inversion Hnd as [|? ? Hnot Hnd']; subst.
  destruct (Z.eqb_spec (Account.id r) (Account.id row)) as [E|E].
  - destruct Hin as [->|Hin]; [reflexivity|].
    exfalso. apply Hnot. rewrite E. now apply in_map.
  - destruct Hin as [->|Hin]; [contradiction|]. now apply IH.
Qed.

Lemma get_balance_tracks (delta : Z -> Decimal) (db : Database) (s : Session)
    (row : Account.t) :
  primary_key db -> tracks delta db s -> In row (accounts db) ->
  get_balance s (Account.id row) = Account.balance row + delta (Account.id row).
Proof.
  intros Hpk (_ & _ & _ & Hm) Hin. unfold get_balance.
  now rewrite Hm, (find_touch delta _ _ Hpk Hin).
Qed.

Lemma tracks_shift (delta : Z -> Decimal) (db : Database) (s : Session)
    (pk : Z) (x : Decimal) :
  primary_key db -> tracks delta db s ->
  tracks (fun k => delta k + (if k =? pk then x else 0)) db
    (set_balance pk (get_balance s pk + x) s).
Proof.
  intros Hpk Htr. pose proof Htr as (Hc & Ht & Hn & Hm).
  repeat split; try assumption. simpl. rewrite Hm, map_map.
  apply map_ext_in. intros row Hin. simpl.
  destruct (Z.eqb_spec (Account.id row) pk) as [E|E].
  - subst pk. rewrite (get_balance_tracks _ _ _ _ Hpk Htr Hin).
    unfold touch. simpl. rewrite with_balance_twice, Z.eqb_refl. do 2 f_equal. lia.
  - unfold touch. simpl. destruct (Z.eqb_spec (Account.id row) pk); [contradiction|].
    now rewrite Z.add_0_r.
Qed.

Lemma tracks_iadd (delta : Z -> Decimal) (db : Database) (s : Session)
    (pk : Z) (x : Decimal) :
  primary_key db -> tracks delta db s ->
  tracks (fun k => delta k + (if k =? pk then x else 0)) db (iadd_balance pk x s).
Proof. apply tracks_shift. Qed.

Lemma tracks_isub (delta : Z -> Decimal) (db : Database) (s : Session)
    (pk : Z) (x : Decimal) :
  primary_key db -> tracks delta db s ->
  tracks (fun k => delta k + (if k =? pk then - x else 0)) db (isub_balance pk x s).
Proof.
  intros Hpk Htr. unfold isub_balance.
  replace (get_balance s pk - x) with (get_balance s pk + - x) by lia.
  now apply tracks_shift.
Qed.

(** ** What a commit leaves in the store *)

Lemma commit_tracks (env : Env) (delta : Z -> Decimal) (db : Database)
    (s : Session) (p : Transaction.pending) :
  primary_key db -> tracks delta db s ->
  match commit env (add p s) with
  | SQLAlchemyError s' => committed s' = db
  | Returns s' =>
      Forall2 (stepped delta) (accounts db) (accounts (committed s')) /\
      exists ts, transactions (committed s') = transactions db ++ [inserted db p ts]
  end.
Proof.
  intros Hpk Htr. unfold commit.
  rewrite (flush_plan_tracks delta db s p Htr).
  destruct Htr as (Hc & Ht & _ & _).
  replace (txn (add p s)) with db by (symmetry; exact Ht).
  replace (committed (add p s)) with db by (symmetry; exact Hc).
  rewrite run_statements_app.
  pose proof (run_updates_transactions env _ (writes_are_updates delta (accounts db)) 0%nat db) as Hled.
  destruct (run_statements env 0 (writes delta (accounts db)) db) as [d1 ok1] eqn:Hrun.
  simpl in Hled. destruct ok1; [|reflexivity].
  pose proof (run_statements_accounts env _ _ _ _ _ Hrun eq_refl) as Hacc.
  simpl. destruct (faults_at env (List.length (writes delta (accounts db)))); [reflexivity|].
  destruct (faults_at env _); [reflexivity|].
  simpl. split.
  - rewrite Hacc. apply Forall2_map_in. intros row Hin.
    now apply row_after_writes.
  - rewrite Hled. eexists. reflexivity.
Qed.

(** ** The branch on the transaction type *)

Lemma process_tracks (db : Database) (ty : option string) (amt : Decimal)
    (src : Z) (tgt : option Z) (s' : Session) (e : Transaction.t) :
  primary_key db ->
  process ty amt src tgt (SessionLocal db) = inl s' ->
  Transaction.type e = type_text ty ->
  Transaction.from_account_id e = Some src ->
  Transaction.to_account_id e = tgt ->
  Transaction.amount e = amt ->
  tracks (effect e) db s'.
Proof.
  intros Hpk Hproc Hty Hfrom Hto Hamt.
  pose proof (tracks_SessionLocal db) as H0.
  unfold process in Hproc.
  destruct (py_eq ty "deposit") eqn:Ed.
  { apply py_eq_true in Ed. subst ty. injection Hproc as <-.
    eapply tracks_ext; [|apply (tracks_iadd _ _ _ src amt Hpk H0)].
    intros row _. unfold effect, credit, debit.
    rewrite Hty, Hfrom, Hamt. simpl. split_eqb; subst; lia. }
  destruct (py_eq ty "withdrawal") eqn:Ew.
  { apply py_eq_true in Ew. subst ty.
    destruct (get_balance (SessionLocal db) src >=? amt); [|discriminate].
    injection Hproc as <-.
    eapply tracks_ext; [|apply (tracks_isub _ _ _ src amt Hpk H0)].
    intros row _. unfold effect, credit, debit.
    rewrite Hty, Hfrom, Hamt. simpl. split_eqb; subst; lia. }
  destruct (py_eq ty "transfer") eqn:Et; [|discriminate].
  apply py_eq_true in Et. subst ty.
  destruct (py_and (get_balance (SessionLocal db) src >=? amt) tgt) as [target|] eqn:Eand;
    [|discriminate].
  unfold py_and in Eand.
  destruct (get_balance (SessionLocal db) src >=? amt); [|discriminate].
  subst tgt. injection Hproc as <-.
  eapply tracks_ext;
    [|apply (tracks_iadd _ _ _ target amt Hpk (tracks_isub _ _ _ src amt Hpk H0))].
  intros row _. unfold effect, credit, debit.
  rewrite Hty, Hfrom, Hto, Hamt. simpl. split_eqb; subst; lia.
Qed.

(** The cases in which [process] lets the request through. *)
Lemma process_kinds (ty : option string) (amt : Decimal) (src : Z)
    (tgt : option Z) (s s' : Session) :
  process ty amt src tgt s = inl s' ->
  ty = Some "deposit" \/
  (ty = Some "withdrawal" /\ amt <= get_balance s src) \/
  (ty = Some "transfer" /\ amt <= get_balance s src /\ tgt <> None).
Proof.
  unfold process. intros Hproc.
  destruct (py_eq ty "deposit") eqn:Ed.
  { left. now apply py_eq_true. }
  destruct (py_eq ty "withdrawal") eqn:Ew.
  { right; left. destruct (Z.geb_spec (get_balance s src) amt); [|discriminate].
    split; [now apply py_eq_true | lia]. }
  destruct (py_eq ty "transfer") eqn:Et; [|discriminate].
  right; right. unfold py_and in Hproc.
  destruct (Z.geb_spec (get_balance s src) amt); [|discriminate].
  destruct tgt; [|discriminate].
  repeat split; [now apply py_eq_true | lia | discriminate].
Qed.

(** ** Lookups *)

Lemma get_balance_SessionLocal (db : Database) (pk : Z) :
  get_balance (SessionLocal db) pk = balance_of db pk.
Proof.
  unfold get_balance, balance_of. simpl.
  induction (accounts db) as [|r rest IH]; [reflexivity|].
  simpl. destruct (Account.id r =? pk); [reflexivity|exact IH].
Qed.

Lemma find_id_in (f : Account.t -> bool) (rows : list Account.t) (pk : Z) :
  option_map Account.id (find f rows) = Some pk ->
  exists row, In row rows /\ Account.id row = pk /\ f row = true.
Proof.
  destruct (find f rows) as [row|] eqn:E; [|discriminate].
  simpl. intros [= <-]. apply find_some in E. exists row. tauto.
Qed.

Lemma source_of_in (db : Database) (req : Request) (src : Z) :
  source_of db req = Some src -> In src (map Account.id (accounts db)).
Proof.
  intros H. apply find_id_in in H as (row & Hin & <- & _). now apply in_map.
Qed.

Lemma target_of_in (db : Database) (req : Request) (tgt : Z) :
  target_of db req = Some tgt -> In tgt (map Account.id (accounts db)).
Proof.
  unfold target_of. destruct (truthy (to_account_number req)); [|discriminate].
  intros H. apply find_id_in in H as (row & Hin & <- & _). now apply in_map.
Qed.

(** ** The two ways a request ends *)

Lemma create_transaction_cases (env : Env) (db : Database) (req : Request) :
  primary_key db ->
  (fst (create_transaction env db req) <> completed /\
   snd (create_transaction env db req) = db) \/
  (fst (create_transaction env db req) = completed /\
   exists src amt ts,
     source_of db req = Some src /\
     amount req = Some amt /\
     (type req = Some "deposit" \/
      (type req = Some "withdrawal" /\ amt <= balance_of db src) \/
      (type req = Some "transfer" /\ amt <= balance_of db src /\
       target_of db req <> None)) /\
     let e := Transaction.mk (auto_increment (transactions db)) (Some src)
                (target_of db req) amt (type_text (type req)) (description req) ts in
     transactions (snd (create_transaction env db req)) = transactions db ++ [e] /\
     Forall2 (stepped (effect e)) (accounts db)
       (accounts (snd (create_transaction env db req)))).
Proof.
  intros Hpk. unfold create_transaction.
  destruct (amount req) as [amt|] eqn:Eamt; [|left; split; [discriminate|reflexivity]].
  fold (source_of db req). fold (target_of db req).
  destruct (source_of db req) as [src|] eqn:Esrc;
    [|left; split; [discriminate|reflexivity]].
  destruct (process (type req) amt src (target_of db req) (SessionLocal db))
    as [s'|early] eqn:Eproc.
  - set (p := Transaction.new (Some src) (target_of db req) amt
                (type_text (type req)) (description req)).
    assert (Htr : forall ts, tracks (effect (inserted db p ts)) db s').
    { intros ts. now apply (process_tracks db (type req) amt src (target_of db req)). }
    pose proof (commit_tracks env _ db s' p Hpk (Htr 0)) as Hcommit.
    apply process_kinds in Eproc. rewrite get_balance_SessionLocal in Eproc.
    destruct (commit env (add p s')) as [s''|s''].
    + right. split; [reflexivity|].
      destruct Hcommit as (Hrows & ts & Hled).
      exists src, amt, ts. repeat split; try assumption.
    + left. split; [discriminate|]. simpl. exact Hcommit.
  - left. split; [|reflexivity].
    unfold process in Eproc.
    repeat match type of Eproc with
           | (if ?c then _ else _) = _ => destruct c
           | match ?c with _ => _ end = _ => destruct c
           end; try discriminate; injection Eproc as <-; discriminate.
Qed.

Lemma stepped_facts (delta : Z -> Decimal) (row row' : Account.t) :
  stepped delta row row' ->
  same_identity row row' /\
  Account.balance row' = Account.balance row + delta (Account.id row) /\
  (delta (Account.id row) = 0 -> row' = row).
Proof.
  intros [(H0 & ->)|(Hn & ts & ->)].
  - repeat split; try assumption. lia.
  - repeat split. intros H0. contradiction.
Qed.

Lemma stepped_ids (delta : Z -> Decimal) (rows rows' : list Account.t) :
  Forall2 (stepped delta) rows rows' ->
  map Account.id rows' = map Account.id rows.
Proof.
  induction 1 as [|row row' rows rows' Hst _ IH]; [reflexivity|].
  simpl. apply stepped_facts in Hst as ((Hid & _) & _). now rewrite Hid, IH.
Qed.

Lemma stepped_find (delta : Z -> Decimal) (rows rows' : list Account.t) (pk : Z) :
  Forall2 (stepped delta) rows rows' ->
  match find (fun row => Account.id row =? pk) rows,
        find (fun row => Account.id row =? pk) rows' with
  | Some row, Some row' => Account.balance row' = Account.balance row + delta pk
  | None, None => ~ In pk (map Account.id rows)
  | _, _ => False
  end.
Proof.
  induction 1 as [|row row' rows rows' Hst _ IH]; simpl; [tauto|].
  apply stepped_facts in Hst as ((Hid & _) & Hbal & _). rewrite Hid.
  destruct (Z.eqb_spec (Account.id row) pk) as [E|E].
  - now rewrite <- E.
  - destruct (find _ rows), (find _ rows'); try assumption.
    intros [H|H]; [contradiction|now apply IH].
Qed.

Lemma primary_key_bank : primary_key bank.
Proof.
  unfold primary_key. simpl. repeat constructor; simpl; intuition discriminate.
Defined.

Lemma credits_app (a b : list Transaction.t) (pk : Z) :
  credits (a ++ b) pk = credits a pk + credits b pk.
Proof. induction a as [|t a IH]; simpl; [reflexivity|]. rewrite IH. lia. Qed.

Lemma debits_app (a b : list Transaction.t) (pk : Z) :
  debits (a ++ b) pk = debits a pk + debits b pk.
Proof. induction a as [|t a IH]; simpl; [reflexivity|]. rewrite IH. lia. Qed.

Lemma primary_key_create_transaction (env : Env) (db : Database) (req : Request) :
  primary_key db -> primary_key (snd (create_transaction env db req)).
Proof.
  intros Hpk.
  destruct (create_transaction_cases env db req Hpk)
    as [(_ & ->)|(_ & src & amt & ts & _ & _ & _ & _ & Hrows)]; [assumption|].
  unfold primary_key. now rewrite (stepped_ids _ _ _ Hrows).
Qed.

Lemma provisioned_create_transaction (env : Env) (db : Database) (req : Request)
    (pk : Z) :
  primary_key db ->
  provisioned (snd (create_transaction env db req)) pk = provisioned db pk.
Proof.
  intros Hpk.
  destruct (create_transaction_cases env db req Hpk)
    as [(_ & ->)|(_ & src & amt & ts & Hsrc & _ & _ & Hled & Hrows)]; [reflexivity|].
  unfold provisioned. rewrite Hled, credits_app, debits_app. simpl.
  pose proof (stepped_find _ _ _ pk Hrows) as Hfind.
  unfold balance_of.
  destruct (find _ (accounts db)) as [row|],
           (find _ (accounts (snd (create_transaction env db req)))) as [row'|];
    try contradiction.
  - rewrite Hfind. unfold effect. lia.
  - assert (Hs : src <> pk).
    { intros ->. now apply Hfind, (source_of_in db req). }
    unfold credit, debit. simpl.
    replace (src =? pk) with false by (symmetry; now apply Z.eqb_neq).
    rewrite !andb_false_r.
    destruct (target_of db req) as [tgt|] eqn:Etgt; simpl.
    + assert (Ht : tgt <> pk).
      { intros ->. now apply Hfind, (target_of_in db req). }
      replace (tgt =? pk) with false by (symmetry; now apply Z.eqb_neq).
      rewrite !andb_false_r. lia.
    + rewrite !andb_false_r. lia.
Qed.

Lemma run_statements_sound (env : Env) (sts : list Statement) :
  fault env = None ->
  forall i d, snd (run_statements env i sts d) = true.
Proof.
  intros Hf. induction sts as [|st rest IH]; intros i d; simpl; [reflexivity|].
  unfold faults_at. rewrite Hf. apply IH.
Qed.

Lemma commit_sound (env : Env) (s : Session) :
  fault env = None -> exists s', commit env s = Returns s'.
Proof.
  intros Hf. unfold commit.
  pose proof (run_statements_sound env (flush_plan s) Hf 0%nat (txn s)) as Hrun.
  destruct (run_statements env 0 (flush_plan s) (txn s)) as [d ok].
  simpl in Hrun. subst ok. unfold faults_at. rewrite Hf. eauto.
Qed.

Lemma create_transaction_sound (env : Env) (db : Database) (req : Request)
    (src : Z) (amt : Decimal) (s' : Session) :
  fault env = None ->
  amount req = Some amt ->
  source_of db req = Some src ->
  process (type req) amt src (target_of db req) (SessionLocal db) = inl s' ->
  fst (create_transaction env db req) = completed.
Proof.
  intros Hf Hamt Hsrc Hproc. unfold create_transaction.
  rewrite Hamt. fold (source_of db req). fold (target_of db req).
  rewrite Hsrc, Hproc.
  destruct (commit_sound env
              (add (Transaction.new (Some src) (target_of db req) amt
                      (type_text (type req)) (description req)) s') Hf) as (s'' & ->).
  reflexivity.
Qed.


Lemma foreign_to_bob :
  forall row, In row (accounts bank) ->
    from_account_number (withdrawal_req 20 "ACC-1" 250) = Some (Account.account_number row) ->
    Account.user_id row <> jwt_identity (withdrawal_req 20 "ACC-1" 250).
Proof.
  intros row [<-|[<-|[<-|[]]]]; simpl; intros H; discriminate.
Defined.

(** A fault on the second statement of a transfer's flush: the open
    transaction already holds the debit of the source, the credit of the
    target and the ledger row are missing, and the store is untouched. *)
Example interrupted_flush :
  match process (Some "transfer") 250 1 (Some 2) (SessionLocal bank) with
  | inl s =>
      match commit (broken_at 1)
              (add (Transaction.new (Some 1) (Some 2) 250 "transfer" "memo") s) with
      | SQLAlchemyError s' =>
          balance_of (txn s') 1 = 9750 /\ balance_of (txn s') 2 = 5000 /\
          transactions (txn s') = [] /\ committed s' = bank /\
          close_session (rollback s') = bank
      | Returns _ => False
      end
  | inr _ => False
  end.
Proof. vm_compute. repeat split. Qed.

(** * The claims *)



(** C2 (as stated, refuted). A negative or zero amount is not rejected:
    the route converts the amount and goes straight to the branch on the
    type, so a deposit of -2.50 by the owner completes, takes 2.50 off the
    balance and writes a ledger row; a deposit of 0.00 completes and
    writes a ledger row too. *)
Lemma C2_negative_amount_accepted :
  amount (deposit_req 10 "ACC-1" (-250)) = Some (-250) /\
  fst (create_transaction sound bank (deposit_req 10 "ACC-1" (-250))) = completed /\
  balance_of bank 1 = 10000 /\
  balance_of (snd (create_transaction sound bank (deposit_req 10 "ACC-1" (-250)))) 1 = 9750 /\
  List.length (transactions (snd (create_transaction sound bank (deposit_req 10 "ACC-1" (-250))))) = 1%nat /\
  fst (create_transaction sound bank (deposit_req 10 "ACC-1" 0)) = completed /\
  List.length (transactions (snd (create_transaction sound bank (deposit_req 10 "ACC-1" 0)))) = 1%nat.
Proof. vm_compute. repeat split. Qed.









(** With the amount in hundredths.
    When no account carries the source account number under the
    caller's ownership (the number belongs to some other user, or to no
    account at all, or the request gives none), a request with a numeric amount is
    answered 403 "Unauthorized access to the account", whatever its type,
    its target, its amount and the balances; the store is left as it was.
    The reply does not tell a foreign account from a missing one. *)
Theorem not_owner_in_hundredths (env : Env) (db : Database) (req : Request)
    (amt : Decimal) :
  amount req = Some amt ->
  (forall row, In row (accounts db) ->
     from_account_number req = Some (Account.account_number row) ->
     Account.user_id row <> jwt_identity req) ->
  create_transaction env db req
  = (Reply (error "Unauthorized access to the account") 403, db).
Proof.
  intros Hamt Hforeign. unfold create_transaction. rewrite Hamt.
  unfold validate_account_owner_by_number. simpl txn.
  destruct (find _ (accounts db)) as [row|] eqn:Efind; [|reflexivity].
  exfalso. apply find_some in Efind as (Hin & Hrow).
  apply andb_prop in Hrow as (Hnum & Huser).
  apply py_eq_true in Hnum. apply Z.eqb_eq in Huser.
  exact (Hforeign row Hin Hnum Huser).
Qed.

Lemma not_owner_in_hundredths_witness :
  create_transaction sound bank (withdrawal_req 20 "ACC-1" 250)
  = (Reply (error "Unauthorized access to the account") 403, bank).
Proof.
  apply (not_owner_in_hundredths sound bank (withdrawal_req 20 "ACC-1" 250) 250).
  - reflexivity.
  - exact foreign_to_bob.
Defined.

(** With the amount in hundredths.
    Conservation. For every account, the balance minus the credits
    plus the debits that the ledger records for it is the same after a
    request as before, whatever the request and whatever the store does;
    hence it is the same after any sequence of requests. Starting from a
    store with an empty ledger, that constant is the balance the account
    was provisioned with. *)
Theorem conservation_in_hundredths (db : Database) (pk : Z) :
  primary_key db ->
  (forall env req,
     provisioned (snd (create_transaction env db req)) pk = provisioned db pk) /\
  (forall calls, provisioned (serve db calls) pk = provisioned db pk) /\
  (transactions db = [] ->
   forall calls,
     balance_of (serve db calls) pk
     - credits (transactions (serve db calls)) pk
     + debits (transactions (serve db calls)) pk
     = balance_of db pk).
Proof.
  intros Hpk.
  assert (Hrun : forall calls d, primary_key d ->
                   provisioned (serve d calls) pk = provisioned d pk).
  { induction calls as [|[env req] rest IH]; intros d Hd; [reflexivity|].
    simpl. rewrite IH by now apply primary_key_create_transaction.
    now apply provisioned_create_transaction. }
  split; [|split].
  - intros env req. now apply provisioned_create_transaction.
  - intros calls. now apply Hrun.
  - intros Hempty calls. fold (provisioned (serve db calls) pk).
    rewrite (Hrun calls db Hpk). unfold provisioned. rewrite Hempty. simpl. lia.
Qed.

Lemma conservation_in_hundredths_witness :
  primary_key bank /\
  transactions bank = [] /\
  balance_of (serve bank busy_day) 1
  - credits (transactions (serve bank busy_day)) 1
  + debits (transactions (serve bank busy_day)) 1
  = balance_of bank 1.
Proof.
  split; [exact primary_key_bank|]. split; [reflexivity|].
  exact (proj2 (proj2 (conservation_in_hundredths bank 1 primary_key_bank)) eq_refl busy_day).
Defined.

(** With the amount in hundredths.
    A withdrawal row carries a target reference
    whenever the request names an existing account as its target: the
    route records the looked-up target for every type. *)
Lemma withdrawal_row_with_target_in_hundredths :
  fst (create_transaction sound bank
         (mkRequest 10 (Some "ACC-1") (Some "ACC-2") (Some 100) (Some "withdrawal") "memo"))
  = completed /\
  map (fun t => (Transaction.type t, Transaction.from_account_id t, Transaction.to_account_id t))
    (transactions (snd (create_transaction sound bank
       (mkRequest 10 (Some "ACC-1") (Some "ACC-2") (Some 100) (Some "withdrawal") "memo"))))
  = [("withdrawal", Some 1, Some 2)].
Proof. vm_compute. repeat split. Qed.

(** With the amount in hundredths.
    A request leaves the rows already in the ledger as they
    are and appends at most one. The appended row has its source reference
    present: it is the caller's source account, so the two references are
    never both absent. Its target reference is the account that the
    request's target number resolves to, whatever the type: always present
    on a transfer row, and present on a deposit or withdrawal row exactly
    when the request names an existing target. Its type is one of deposit,
    withdrawal, transfer. *)
Theorem ledger_rows_in_hundredths (env : Env) (db : Database) (req : Request) :
  primary_key db ->
  exists rows,
    transactions (snd (create_transaction env db req)) = transactions db ++ rows /\
    (List.length rows <= 1)%nat /\
    Forall (fun e =>
              Transaction.from_account_id e <> None /\
              Transaction.from_account_id e = source_of db req /\
              Transaction.to_account_id e = target_of db req /\
              type req = Some (Transaction.type e) /\
              In (Transaction.type e) ["deposit"; "withdrawal"; "transfer"] /\
              (Transaction.type e = "transfer" -> Transaction.to_account_id e <> None))
      rows.
Proof.
  intros Hpk.
  destruct (create_transaction_cases env db req Hpk)
    as [(_ & ->)|(_ & src & amt & ts & Hsrc & _ & Hkind & Hled & _)].
  - exists []. rewrite app_nil_r. repeat split; [apply Nat.le_0_l | constructor].
  - eexists. split; [exact Hled|]. split; [apply Nat.le_refl|].
    constructor; [|constructor]. simpl. rewrite Hsrc.
    destruct Hkind as [Hty|[(Hty & _)|(Hty & _ & Htgt)]]; rewrite Hty; simpl;
      repeat split; try discriminate; auto.
Qed.

Lemma ledger_rows_in_hundredths_witness :
  exists rows,
    transactions (snd (create_transaction sound bank (transfer_req 10 "ACC-1" "ACC-2" 250)))
    = transactions bank ++ rows /\
    (List.length rows <= 1)%nat /\
    Forall (fun e =>
              Transaction.from_account_id e <> None /\
              Transaction.from_account_id e
              = source_of bank (transfer_req 10 "ACC-1" "ACC-2" 250) /\
              Transaction.to_account_id e
              = target_of bank (transfer_req 10 "ACC-1" "ACC-2" 250) /\
              type (transfer_req 10 "ACC-1" "ACC-2" 250) = Some (Transaction.type e) /\
              In (Transaction.type e) ["deposit"; "withdrawal"; "transfer"] /\
              (Transaction.type e = "transfer" -> Transaction.to_account_id e <> None))
      rows.
Proof.
  exact (ledger_rows_in_hundredths sound bank (transfer_req 10 "ACC-1" "ACC-2" 250) primary_key_bank).
Defined.



(** * Further properties of [create_transaction] *)

(** The ledger row of a completed request, and the balances by it. *)
Lemma completed_balances (env : Env) (db : Database) (req : Request) :
  primary_key db ->
  fst (create_transaction env db req) = completed ->
  exists src amt ts,
    source_of db req = Some src /\
    amount req = Some amt /\
    (type req = Some "deposit" \/
     (type req = Some "withdrawal" /\ amt <= balance_of db src) \/
     (type req = Some "transfer" /\ amt <= balance_of db src /\
      target_of db req <> None)) /\
    let e := Transaction.mk (auto_increment (transactions db)) (Some src)
               (target_of db req) amt (type_text (type req)) (description req) ts in
    transactions (snd (create_transaction env db req)) = transactions db ++ [e] /\
    Forall2 (stepped (effect e)) (accounts db)
      (accounts (snd (create_transaction env db req))) /\
    forall pk,
      balance_of (snd (create_transaction env db req)) pk
      = balance_of db pk + effect e pk.
Proof.
  intros Hpk Hok.
  destruct (create_transaction_cases env db req Hpk)
    as [(Hno & _)|(_ & src & amt & ts & Hsrc & Hamt & Hkind & Hled & Hrows)];
    [contradiction|].
  exists src, amt, ts. repeat split; try assumption.
  intros pk. pose proof (stepped_find _ _ _ pk Hrows) as Hfind.
  unfold balance_of.
  destruct (find _ (accounts db)) as [row|],
           (find _ (accounts (snd (create_transaction env db req)))) as [row'|];
    try contradiction; [exact Hfind|].
  assert (Hs : src <> pk).
  { intros ->. now apply Hfind, (source_of_in db req). }
  unfold effect, credit, debit. simpl.
  replace (src =? pk) with false by (symmetry; now apply Z.eqb_neq).
  rewrite !andb_false_r.
  destruct (target_of db req) as [tgt|] eqn:Etgt; simpl.
  - assert (Ht : tgt <> pk).
    { intros ->. now apply Hfind, (target_of_in db req). }
    replace (tgt =? pk) with false by (symmetry; now apply Z.eqb_neq).
    now rewrite !andb_false_r.
  - now rewrite !andb_false_r.
Qed.

Lemma process_deposit (amt : Decimal) (src : Z) (tgt : option Z) (s : Session) :
  process (Some "deposit") amt src tgt s = inl (iadd_balance src amt s).
Proof. reflexivity. Qed.

Lemma process_withdrawal (amt : Decimal) (src : Z) (tgt : option Z) (s : Session) :
  amt <= get_balance s src ->
  process (Some "withdrawal") amt src tgt s = inl (isub_balance src amt s).
Proof.
  intros Hle. unfold process. simpl py_eq. cbv iota.
  destruct (Z.geb_spec (get_balance s src) amt); [reflexivity|lia].
Qed.

Lemma process_transfer (amt : Decimal) (src tgt : Z) (s : Session) :
  amt <= get_balance s src ->
  process (Some "transfer") amt src (Some tgt) s
  = inl (iadd_balance tgt amt (isub_balance src amt s)).
Proof.
  intros Hle. unfold process. simpl py_eq. cbv iota. unfold py_and.
  destruct (Z.geb_spec (get_balance s src) amt); [reflexivity|lia].
Qed.

(** With the amount in hundredths.
    A deposit by the owner of the source account, on a store that
    raises nothing, completes: the source balance grows by the amount and
    no other balance moves. The amount may be of any sign. *)
Theorem deposit_completes (env : Env) (db : Database) (req : Request)
    (src : Z) (amt : Decimal) :
  primary_key db ->
  fault env = None ->
  type req = Some "deposit" ->
  amount req = Some amt ->
  source_of db req = Some src ->
  fst (create_transaction env db req) = completed /\
  balance_of (snd (create_transaction env db req)) src = balance_of db src + amt /\
  forall pk, pk <> src ->
    balance_of (snd (create_transaction env db req)) pk = balance_of db pk.
Proof.
  intros Hpk Hf Hty Hamt Hsrc.
  assert (Hok : fst (create_transaction env db req) = completed).
  { eapply (create_transaction_sound env db req src amt); try eassumption.
    rewrite Hty. apply process_deposit. }
  split; [exact Hok|].
  destruct (completed_balances env db req Hpk Hok)
    as (src' & amt' & ts & Hsrc' & Hamt' & _ & _ & _ & Hbal).
  rewrite Hsrc in Hsrc'. injection Hsrc' as <-.
  rewrite Hamt in Hamt'. injection Hamt' as <-.
  split; [|intros pk Hne]; rewrite Hbal; unfold effect, credit, debit;
    rewrite Hty; simpl.
  - rewrite Z.eqb_refl. simpl. lia.
  - replace (src =? pk) with false by (symmetry; apply Z.eqb_neq; congruence).
    simpl. lia.
Qed.

Lemma deposit_completes_witness :
  fst (create_transaction sound bank (deposit_req 10 "ACC-1" 250)) = completed /\
  balance_of (snd (create_transaction sound bank (deposit_req 10 "ACC-1" 250))) 1
  = balance_of bank 1 + 250 /\
  forall pk, pk <> 1 ->
    balance_of (snd (create_transaction sound bank (deposit_req 10 "ACC-1" 250))) pk
    = balance_of bank pk.
Proof.
  apply (deposit_completes sound bank (deposit_req 10 "ACC-1" 250) 1 250
           primary_key_bank); reflexivity.
Defined.

(** With the amount in hundredths.
    A withdrawal of no more than the balance by the owner of the
    source account, on a store that raises nothing, completes: the source
    balance shrinks by the amount and no other balance moves. *)
Theorem withdrawal_completes (env : Env) (db : Database) (req : Request)
    (src : Z) (amt : Decimal) :
  primary_key db ->
  fault env = None ->
  type req = Some "withdrawal" ->
  amount req = Some amt ->
  source_of db req = Some src ->
  amt <= balance_of db src ->
  fst (create_transaction env db req) = completed /\
  balance_of (snd (create_transaction env db req)) src = balance_of db src - amt /\
  forall pk, pk <> src ->
    balance_of (snd (create_transaction env db req)) pk = balance_of db pk.
Proof.
  intros Hpk Hf Hty Hamt Hsrc Hle.
  assert (Hok : fst (create_transaction env db req) = completed).
  { eapply (create_transaction_sound env db req src amt); try eassumption.
    rewrite Hty. apply process_withdrawal. now rewrite get_balance_SessionLocal. }
  split; [exact Hok|].
  destruct (completed_balances env db req Hpk Hok)
    as (src' & amt' & ts & Hsrc' & Hamt' & _ & _ & _ & Hbal).
  rewrite Hsrc in Hsrc'. injection Hsrc' as <-.
  rewrite Hamt in Hamt'. injection Hamt' as <-.
  split; [|intros pk Hne]; rewrite Hbal; unfold effect, credit, debit;
    rewrite Hty; simpl.
  - rewrite Z.eqb_refl. simpl. lia.
  - replace (src =? pk) with false by (symmetry; apply Z.eqb_neq; congruence).
    simpl. lia.
Qed.

Lemma withdrawal_completes_witness :
  fst (create_transaction sound bank (withdrawal_req 10 "ACC-1" 10000)) = completed /\
  balance_of (snd (create_transaction sound bank (withdrawal_req 10 "ACC-1" 10000))) 1
  = balance_of bank 1 - 10000 /\
  forall pk, pk <> 1 ->
    balance_of (snd (create_transaction sound bank (withdrawal_req 10 "ACC-1" 10000))) pk
    = balance_of bank pk.
Proof.
  apply (withdrawal_completes sound bank (withdrawal_req 10 "ACC-1" 10000) 1 10000
           primary_key_bank); reflexivity.
Defined.

(** With the amount in hundredths.
    A transfer of no more than the source balance to another existing
    account, by the owner of the source, on a store that raises nothing,
    completes: the source loses the amount, the target gains it, whoever
    owns the target, and no other balance moves. The amount may be
    negative, in which case the money flows from the target to the
    source. *)
Theorem transfer_completes (env : Env) (db : Database) (req : Request)
    (src tgt : Z) (amt : Decimal) :
  primary_key db ->
  fault env = None ->
  type req = Some "transfer" ->
  amount req = Some amt ->
  source_of db req = Some src ->
  target_of db req = Some tgt ->
  tgt <> src ->
  amt <= balance_of db src ->
  fst (create_transaction env db req) = completed /\
  balance_of (snd (create_transaction env db req)) src = balance_of db src - amt /\
  balance_of (snd (create_transaction env db req)) tgt = balance_of db tgt + amt /\
  forall pk, pk <> src -> pk <> tgt ->
    balance_of (snd (create_transaction env db req)) pk = balance_of db pk.
Proof.
  intros Hpk Hf Hty Hamt Hsrc Htgt Hne Hle.
  assert (Hok : fst (create_transaction env db req) = completed).
  { eapply (create_transaction_sound env db req src amt); try eassumption.
    rewrite Hty, Htgt. apply process_transfer. now rewrite get_balance_SessionLocal. }
  split; [exact Hok|].
  destruct (completed_balances env db req Hpk Hok)
    as (src' & amt' & ts & Hsrc' & Hamt' & _ & _ & _ & Hbal).
  rewrite Hsrc in Hsrc'. injection Hsrc' as <-.
  rewrite Hamt in Hamt'. injection Hamt' as <-.
  split; [|split; [|intros pk Hn1 Hn2]]; rewrite Hbal; unfold effect, credit, debit;
    rewrite Hty, Htgt; simpl.
  - rewrite Z.eqb_refl.
    replace (tgt =? src) with false by (symmetry; now apply Z.eqb_neq).
    simpl. lia.
  - rewrite Z.eqb_refl.
    replace (src =? tgt) with false by (symmetry; apply Z.eqb_neq; congruence).
    simpl. lia.
  - replace (src =? pk) with false by (symmetry; apply Z.eqb_neq; congruence).
    replace (tgt =? pk) with false by (symmetry; apply Z.eqb_neq; congruence).
    simpl. lia.
Qed.

Lemma transfer_completes_witness :
  fst (create_transaction sound bank (transfer_req 10 "ACC-1" "ACC-2" (-5000))) = completed /\
  balance_of (snd (create_transaction sound bank (transfer_req 10 "ACC-1" "ACC-2" (-5000)))) 1
  = balance_of bank 1 - (-5000) /\
  balance_of (snd (create_transaction sound bank (transfer_req 10 "ACC-1" "ACC-2" (-5000)))) 2
  = balance_of bank 2 + (-5000) /\
  forall pk, pk <> 1 -> pk <> 2 ->
    balance_of (snd (create_transaction sound bank (transfer_req 10 "ACC-1" "ACC-2" (-5000)))) pk
    = balance_of bank pk.
Proof.
  apply (transfer_completes sound bank (transfer_req 10 "ACC-1" "ACC-2" (-5000)) 1 2 (-5000)
           primary_key_bank); try reflexivity.
  - discriminate.
  - vm_compute. discriminate.
Defined.




Lemma find_row (rows : list Account.t) (row : Account.t) :
  NoDup (map Account.id rows) ->
  In row rows ->
  find (fun r => Account.id r =? Account.id row) rows = Some row.
Proof.
  induction rows as [|r rest IH]; intros Hnd Hin; [contradiction|].
  simpl in *. inversion Hnd as [|? ? Hnot Hnd']; subst.
  destruct (Z.eqb_spec (Account.id r) (Account.id row)) as [E|E].
  - destruct Hin as [->|Hin]; [reflexivity|].
    exfalso. apply Hnot. rewrite E. now apply in_map.
  - destruct Hin as [->|Hin]; [contradiction|]. now apply IH.
Qed.

Lemma balance_of_in (db : Database) (row : Account.t) :
  primary_key db -> In row (accounts db) ->
  balance_of db (Account.id row) = Account.balance row.
Proof.
  intros Hpk Hin. unfold balance_of. now rewrite (find_row _ _ Hpk Hin).
Qed.






Lemma stepped_total (delta : Z -> Decimal) (rows rows' : list Account.t) :
  Forall2 (stepped delta) rows rows' ->
  fold_right (fun row acc => Account.balance row + acc) 0 rows'
  = fold_right (fun row acc => Account.balance row + acc) 0 rows
    + sum_over delta (map Account.id rows).
Proof.
  induction 1 as [|row row' rows rows' Hst _ IH]; simpl; [reflexivity|].
  apply stepped_facts in Hst as (_ & Hbal & _). rewrite Hbal, IH. lia.
Qed.

Lemma sum_over_ext (f g : Z -> Decimal) (keys : list Z) :
  (forall k, f k = g k) -> sum_over f keys = sum_over g keys.
Proof.
  intros H. induction keys as [|k keys IH]; simpl; [reflexivity|].
  now rewrite H, IH.
Qed.

Lemma sum_over_sub (f g : Z -> Decimal) (keys : list Z) :
  sum_over (fun k => f k - g k) keys = sum_over f keys - sum_over g keys.
Proof. induction keys as [|k keys IH]; simpl; [reflexivity|]. rewrite IH. lia. Qed.

Lemma sum_over_absent (a : Decimal) (k0 : Z) (keys : list Z) :
  ~ In k0 keys -> sum_over (fun k => if k0 =? k then a else 0) keys = 0.
Proof.
  induction keys as [|k keys IH]; intros Hnot; simpl; [reflexivity|].
  simpl in Hnot. destruct (Z.eqb_spec k0 k) as [->|_]; [exfalso; apply Hnot; now left|].
  rewrite IH; [reflexivity|]. intros Hin. apply Hnot. now right.
Qed.

Lemma sum_over_once (a : Decimal) (k0 : Z) (keys : list Z) :
  NoDup keys -> In k0 keys ->
  sum_over (fun k => if k0 =? k then a else 0) keys = a.
Proof.
  induction 1 as [|k keys Hnot Hnd IH]; intros Hin; [contradiction|].
  simpl. destruct (Z.eqb_spec k0 k) as [->|Hne].
  - rewrite sum_over_absent by assumption. lia.
  - destruct Hin as [->|Hin]; [contradiction|]. rewrite IH by assumption. lia.
Qed.

(** With the amount in hundredths.
    The money held in all accounts together grows by the amount on a
    completed deposit, shrinks by the amount on a completed withdrawal and
    is the same after a completed transfer: a transfer creates and
    destroys nothing. *)
Theorem total_balance_completed (env : Env) (db : Database) (req : Request)
    (amt : Decimal) :
  primary_key db ->
  fst (create_transaction env db req) = completed ->
  amount req = Some amt ->
  total_balance (snd (create_transaction env db req))
  = total_balance db + inflow (type req) amt.
Proof.
  intros Hpk Hok Hamt.
  destruct (completed_balances env db req Hpk Hok)
    as (src & amt' & ts & Hsrc & Hamt' & Hkind & _ & Hrows & _).
  rewrite Hamt in Hamt'. injection Hamt' as <-.
  unfold total_balance. rewrite (stepped_total _ _ _ Hrows). f_equal.
  pose proof (source_of_in db req src Hsrc) as Hsin.
  destruct Hkind as [Hty|[(Hty & _)|(Hty & _ & Htgt)]]; rewrite Hty; unfold inflow; simpl.
  - rewrite (sum_over_ext _ (fun k => if src =? k then amt else 0)).
    + now apply sum_over_once.
    + intros k. unfold effect, credit, debit. simpl. destruct (src =? k); simpl; lia.
  - rewrite (sum_over_ext _ (fun k => 0 - (if src =? k then amt else 0))).
    + rewrite sum_over_sub, (sum_over_once amt src) by assumption.
      rewrite (sum_over_ext _ (fun k => if src =? k then 0 else 0)).
      * rewrite (sum_over_once 0 src) by assumption. lia.
      * intros k. now destruct (src =? k).
    + intros k. unfold effect, credit, debit. simpl. destruct (src =? k); simpl; lia.
  - destruct (target_of db req) as [tgt|] eqn:Etgt; [|contradiction].
    pose proof (target_of_in db req tgt Etgt) as Htin.
    rewrite (sum_over_ext _ (fun k => (if tgt =? k then amt else 0)
                                      - (if src =? k then amt else 0))).
    + rewrite sum_over_sub, (sum_over_once amt src), (sum_over_once amt tgt) by assumption.
      lia.
    + intros k. unfold effect, credit, debit. simpl.
      destruct (src =? k), (tgt =? k); simpl; lia.
Qed.

Lemma total_balance_completed_witness :
  total_balance (snd (create_transaction sound bank (transfer_req 10 "ACC-1" "ACC-2" 250)))
  = total_balance bank + inflow (type (transfer_req 10 "ACC-1" "ACC-2" 250)) 250.
Proof.
  apply (total_balance_completed sound bank (transfer_req 10 "ACC-1" "ACC-2" 250) 250
           primary_key_bank); reflexivity.
Defined.

Lemma NoDup_snoc {A : Type} (l : list A) (a : A) :
  NoDup l -> ~ In a l -> NoDup (l ++ [a]).
Proof.
  induction 1 as [|x l Hx Hnd IH]; intros Hnot; simpl.
  - constructor; [intros []|constructor].
  - constructor.
    + intros Hin. apply in_app_or in Hin as [Hin|[<-|[]]]; [contradiction|].
      apply Hnot. now left.
    + apply IH. intros Hin. apply Hnot. now right.
Qed.





Lemma refers_true (ref : option Z) (pk : Z) : refers ref pk = true <-> ref = Some pk.
Proof.
  destruct ref as [k|]; simpl.
  - rewrite Z.eqb_eq. split; [now intros -> | now intros [= ->]].
  - split; discriminate.
Qed.

Lemma listed_in (db : Database) (user_id : Z) (t : Transaction.t) :
  In t (listed db user_id) <->
  In t (transactions db) /\
  exists row, In row (accounts db) /\ Account.user_id row = user_id /\
              Transaction.from_account_id t = Some (Account.id row).
Proof.
  unfold listed, get_transactions, account_transactions. simpl.
  rewrite in_flat_map. split.
  - intros (row & Hrow & Ht). apply filter_In in Hrow as (Hrow & Hown).
    apply filter_In in Ht as (Ht & Href).
    apply Z.eqb_eq in Hown. apply refers_true in Href.
    split; [assumption|]. exists row. tauto.
  - intros (Ht & row & Hrow & Hown & Href). exists row. split.
    + apply filter_In. split; [assumption|]. now apply Z.eqb_eq.
    + apply filter_In. split; [assumption|]. now apply refers_true.
Qed.

(** X8. When no query raises, [get_transactions] answers 200, and the
    rows it sends are exactly the ledger rows whose source is an account
    of the caller. A row whose source belongs to someone else is never
    sent, even when its target is an account of the caller: incoming
    transfers are not listed. When a query raises, the answer is 500 with
    the text of the error; there is no other answer. *)
Theorem get_transactions_by_source (env : Env) (db : Database) (user_id : Z) :
  (forall t,
     In t (listed db user_id) <->
     In t (transactions db) /\
     exists row, In row (accounts db) /\ Account.user_id row = user_id /\
                 Transaction.from_account_id t = Some (Account.id row)) /\
  (get_transactions env db user_id = Data (listed db user_id) 200 \/
   get_transactions env db user_id = Plain (Reply (error (fault_text env)) 500)) /\
  (fault env = None ->
   get_transactions env db user_id = Data (listed db user_id) 200) /\
  (fault env = Some 0%nat ->
   get_transactions env db user_id = Plain (Reply (error (fault_text env)) 500)).
Proof.
  split; [apply listed_in|].
  unfold listed, get_transactions, fault_within. simpl.
  destruct (fault env) as [k|].
  - destruct (Nat.leb k _) eqn:E.
    + split; [now right|]. split; [discriminate|reflexivity].
    + split; [now left|]. split; [discriminate|].
      intros [= ->]. discriminate.
  - split; [now left|]. split; [reflexivity|discriminate].
Qed.

Lemma distinct_keys_filtered {V K : Type} (key : V -> K) (keep : V -> bool)
    (rows : list V) (Hkeys : NoDup (map key rows)) :
  NoDup (map key (filter keep rows)).
Proof.
  induction rows as [|row rows IH]; [constructor|].
  simpl in Hkeys. apply NoDup_cons_iff in Hkeys as (Hfirst & Hrest).
  simpl. destruct (keep row); [|now apply IH].
  simpl. apply NoDup_cons; [|now apply IH].
  intros Hin. apply Hfirst. apply in_map_iff in Hin as (other & Hsame & Hother).
  apply filter_In in Hother as (Hother & _).
  rewrite <- Hsame. now apply in_map.
Qed.

Lemma NoDup_map_injective {A B : Type} (f : A -> B) (l : list A) (x y : A) :
  NoDup (map f l) -> In x l -> In y l -> f x = f y -> x = y.
Proof.
  induction l as [|a l IH]; intros Hnd Hx Hy Hxy; [contradiction|].
  simpl in Hnd. inversion Hnd as [|? ? Hnot Hnd']; subst.
  destruct Hx as [->|Hx], Hy as [->|Hy].
  - reflexivity.
  - exfalso. apply Hnot. rewrite Hxy. now apply in_map.
  - exfalso. apply Hnot. rewrite <- Hxy. now apply in_map.
  - now apply IH.
Qed.

Lemma listed_once (txs : list Transaction.t) (rows : list Account.t) :
  NoDup (map Transaction.id txs) ->
  NoDup (map Account.id rows) ->
  NoDup (map Transaction.id
           (flat_map (fun row =>
                        filter (fun t => refers (Transaction.from_account_id t) (Account.id row))
                               txs)
                     rows)).
Proof.
  intros Htx. induction rows as [|row rows IH]; intros Hnd; simpl; [constructor|].
  inversion Hnd as [|? ? Hnot Hnd']; subst.
  rewrite map_app. apply NoDup_app.
  - now apply distinct_keys_filtered.
  - now apply IH.
  - intros k Hk1 Hk2.
    apply in_map_iff in Hk1 as (t1 & Hid1 & Hin1).
    apply in_map_iff in Hk2 as (t2 & Hid2 & Hin2).
    apply filter_In in Hin1 as (Hin1 & Href1). apply refers_true in Href1.
    apply in_flat_map in Hin2 as (row2 & Hrow2 & Hin2).
    apply filter_In in Hin2 as (Hin2 & Href2). apply refers_true in Href2.
    assert (t1 = t2).
    { apply (NoDup_map_injective Transaction.id txs); (assumption || congruence). }
    subst t2. rewrite Href1 in Href2. injection Href2 as Hsame.
    apply Hnot. rewrite Hsame. now apply in_map.
Qed.

(** X9. No ledger row is sent twice: under the primary keys of the two
    tables, the ids of the rows that [get_transactions] sends are pairwise
    distinct. *)
Theorem get_transactions_no_repeat (db : Database) (user_id : Z) :
  primary_key db ->
  ledger_key db ->
  NoDup (map Transaction.id (listed db user_id)).
Proof.
  intros Hpk Hlk. unfold listed, get_transactions, account_transactions. simpl.
  apply listed_once; [exact Hlk|]. now apply distinct_keys_filtered.
Qed.

Lemma primary_key_busy_day : primary_key (serve bank busy_day).
Proof.
  unfold primary_key. vm_compute. repeat constructor; simpl; intuition discriminate.
Defined.

Lemma ledger_key_busy_day : ledger_key (serve bank busy_day).
Proof.
  unfold ledger_key. vm_compute. repeat constructor; simpl; intuition discriminate.
Defined.

Lemma get_transactions_no_repeat_witness :
  NoDup (map Transaction.id (listed (serve bank busy_day) 10)).
Proof.
  exact (get_transactions_no_repeat (serve bank busy_day) 10
           primary_key_busy_day ledger_key_busy_day).
Defined.

Lemma Forall2_in_l {A B : Type} (R : A -> B -> Prop) (l : list A) (l' : list B) (x : A) :
  Forall2 R l l' -> In x l -> exists y, In y l' /\ R x y.
Proof.
  induction 1 as [|a b l l' Hab _ IH]; intros Hin; [contradiction|].
  destruct Hin as [<-|Hin].
  - exists b. split; [now left|assumption].
  - destruct (IH Hin) as (y & Hy & Hr). exists y. split; [now right|assumption].
Qed.





(** * The routes of [controllers/accounts.py] *)

Lemma query_own_account_some (db : Database) (user_id account_id : Z) (row : Account.t) :
  query_own_account db user_id account_id = Some row ->
  In row (accounts db) /\ Account.id row = account_id /\ Account.user_id row = user_id.
Proof.
  intros H. apply find_some in H as (Hin & Hrow).
  apply andb_prop in Hrow as (Hid & Hu).
  apply Z.eqb_eq in Hid. apply Z.eqb_eq in Hu. tauto.
Qed.

Lemma query_own_account_foreign (db : Database) (user_id account_id : Z) :
  (forall row, In row (accounts db) -> Account.id row = account_id ->
     Account.user_id row <> user_id) ->
  query_own_account db user_id account_id = None.
Proof.
  intros Hforeign.
  destruct (query_own_account db user_id account_id) as [row|] eqn:E; [|reflexivity].
  apply query_own_account_some in E as (Hin & Hid & Hu).
  exfalso. exact (Hforeign row Hin Hid Hu).
Qed.

Lemma query_own_account_in (db : Database) (row : Account.t) :
  primary_key db -> In row (accounts db) ->
  query_own_account db (Account.user_id row) (Account.id row) = Some row.
Proof.
  unfold primary_key, query_own_account. intros Hnd Hin.
  induction (accounts db) as [|r rest IH]; [contradiction|].
  simpl in *. inversion Hnd as [|? ? Hnot Hnd']; subst.
  destruct (Z.eqb_spec (Account.id r) (Account.id row)) as [E|E]; simpl.
  - destruct Hin as [->|Hin].
    + now rewrite Z.eqb_refl.
    + exfalso. apply Hnot. rewrite E. now apply in_map.
  - destruct Hin as [->|Hin]; [contradiction|]. now apply IH.
Qed.

(** X11. An account that is not the caller's is not found: when the id
    belongs to another user, or to no account, [get_account],
    [update_account] and [delete_account] all answer 404 "Account not
    found", the same reply in both cases, and the store is left as it
    was. *)
Theorem foreign_account_not_found (env : Env) (users : list User.t)
    (db : Database) (user_id account_id : Z) (data : AccountUpdate) :
  (forall row, In row (accounts db) -> Account.id row = account_id ->
     Account.user_id row <> user_id) ->
  get_account users db user_id account_id
  = Plain (Reply (message "Account not found") 404) /\
  update_account env db user_id account_id data
  = (Reply (message "Account not found") 404, db) /\
  delete_account env db user_id account_id
  = (Reply (message "Account not found") 404, db).
Proof.
  intros Hforeign. apply query_own_account_foreign in Hforeign.
  unfold get_account, update_account, delete_account. rewrite Hforeign. repeat split.
Qed.

Lemma bob_is_not_alice :
  forall row, In row (accounts bank) -> Account.id row = 1 -> Account.user_id row <> 20.
Proof.
  intros row [<-|[<-|[<-|[]]]]; simpl; intros H; discriminate.
Defined.

Lemma foreign_account_not_found_witness :
  get_account [] bank 20 1 = Plain (Reply (message "Account not found") 404) /\
  update_account sound bank 20 1 (mkAccountUpdate None (Some 0))
  = (Reply (message "Account not found") 404, bank) /\
  delete_account sound bank 20 1 = (Reply (message "Account not found") 404, bank).
Proof.
  exact (foreign_account_not_found sound [] bank 20 1 (mkAccountUpdate None (Some 0))
           bob_is_not_alice).
Defined.

Lemma comprehension_in {A B : Type} (f : A -> option B) (l : list A) (ys : list B) (y : B) :
  comprehension f l = Some ys -> In y ys -> exists x, In x l /\ f x = Some y.
Proof.
  revert ys. induction l as [|a l IH]; intros ys H Hin; simpl in H.
  - injection H as <-. contradiction.
  - destruct (f a) as [b|] eqn:Ea; [|discriminate].
    destruct (comprehension f l) as [bs|]; [|discriminate].
    injection H as <-. destruct Hin as [<-|Hin].
    + exists a. split; [now left|assumption].
    + destruct (IH bs eq_refl Hin) as (x & Hx & Hfx). exists x. split; [now right|assumption].
Qed.

Lemma comprehension_all {A B : Type} (f : A -> option B) (l : list A) :
  (forall x, In x l -> f x <> None) ->
  exists ys, comprehension f l = Some ys /\
             forall x y, In x l -> f x = Some y -> In y ys.
Proof.
  induction l as [|a l IH]; intros Hall; simpl.
  - exists []. split; [reflexivity|]. intros x y [].
  - destruct (f a) as [b|] eqn:Ea; [|exfalso; apply (Hall a); [now left|assumption]].
    destruct IH as (ys & -> & Hys); [intros x Hx; apply Hall; now right|].
    exists (b :: ys). split; [reflexivity|].
    intros x y [<-|Hx] Hfx.
    + left. congruence.
    + right. now apply (Hys x).
Qed.

(** X12. The two reading routes agree: under the primary key of the
    accounts table, an object is in the list that [get_all_accounts] sends
    to a user exactly when [get_account] sends that very object to the
    same user for its id. In particular both show only accounts of the
    caller. *)
Theorem get_all_accounts_agrees (users : list User.t) (db : Database)
    (user_id : Z) (v : AccountJson) :
  primary_key db ->
  (exists l, get_all_accounts users db user_id = Data l 200 /\ In v l) <->
  get_account users db user_id (j_id v) = Data v 200.
Proof.
  intros Hpk. unfold get_all_accounts, get_account. simpl. split.
  - intros (l & Hall & Hin).
    destruct (comprehension _ _) as [l'|] eqn:Ec; [|discriminate].
    injection Hall as <-.
    destruct (comprehension_in _ _ _ _ Ec Hin) as (row & Hrow & Hv).
    apply filter_In in Hrow as (Hrow & Hu). apply Z.eqb_eq in Hu.
    assert (Hid : j_id v = Account.id row).
    { unfold account_data in Hv. destruct (query_user users user_id); [|discriminate].
      now injection Hv as <-. }
    rewrite Hid, <- Hu, (query_own_account_in db row Hpk Hrow), Hu, Hv. reflexivity.
  - intros Hget.
    destruct (query_own_account db user_id (j_id v)) as [row|] eqn:Eq; [|discriminate].
    destruct (account_data users user_id row) as [v'|] eqn:Ev; [|discriminate].
    injection Hget as ->.
    apply query_own_account_some in Eq as (Hin & Hid & Hu).
    destruct (comprehension_all (account_data users user_id)
                (filter (fun account => Account.user_id account =? user_id) (accounts db)))
      as (ys & Hys & Hall).
    + intros x _. unfold account_data in *.
      destruct (query_user users user_id); discriminate.
    + rewrite Hys. exists ys. split; [reflexivity|].
      apply (Hall row); [|assumption].
      apply filter_In. split; [assumption|]. now apply Z.eqb_eq.
Qed.

Lemma get_all_accounts_agrees_witness :
  (exists l, get_all_accounts people bank 10 = Data l 200 /\
             In (mkAccountJson 1 "Savings" "ACC-1" 10000 10 "alice") l) <->
  get_account people bank 10 (j_id (mkAccountJson 1 "Savings" "ACC-1" 10000 10 "alice"))
  = Data (mkAccountJson 1 "Savings" "ACC-1" 10000 10 "alice") 200.
Proof.
  exact (get_all_accounts_agrees people bank 10
           (mkAccountJson 1 "Savings" "ACC-1" 10000 10 "alice") primary_key_bank).
Defined.

Lemma find_app_skip {A : Type} (f : A -> bool) (l l' : list A) :
  (forall x, In x l -> f x = false) -> find f (l ++ l') = find f l'.
Proof.
  induction l as [|a l IH]; intros H; simpl; [reflexivity|].
  rewrite (H a) by now left. apply IH. intros x Hx. apply H. now right.
Qed.

Lemma create_account_created (env : Env) (pk : Z) (users : list User.t)
    (db : Database) (user_id : Z) (data : NewAccount) :
  fst (create_account env pk users db user_id data) = created ->
  exists account_type account_number usr,
    new_account_type data = Some account_type /\
    new_account_number data = Some account_number /\
    query_user users user_id = Some usr /\
    (forall row, In row (accounts db) -> Account.account_number row <> account_number) /\
    snd (create_account env pk users db user_id data)
    = mkDatabase
        (accounts db ++
           [Account.mk pk user_id account_type account_number (initial_balance data)
              (utcnow env 0) (utcnow env 1)])
        (transactions db).
Proof.
  unfold create_account, admitted.
  destruct (new_account_type data) as [account_type|]; [|discriminate].
  destruct (new_account_number data) as [account_number|]; [|discriminate].
  destruct (existsb _ (accounts db)) eqn:Ex; [discriminate|].
  destruct (query_user users user_id) as [usr|]; [|discriminate].
  destruct (fault_within env 1); [discriminate|].
  intros _. exists account_type, account_number, usr. repeat split.
  intros row Hin Hnum.
  assert (existsb (fun row => String.eqb (Account.account_number row) account_number)
            (accounts db) = true); [|congruence].
  apply existsb_exists. exists row. split; [assumption|]. now apply String.eqb_eq.
Qed.



Lemma source_of_appended (db : Database) (row : Account.t) (req : Request) :
  (forall r, In r (accounts db) -> Account.account_number r <> Account.account_number row) ->
  from_account_number req = Some (Account.account_number row) ->
  jwt_identity req = Account.user_id row ->
  source_of (mkDatabase (accounts db ++ [row]) (transactions db)) req
  = Some (Account.id row).
Proof.
  intros Hfree Hfrom Hjwt. unfold source_of, validate_account_owner_by_number. simpl.
  rewrite Hfrom, Hjwt, find_app_skip.
  - simpl. now rewrite String.eqb_refl, Z.eqb_refl.
  - intros r Hin. apply andb_false_iff. left. apply String.eqb_neq.
    intros E. apply (Hfree r Hin). now symmetry.
Qed.

Lemma primary_key_appended (db : Database) (row : Account.t) :
  primary_key db ->
  (forall r, In r (accounts db) -> Account.id r <> Account.id row) ->
  primary_key (mkDatabase (accounts db ++ [row]) (transactions db)).
Proof.
  unfold primary_key. simpl. intros Hpk Hfresh. rewrite map_app. simpl.
  apply NoDup_snoc; [assumption|].
  intros Hin. apply in_map_iff in Hin as (r & Hid & Hin). exact (Hfresh r Hin Hid).
Qed.

(** With the amount in hundredths.
    Create, deposit, read. On an account that [create_account] has
    just created, a deposit by its owner, on a store that raises nothing,
    completes, and [get_account] then shows the initial balance plus the
    amount. *)
Theorem deposit_on_created_account (env env' : Env) (pk : Z) (users : list User.t)
    (db : Database) (user_id : Z) (data : NewAccount) (req : Request) (amt : Decimal) :
  primary_key db ->
  (forall row, In row (accounts db) -> Account.id row <> pk) ->
  fst (create_account env pk users db user_id data) = created ->
  fault env' = None ->
  jwt_identity req = user_id ->
  from_account_number req = new_account_number data ->
  type req = Some "deposit" ->
  amount req = Some amt ->
  fst (create_transaction env' (snd (create_account env pk users db user_id data)) req)
  = completed /\
  exists v,
    get_account users
      (snd (create_transaction env' (snd (create_account env pk users db user_id data)) req))
      user_id pk = Data v 200 /\
    j_id v = pk /\
    new_account_number data = Some (j_account_number v) /\
    j_balance v = initial_balance data + amt.
Proof.
  intros Hpk Hfresh Hok Hf Hjwt Hfrom Hty Hamt.
  destruct (create_account_created env pk users db user_id data Hok)
    as (account_type & account_number & usr & Hnty & Hnum & Husr & Hfree & ->).
  set (row := Account.mk pk user_id account_type account_number (initial_balance data)
                (utcnow env 0) (utcnow env 1)).
  set (db1 := mkDatabase (accounts db ++ [row]) (transactions db)).
  assert (Hpk1 : primary_key db1) by (apply primary_key_appended; assumption).
  assert (Hsrc : source_of db1 req = Some pk).
  { apply (source_of_appended db row req); simpl; [assumption|congruence|assumption]. }
  assert (Hin1 : In row (accounts db1)) by (apply in_or_app; right; now left).
  assert (Hdone : fst (create_transaction env' db1 req) = completed).
  { eapply (create_transaction_sound env' db1 req pk amt); try eassumption.
    rewrite Hty. apply process_deposit. }
  split; [exact Hdone|].
  destruct (completed_balances env' db1 req Hpk1 Hdone)
    as (src & amt' & ts & Hsrc' & Hamt' & _ & _ & Hrows & _).
  rewrite Hsrc in Hsrc'. injection Hsrc' as <-.
  rewrite Hamt in Hamt'. injection Hamt' as <-.
  destruct (Forall2_in_l _ _ _ _ Hrows Hin1) as (row2 & Hin2 & Hst).
  apply stepped_facts in Hst as ((Hid & Hu & Hat & Han & _) & Hbal & _).
  unfold row in Hid, Hu, Hat, Han, Hbal.
  cbn [Account.id Account.user_id Account.account_type Account.account_number
       Account.balance] in Hid, Hu, Hat, Han, Hbal.
  pose proof (primary_key_create_transaction env' db1 req Hpk1) as Hpk2.
  pose proof (query_own_account_in _ row2 Hpk2 Hin2) as Hq.
  rewrite Hid, Hu in Hq.
  unfold get_account. rewrite Hq. unfold account_data. rewrite Husr.
  eexists. split; [reflexivity|].
  cbn [j_id j_account_number j_balance].
  repeat split; [assumption|congruence|].
  rewrite Hbal. unfold effect, credit, debit. rewrite Hty. simpl.
  rewrite Z.eqb_refl. simpl. lia.
Qed.

Lemma deposit_on_created_account_witness :
  fst (create_transaction sound
         (snd (create_account sound 4 people bank 20
                 (mkNewAccount (Some "Savings") (Some "ACC-4") (Some 100))))
         (deposit_req 20 "ACC-4" 250)) = completed /\
  exists v,
    get_account people
      (snd (create_transaction sound
              (snd (create_account sound 4 people bank 20
                      (mkNewAccount (Some "Savings") (Some "ACC-4") (Some 100))))
              (deposit_req 20 "ACC-4" 250)))
      20 4 = Data v 200 /\
    j_id v = 4 /\
    new_account_number (mkNewAccount (Some "Savings") (Some "ACC-4") (Some 100))
    = Some (j_account_number v) /\
    j_balance v = initial_balance (mkNewAccount (Some "Savings") (Some "ACC-4") (Some 100)) + 250.
Proof.
  apply (deposit_on_created_account sound sound 4 people bank 20
           (mkNewAccount (Some "Savings") (Some "ACC-4") (Some 100))
           (deposit_req 20 "ACC-4" 250) 250 primary_key_bank); try reflexivity.
  intros row [<-|[<-|[<-|[]]]]; simpl; discriminate.
Defined.

Lemma create_account_cases (env : Env) (pk : Z) (users : list User.t)
    (db : Database) (user_id : Z) (data : NewAccount) :
  fst (create_account env pk users db user_id data) = created \/
  create_account env pk users db user_id data = (Uncaught, db).
Proof.
  unfold create_account.
  destruct (admitted users db user_id data) as [[account_type account_number]|];
    [|now right].
  destruct (fault_within env 1); [now right|now left].
Qed.

Lemma update_account_rows (env : Env) (db : Database) (user_id account_id : Z)
    (data : AccountUpdate) :
  transactions (snd (update_account env db user_id account_id data)) = transactions db /\
  exists f,
    accounts (snd (update_account env db user_id account_id data)) = map f (accounts db) /\
    forall row,
      Account.id (f row) = Account.id row /\
      Account.user_id (f row) = Account.user_id row /\
      Account.account_number (f row) = Account.account_number row /\
      Account.created_at (f row) = Account.created_at row /\
      (Account.id row <> account_id -> f row = row).
Proof.
  unfold update_account.
  destruct (query_own_account db user_id account_id) as [account|] eqn:Eq.
  - apply query_own_account_some in Eq as (_ & Hid & _).
    destruct (modified account (assign data account)).
    + destruct (fault_within env 1); simpl.
      * split; [reflexivity|]. exists (fun row => row). rewrite map_id. now repeat split.
      * split; [reflexivity|]. eexists. split; [reflexivity|].
        intros row. simpl.
        destruct (Z.eqb_spec (Account.id row) (Account.id account)) as [E|E]; simpl.
        -- repeat split. intros Hne. congruence.
        -- now repeat split.
    + destruct (fault_within env 0); simpl;
        (split; [reflexivity|]; exists (fun row => row); rewrite map_id; now repeat split).
  - simpl. split; [reflexivity|]. exists (fun row => row). rewrite map_id. now repeat split.
Qed.

(** X15. [update_account] touches one row and three of its columns at
    most (type, balance, modification time): whatever the request and whatever the store does, the ledger is
    left as it was, every account row keeps its id, owner, number and
    creation time, and every row other than the one named is left exactly
    as it was. *)
Theorem update_account_frame (env : Env) (db : Database) (user_id account_id : Z)
    (data : AccountUpdate) :
  transactions (snd (update_account env db user_id account_id data)) = transactions db /\
  Forall2 (fun row row' =>
             Account.id row' = Account.id row /\
             Account.user_id row' = Account.user_id row /\
             Account.account_number row' = Account.account_number row /\
             Account.created_at row' = Account.created_at row /\
             (Account.id row <> account_id -> row' = row))
    (accounts db) (accounts (snd (update_account env db user_id account_id data))).
Proof.
  destruct (update_account_rows env db user_id account_id data) as (Hled & f & -> & Hf).
  split; [exact Hled|]. apply Forall2_map_in. intros row _. apply Hf.
Qed.

Lemma detach_id (pk : Z) (rows : list Transaction.t) :
  map Transaction.id (map (detach pk) rows) = map Transaction.id rows.
Proof. rewrite map_map. now apply map_ext. Qed.

(** X16. The key constraints are kept by the three writing routes of the
    accounts: after [create_account] (given an id above those in the
    table), [update_account] and [delete_account], account ids, account
    numbers and ledger ids are still pairwise distinct, whatever the
    request and whatever the store does. *)
Theorem account_routes_keep_keys (env : Env) (pk : Z) (users : list User.t)
    (db : Database) (user_id account_id : Z) (data : NewAccount)
    (change : AccountUpdate) :
  primary_key db ->
  unique_numbers db ->
  ledger_key db ->
  (forall row, In row (accounts db) -> Account.id row < pk) ->
  (primary_key (snd (create_account env pk users db user_id data)) /\
   unique_numbers (snd (create_account env pk users db user_id data)) /\
   ledger_key (snd (create_account env pk users db user_id data))) /\
  (primary_key (snd (update_account env db user_id account_id change)) /\
   unique_numbers (snd (update_account env db user_id account_id change)) /\
   ledger_key (snd (update_account env db user_id account_id change))) /\
  (primary_key (snd (delete_account env db user_id account_id)) /\
   unique_numbers (snd (delete_account env db user_id account_id)) /\
   ledger_key (snd (delete_account env db user_id account_id))).
Proof.
  intros Hpk Hun Hlk Hfresh. split; [|split].
  - destruct (create_account_cases env pk users db user_id data) as [Hok| ->];
      [|repeat split; assumption].
    destruct (create_account_created env pk users db user_id data Hok)
      as (account_type & account_number & usr & _ & _ & _ & Hfree & ->).
    split; [|split].
    + apply primary_key_appended; [assumption|].
      intros r Hin. simpl. specialize (Hfresh r Hin). lia.
    + unfold unique_numbers. simpl. rewrite map_app. simpl.
      apply NoDup_snoc; [assumption|].
      intros Hin. apply in_map_iff in Hin as (r & Hnum & Hin). exact (Hfree r Hin Hnum).
    + exact Hlk.
  - destruct (update_account_rows env db user_id account_id change) as (Hled & f & Hacc & Hf).
    unfold primary_key, unique_numbers, ledger_key. rewrite Hled, Hacc, !map_map.
    split; [|split; [|assumption]].
    + erewrite map_ext; [exact Hpk|]. intros row. apply Hf.
    + erewrite map_ext; [exact Hun|]. intros row. apply Hf.
  - unfold delete_account.
    destruct (query_own_account db user_id account_id) as [account|];
      [|repeat split; assumption].
    destruct (fault_within env _); [repeat split; assumption|].
    unfold primary_key, unique_numbers, ledger_key. simpl.
    split; [|split].
    + now apply distinct_keys_filtered.
    + now apply distinct_keys_filtered.
    + now rewrite detach_id.
Qed.

Lemma unique_numbers_bank : unique_numbers bank.
Proof.
  unfold unique_numbers. simpl. repeat constructor; simpl; intuition discriminate.
Defined.

Lemma ledger_key_bank : ledger_key bank.
Proof. constructor. Defined.

Lemma below_four : forall row, In row (accounts bank) -> Account.id row < 4.
Proof. intros row [<-|[<-|[<-|[]]]]; reflexivity. Defined.

Lemma account_routes_keep_keys_witness :
  primary_key (snd (create_account sound 4 people bank 20
                      (mkNewAccount (Some "Savings") (Some "ACC-4") None))) /\
  unique_numbers (snd (update_account sound bank 10 1 (mkAccountUpdate (Some "Current") None))) /\
  primary_key (snd (delete_account sound bank 10 1)).
Proof.
  pose proof (account_routes_keep_keys sound 4 people bank 10 1
                (mkNewAccount (Some "Savings") (Some "ACC-4") None)
                (mkAccountUpdate (Some "Current") None)
                primary_key_bank unique_numbers_bank ledger_key_bank below_four) as H.
  split; [|split].
  - exact (proj1 (proj1 (account_routes_keep_keys sound 4 people bank 20 1
                (mkNewAccount (Some "Savings") (Some "ACC-4") None)
                (mkAccountUpdate (Some "Current") None)
                primary_key_bank unique_numbers_bank ledger_key_bank below_four))).
  - exact (proj1 (proj2 (proj1 (proj2 H)))).
  - exact (proj1 (proj2 (proj2 H))).
Defined.

Lemma find_map_same (p : Account.t -> bool) (f : Account.t -> Account.t)
    (rows : list Account.t) :
  (forall row, p (f row) = p row) ->
  find p (map f rows) = option_map f (find p rows).
Proof.
  intros Hp. induction rows as [|r rows IH]; simpl; [reflexivity|].
  rewrite Hp. destruct (p r); [reflexivity|exact IH].
Qed.

Lemma fault_within_sound (env : Env) (n : nat) :
  fault env = None -> fault_within env n = false.
Proof. intros H. unfold fault_within. now rewrite H. Qed.



Lemma refers_detached (ref : option Z) (pk k : Z) :
  k <> pk -> refers (if refers ref pk then None else ref) k = refers ref k.
Proof.
  intros Hne. destruct ref as [r|]; simpl; [|reflexivity].
  destruct (Z.eqb_spec r pk) as [->|_]; [|reflexivity].
  simpl. symmetry. apply Z.eqb_neq. congruence.
Qed.

Lemma credits_detached (pk k : Z) (rows : list Transaction.t) :
  k <> pk ->
  credits (map (detach pk) rows) k = credits rows k /\
  debits (map (detach pk) rows) k = debits rows k.
Proof.
  intros Hne. induction rows as [|t rows (IHc & IHd)]; [split; reflexivity|].
  simpl. rewrite IHc, IHd. unfold credit, debit, detach. simpl.
  now rewrite !(refers_detached _ pk k Hne).
Qed.

Lemma find_filter_same {A : Type} (p q : A -> bool) (l : list A) :
  (forall x, p x = true -> q x = true) ->
  find p (filter q l) = find p l.
Proof.
  intros H. induction l as [|a l IH]; simpl; [reflexivity|].
  destruct (q a) eqn:Eq; simpl.
  - destruct (p a); [reflexivity|exact IH].
  - destruct (p a) eqn:Ep; [|exact IH]. rewrite (H a Ep) in Eq. discriminate.
Qed.

(** X18. The other accounts keep their books through [update_account] and
    [delete_account]: for every account but the one named, the balance
    minus the recorded credits plus the recorded debits is the same after
    the call as before, whatever the request and whatever the store
    does. Deleting an account detaches ledger rows from it without
    changing what they record for the others. *)
Theorem other_accounts_keep_books (env : Env) (db : Database)
    (user_id account_id pk : Z) (data : AccountUpdate) :
  pk <> account_id ->
  provisioned (snd (update_account env db user_id account_id data)) pk = provisioned db pk /\
  provisioned (snd (delete_account env db user_id account_id)) pk = provisioned db pk.
Proof.
  intros Hne. split.
  - destruct (update_account_rows env db user_id account_id data) as (Hled & f & Hacc & Hf).
    unfold provisioned, balance_of. rewrite Hled, Hacc, find_map_same.
    + destruct (find _ (accounts db)) as [row|] eqn:Efind; [|reflexivity].
      apply find_some in Efind as (_ & Hid). apply Z.eqb_eq in Hid.
      simpl. destruct (Hf row) as (_ & _ & _ & _ & Hsame).
      rewrite Hsame by congruence. reflexivity.
    + intros row. destruct (Hf row) as (Hid & _). now rewrite Hid.
  - unfold delete_account.
    destruct (query_own_account db user_id account_id) as [account|] eqn:Eq; [|reflexivity].
    apply query_own_account_some in Eq as (_ & Hid & _).
    destruct (fault_within env _); [reflexivity|].
    unfold provisioned, balance_of. simpl. rewrite Hid.
    destruct (credits_detached account_id pk (transactions db) Hne) as (-> & ->).
    rewrite find_filter_same; [reflexivity|].
    intros row Hrow. apply Z.eqb_eq in Hrow. apply negb_true_iff, Z.eqb_neq. congruence.
Qed.

Lemma other_accounts_keep_books_witness :
  provisioned (snd (update_account sound (serve bank busy_day) 10 1
                      (mkAccountUpdate None (Some 0)))) 2
  = provisioned (serve bank busy_day) 2 /\
  provisioned (snd (delete_account sound (serve bank busy_day) 10 1)) 2
  = provisioned (serve bank busy_day) 2.
Proof.
  apply (other_accounts_keep_books sound (serve bank busy_day) 10 1 2
           (mkAccountUpdate None (Some 0))).
  discriminate.
Defined.

Lemma delete_account_deleted (env : Env) (db : Database) (user_id account_id : Z) :
  fst (delete_account env db user_id account_id) = deleted ->
  exists account,
    query_own_account db user_id account_id = Some account /\
    snd (delete_account env db user_id account_id)
    = mkDatabase
        (filter (fun row => negb (Account.id row =? account_id)) (accounts db))
        (map (detach account_id) (transactions db)).
Proof.
  unfold delete_account.
  destruct (query_own_account db user_id account_id) as [account|] eqn:Eq; [|discriminate].
  pose proof (query_own_account_some _ _ _ _ Eq) as (_ & Hid & _). rewrite Hid.
  destruct (fault_within env _); [discriminate|].
  intros _. exists account. split; reflexivity.
Qed.

(** X19. What [delete_account] does for the owner on a store that raises
    nothing, whatever the balance of the account and whatever the ledger
    holds about it: it answers 200; the account row is gone and every
    other row is there as it was; no ledger row is removed, but none
    refers to the account any more, as source or as target; the ledger
    rows that did not refer to it are there as they were. *)
Theorem delete_account_effects (env : Env) (db : Database)
    (user_id account_id : Z) (account : Account.t) :
  primary_key db ->
  query_own_account db user_id account_id = Some account ->
  fault env = None ->
  fst (delete_account env db user_id account_id) = deleted /\
  (forall row,
     In row (accounts (snd (delete_account env db user_id account_id))) <->
     In row (accounts db) /\ row <> account) /\
  map Transaction.id (transactions (snd (delete_account env db user_id account_id)))
  = map Transaction.id (transactions db) /\
  (forall t, In t (transactions (snd (delete_account env db user_id account_id))) ->
     Transaction.from_account_id t <> Some account_id /\
     Transaction.to_account_id t <> Some account_id) /\
  (forall t, In t (transactions db) ->
     Transaction.from_account_id t <> Some account_id ->
     Transaction.to_account_id t <> Some account_id ->
     In t (transactions (snd (delete_account env db user_id account_id)))).
Proof.
  intros Hpk Hq Hf.
  pose proof (query_own_account_some _ _ _ _ Hq) as (Hin & Hid & _).
  assert (Hok : fst (delete_account env db user_id account_id) = deleted).
  { unfold delete_account. rewrite Hq, (fault_within_sound env _ Hf). reflexivity. }
  destruct (delete_account_deleted env db user_id account_id Hok) as (_ & _ & ->).
  split; [exact Hok|]. simpl. split; [|split; [|split]].
  - intros row. rewrite filter_In. split.
    + intros (Hrow & Hne). split; [assumption|].
      intros ->. rewrite Hid, Z.eqb_refl in Hne. discriminate.
    + intros (Hrow & Hne). split; [assumption|].
      apply negb_true_iff, Z.eqb_neq. intros E. apply Hne.
      apply (NoDup_map_injective Account.id (accounts db)); (assumption || congruence).
  - apply detach_id.
  - intros t Ht. apply in_map_iff in Ht as (t0 & <- & _). unfold detach. simpl.
    split.
    + destruct (refers (Transaction.from_account_id t0) account_id) eqn:E; [discriminate|].
      intros H. apply refers_true in H. congruence.
    + destruct (refers (Transaction.to_account_id t0) account_id) eqn:E; [discriminate|].
      intros H. apply refers_true in H. congruence.
  - intros t Ht Hfrom Hto. apply in_map_iff. exists t. split; [|assumption].
    unfold detach.
    destruct (refers (Transaction.from_account_id t) account_id) eqn:E1;
      [apply refers_true in E1; contradiction|].
    destruct (refers (Transaction.to_account_id t) account_id) eqn:E2;
      [apply refers_true in E2; contradiction|].
    now destruct t.
Qed.

Lemma delete_account_effects_witness :
  fst (delete_account sound (serve bank busy_day) 10 1) = deleted /\
  (forall row,
     In row (accounts (snd (delete_account sound (serve bank busy_day) 10 1))) <->
     In row (accounts (serve bank busy_day)) /\
     row <> Account.mk 1 10 "Savings" "ACC-1" 6250 0 100) /\
  map Transaction.id (transactions (snd (delete_account sound (serve bank busy_day) 10 1)))
  = map Transaction.id (transactions (serve bank busy_day)) /\
  (forall t, In t (transactions (snd (delete_account sound (serve bank busy_day) 10 1))) ->
     Transaction.from_account_id t <> Some 1 /\ Transaction.to_account_id t <> Some 1) /\
  (forall t, In t (transactions (serve bank busy_day)) ->
     Transaction.from_account_id t <> Some 1 ->
     Transaction.to_account_id t <> Some 1 ->
     In t (transactions (snd (delete_account sound (serve bank busy_day) 10 1)))).
Proof.
  apply (delete_account_effects sound (serve bank busy_day) 10 1
           (Account.mk 1 10 "Savings" "ACC-1" 6250 0 100) primary_key_busy_day);
    reflexivity.
Defined.




(** * The routes of [controllers/users.py] *)

Lemma taken_false (rows : list User.t) (username email : string) :
  taken rows username email = false ->
  forall u, In u rows -> User.username u <> username /\ User.email u <> email.
Proof.
  intros Ht u Hin.
  assert (H : String.eqb (User.username u) username || String.eqb (User.email u) email = false).
  { destruct (String.eqb (User.username u) username || String.eqb (User.email u) email) eqn:E;
      [|reflexivity].
    assert (taken rows username email = true); [|congruence].
    apply existsb_exists. exists u. split; assumption. }
  apply orb_false_iff in H as (H1 & H2).
  apply String.eqb_neq in H1. apply String.eqb_neq in H2. split; assumption.
Qed.

Lemma truthy_text (v : option string) : truthy v = true -> v = Some (field_text v).
Proof. destruct v as [s|]; [reflexivity|discriminate]. Qed.

Section UsersFacts.
Variable generate_password_hash : string -> string -> string.
Variable check_password_hash : string -> option string -> option bool.

Lemma register_registered (env : Env) (pk : Z) (salt : string)
    (users : list User.t) (data : Registration) :
  fst (register generate_password_hash env pk salt users data) = registered ->
  exists username email password,
    reg_username data = Some username /\
    reg_email data = Some email /\
    reg_password data = Some password /\
    (forall u, In u users -> User.username u <> username /\ User.email u <> email) /\
    snd (register generate_password_hash env pk salt users data)
    = users ++ [User.mk pk username email (generate_password_hash salt password)
                  (utcnow env 0) (utcnow env 1)].
Proof.
  unfold register.
  destruct (truthy (reg_username data)) eqn:Eu; [|discriminate].
  destruct (truthy (reg_email data)) eqn:Ee; [|discriminate].
  destruct (truthy (reg_password data)) eqn:Ep; [|discriminate].
  simpl.
  destruct (taken users _ _) eqn:Et; [discriminate|].
  destruct (fault_within env 1); [discriminate|].
  intros _. simpl.
  exists (field_text (reg_username data)), (field_text (reg_email data)),
         (field_text (reg_password data)).
  repeat split; try (now apply truthy_text); now apply (taken_false _ _ _ Et).
Qed.

(** X21. [register] on a body whose fields are text or missing. A missing
    or empty field is answered 400 "Missing required fields"; with the
    three fields given, a username or an email already held by a user is
    answered 400 "Error registering user"; a registration that is not
    answered 201 leaves the table as it was; and when ids, usernames and
    emails are pairwise distinct before (the id handed out being above
    those in the table), they are so afterwards. *)
Theorem register_keeps_keys (env : Env) (pk : Z) (salt : string)
    (users : list User.t) (data : Registration) :
  user_keys users ->
  (forall u, In u users -> User.id u < pk) ->
  (truthy (reg_username data) && truthy (reg_email data) && truthy (reg_password data)
   = false ->
   register generate_password_hash env pk salt users data
   = (Reply (message "Missing required fields") 400, users)) /\
  (truthy (reg_username data) && truthy (reg_email data) && truthy (reg_password data)
   = true ->
   (exists u, In u users /\
              (reg_username data = Some (User.username u) \/
               reg_email data = Some (User.email u))) ->
   register generate_password_hash env pk salt users data
   = (Reply (message "Error registering user") 400, users)) /\
  (fst (register generate_password_hash env pk salt users data) <> registered ->
   snd (register generate_password_hash env pk salt users data) = users) /\
  user_keys (snd (register generate_password_hash env pk salt users data)).
Proof.
  intros (Hid & Hname & Hmail) Hfresh.
  assert (Hcases :
    fst (register generate_password_hash env pk salt users data) = registered \/
    (fst (register generate_password_hash env pk salt users data) <> registered /\
     snd (register generate_password_hash env pk salt users data) = users)).
  { unfold register.
    destruct (negb _ || negb _ || negb _); [right; split; [discriminate|reflexivity]|].
    destruct (taken _ _ _ || fault_within env 1);
      [right; split; [discriminate|reflexivity]|now left]. }
  split; [|split; [|split]].
  - intros Hmiss. unfold register.
    destruct (truthy (reg_username data)), (truthy (reg_email data)),
             (truthy (reg_password data)); (discriminate || reflexivity).
  - intros Hall (u & Hin & Hheld). unfold register.
    apply andb_prop in Hall as (Hall & Hp). apply andb_prop in Hall as (Hu & He).
    rewrite Hu, He, Hp. simpl.
    assert (Ht : taken users (field_text (reg_username data)) (field_text (reg_email data))
                 = true).
    { apply existsb_exists. exists u. split; [assumption|]. apply orb_true_iff.
      destruct Hheld as [H|H]; rewrite H; simpl; [left|right]; apply String.eqb_refl. }
    now rewrite Ht.
  - destruct Hcases as [Hok|(_ & Hsame)]; [intros H; contradiction|now intros _].
  - destruct Hcases as [Hok|(_ & Hsame)].
    + destruct (register_registered env pk salt users data Hok)
        as (username & email & password & Hu & He & Hp & Hfree & Hsnd).
      rewrite Hsnd. unfold user_keys. rewrite !map_app. simpl.
      repeat split; (apply NoDup_snoc; [assumption|]);
        intros Hin; apply in_map_iff in Hin as (u & Heq & Hin).
      * specialize (Hfresh u Hin). lia.
      * destruct (Hfree u Hin). contradiction.
      * destruct (Hfree u Hin). contradiction.
    + rewrite Hsame. repeat split; assumption.
Qed.

(** X22. Register, then log in. When the hash of a password checks
    against that password, a registration answered 201 can be used at
    once: [login] with the same email and password answers 200 with a
    token for the new user, and [get_user_profile] for that identity
    sends the username and the email registered. *)
Theorem register_then_login (env : Env) (pk : Z) (salt : string)
    (users : list User.t) (data : Registration) :
  (forall password,
     check_password_hash (generate_password_hash salt password) (Some password)
     = Some true) ->
  (forall u, In u users -> User.id u <> pk) ->
  fst (register generate_password_hash env pk salt users data) = registered ->
  login check_password_hash
    (snd (register generate_password_hash env pk salt users data))
    (mkCredentials (reg_email data) (reg_password data)) = Data pk 200 /\
  exists username email,
    reg_username data = Some username /\
    reg_email data = Some email /\
    get_user_profile (snd (register generate_password_hash env pk salt users data)) pk
    = Data (mkProfileJson username email) 200.
Proof.
  intros Hcheck Hfresh Hok.
  destruct (register_registered env pk salt users data Hok)
    as (username & email & password & Hu & He & Hp & Hfree & ->).
  split.
  - unfold login, query_user_by_email. simpl. rewrite He, Hp, find_app_skip.
    + simpl. rewrite String.eqb_refl. simpl. now rewrite Hcheck.
    + intros u Hin. simpl. apply String.eqb_neq.
      destruct (Hfree u Hin) as (_ & H). congruence.
  - exists username, email. repeat split; try assumption.
    unfold get_user_profile, query_user. rewrite find_app_skip.
    + simpl. now rewrite Z.eqb_refl.
    + intros u Hin. apply Z.eqb_neq. now apply Hfresh.
Qed.

(** X23. [login] gives the same refusal to an unknown email and to a
    wrong password: when no user holds the email, or the password does
    not check against the hash of each user that holds it, the answer is
    401 "Invalid credentials". *)
Theorem login_refused (users : list User.t) (data : Credentials) :
  (forall u, In u users -> cred_email data = Some (User.email u) ->
     check_password_hash (User.password_hash u) (cred_password data) = Some false) ->
  login check_password_hash users data
  = Plain (Reply (message "Invalid credentials") 401).
Proof.
  intros Hwrong. unfold login, query_user_by_email.
  destruct (find _ users) as [user|] eqn:Efind; [|reflexivity].
  apply find_some in Efind as (Hin & Hmail). apply py_eq_true in Hmail.
  now rewrite (Hwrong user Hin Hmail).
Qed.
End UsersFacts.

Lemma user_keys_people : user_keys people.
Proof.
  unfold user_keys. simpl. repeat split; repeat constructor; simpl; intuition discriminate.
Defined.

Lemma below_thirty_one : forall u, In u people -> User.id u < 31.
Proof. intros u [<-|[<-|[<-|[]]]]; reflexivity. Defined.

Lemma not_thirty_one : forall u, In u people -> User.id u <> 31.
Proof. intros u [<-|[<-|[<-|[]]]]; discriminate. Defined.

Lemma register_keeps_keys_witness :
  user_keys (snd (register plain_generate sound 31 "salt" people
                    (mkRegistration (Some "dave") (Some "dave@example.org") (Some "secret")))).
Proof.
  apply (register_keeps_keys plain_generate sound 31 "salt" people
           (mkRegistration (Some "dave") (Some "dave@example.org") (Some "secret"))
           user_keys_people below_thirty_one).
Defined.

Lemma plain_check_generate :
  forall password, plain_check (plain_generate "salt" password) (Some password) = Some true.
Proof. intros password. unfold plain_check, plain_generate. now rewrite String.eqb_refl. Defined.

Lemma register_then_login_witness :
  login plain_check
    (snd (register plain_generate sound 31 "salt" people
            (mkRegistration (Some "dave") (Some "dave@example.org") (Some "secret"))))
    (mkCredentials (Some "dave@example.org") (Some "secret")) = Data 31 200.
Proof.
  apply (register_then_login plain_generate plain_check sound 31 "salt" people
           (mkRegistration (Some "dave") (Some "dave@example.org") (Some "secret"))
           plain_check_generate not_thirty_one).
  reflexivity.
Defined.

Lemma wrong_password :
  forall u, In u people ->
    cred_email (mkCredentials (Some "alice@example.org") (Some "guess")) = Some (User.email u) ->
    plain_check (User.password_hash u)
      (cred_password (mkCredentials (Some "alice@example.org") (Some "guess"))) = Some false.
Proof.
  intros u [<-|[<-|[<-|[]]]]; simpl; intros H; (reflexivity || discriminate).
Defined.

Lemma login_refused_witness :
  login plain_check people (mkCredentials (Some "alice@example.org") (Some "guess"))
  = Plain (Reply (message "Invalid credentials") 401).
Proof.
  exact (login_refused plain_check people
           (mkCredentials (Some "alice@example.org") (Some "guess")) wrong_password).
Defined.

Lemma NoDup_map_replace {A : Type} (key : A -> Z) (g : A -> string) (l : list A)
    (pk : Z) (x : string) :
  NoDup (map key l) ->
  NoDup (map g l) ->
  (forall u, In u l -> key u <> pk -> g u <> x) ->
  NoDup (map (fun u => if key u =? pk then x else g u) l).
Proof.
  induction l as [|a l IH]; intros Hk Hg Hx; simpl; [constructor|].
  simpl in Hk, Hg. inversion Hk as [|? ? Hka Hk']; inversion Hg as [|? ? Hga Hg']; subst.
  assert (IH' : NoDup (map (fun u => if key u =? pk then x else g u) l)).
  { apply IH; try assumption. intros u Hu. apply Hx. now right. }
  constructor; [|exact IH'].
  intros Hin. apply in_map_iff in Hin as (u & Heq & Hu).
  destruct (Z.eqb_spec (key a) pk) as [Ea|Ea], (Z.eqb_spec (key u) pk) as [Eu|Eu].
  - apply Hka. rewrite Ea, <- Eu. now apply in_map.
  - apply (Hx u); [now right|assumption|assumption].
  - apply (Hx a); [now left|assumption|now symmetry].
  - apply Hga. rewrite <- Heq. now apply in_map.
Qed.

(** X24. [update_profile] keeps the keys of the users table and touches
    one row at most: when ids, usernames and emails are pairwise distinct
    before, they are so afterwards, whatever the request and whatever the
    store does; every user keeps id, password hash and creation time, and
    every user other than the caller is left exactly as it was. *)
Theorem update_profile_frame (env : Env) (users : list User.t) (user_id : Z)
    (data : ProfileUpdate) :
  user_keys users ->
  user_keys (snd (update_profile env users user_id data)) /\
  Forall2 (fun u u' =>
             User.id u' = User.id u /\
             User.password_hash u' = User.password_hash u /\
             User.created_at u' = User.created_at u /\
             (User.id u <> user_id -> u' = u))
    users (snd (update_profile env users user_id data)).
Proof.
  intros Hkeys.
  assert (Hsame : Forall2 (fun u u' =>
             User.id u' = User.id u /\
             User.password_hash u' = User.password_hash u /\
             User.created_at u' = User.created_at u /\
             (User.id u <> user_id -> u' = u)) users users).
  { rewrite <- (map_id users) at 2. apply Forall2_map_in. now repeat split. }
  unfold update_profile.
  destruct (query_user users user_id) as [user|] eqn:Eq; [|split; assumption].
  apply find_some in Eq as (Hin & Hid). apply Z.eqb_eq in Hid.
  destruct (String.eqb _ _ && String.eqb _ _).
  { destruct (fault_within env 0); split; assumption. }
  destruct (taken _ _ _) eqn:Et; [split; assumption|].
  destruct (fault_within env 1); [split; assumption|].
  simpl. pose proof (taken_false _ _ _ Et) as Hfree.
  destruct Hkeys as (Hk & Hname & Hmail). split.
  - unfold user_keys. rewrite !map_map. repeat split.
    + erewrite map_ext; [exact Hk|]. intros u. simpl.
      now destruct (User.id u =? User.id user).
    + erewrite map_ext; [apply (NoDup_map_replace User.id User.username users
                                  (User.id user) (User.username (reassign data user)));
                         try assumption|].
      * intros u Hu Hne. apply (Hfree u). apply filter_In. split; [assumption|].
        now apply negb_true_iff, Z.eqb_neq.
      * intros u. simpl. now destruct (User.id u =? User.id user).
    + erewrite map_ext; [apply (NoDup_map_replace User.id User.email users
                                  (User.id user) (User.email (reassign data user)));
                         try assumption|].
      * intros u Hu Hne. apply (Hfree u). apply filter_In. split; [assumption|].
        now apply negb_true_iff, Z.eqb_neq.
      * intros u. simpl. now destruct (User.id u =? User.id user).
  - apply Forall2_map_in. intros u _.
    destruct (Z.eqb_spec (User.id u) (User.id user)) as [E|E]; simpl.
    + repeat split. intros Hne. congruence.
    + now repeat split.
Qed.

Lemma update_profile_frame_witness :
  user_keys (snd (update_profile sound people 10 (mkProfileUpdate (Some "alicia") None))).
Proof.
  apply (update_profile_frame sound people 10 (mkProfileUpdate (Some "alicia") None)
           user_keys_people).
Defined.

Lemma find_user (users : list User.t) (u : User.t) :
  NoDup (map User.id users) -> In u users -> query_user users (User.id u) = Some u.
Proof.
  unfold query_user. induction users as [|a users IH]; intros Hnd Hin; [contradiction|].
  simpl in *. inversion Hnd as [|? ? Hnot Hnd']; subst.
  destruct (Z.eqb_spec (User.id a) (User.id u)) as [E|E].
  - destruct Hin as [->|Hin]; [reflexivity|].
    exfalso. apply Hnot. rewrite E. now apply in_map.
  - destruct Hin as [->|Hin]; [contradiction|]. now apply IH.
Qed.

(** X25. The two routes that read users agree: under the primary key of
    the users table, [get_all_users] lists an id with a username and an
    email exactly when [get_user_profile] sends that username and email
    for that id. The list is the same for every caller and holds every
    user. *)
Theorem get_all_users_agrees (users : list User.t) (pk : Z) (username email : string) :
  NoDup (map User.id users) ->
  (exists l, get_all_users users = Data l 200 /\ In (pk, username, email) l) <->
  get_user_profile users pk = Data (mkProfileJson username email) 200.
Proof.
  intros Hnd. unfold get_all_users, get_user_profile. split.
  - intros (l & [= <-] & Hin). apply in_map_iff in Hin as (u & [= <- <- <-] & Hin).
    now rewrite (find_user users u Hnd Hin).
  - destruct (query_user users pk) as [u|] eqn:Eq; [|discriminate].
    intros [= <- <-]. apply find_some in Eq as (Hin & Hid). apply Z.eqb_eq in Hid.
    eexists. split; [reflexivity|]. apply in_map_iff. exists u. split; [|assumption].
    now rewrite Hid.
Qed.

Lemma get_all_users_agrees_witness :
  (exists l, get_all_users people = Data l 200 /\ In (20, "bob", "bob@example.org") l) <->
  get_user_profile people 20 = Data (mkProfileJson "bob" "bob@example.org") 200.
Proof.
  exact (get_all_users_agrees people 20 "bob" "bob@example.org" (proj1 user_keys_people)).
Defined.

Lemma find_stepped (delta : Z -> Decimal) (p : Account.t -> bool)
    (rows rows' : list Account.t) :
  (forall row row', same_identity row row' -> p row' = p row) ->
  Forall2 (stepped delta) rows rows' ->
  option_map Account.id (find p rows') = option_map Account.id (find p rows).
Proof.
  intros Hp. induction 1 as [|row row' rows rows' Hst _ IH]; [reflexivity|].
  apply stepped_facts in Hst as (Hsame & _). simpl.
  rewrite (Hp row row' Hsame). destruct (p row); [|exact IH].
  simpl. destruct Hsame as (Hid & _). now rewrite Hid.
Qed.

Lemma lookups_kept (env : Env) (db : Database) (req req' : Request) :
  primary_key db ->
  source_of (snd (create_transaction env db req)) req' = source_of db req' /\
  target_of (snd (create_transaction env db req)) req' = target_of db req'.
Proof.
  intros Hpk.
  destruct (create_transaction_cases env db req Hpk)
    as [(_ & ->)|(_ & src & amt & ts & _ & _ & _ & _ & Hrows)]; [split; reflexivity|].
  unfold source_of, target_of, validate_account_owner_by_number, query_account_by_number.
  simpl. split.
  - eapply find_stepped; [|exact Hrows].
    intros row row' (_ & Hu & _ & Hn & _). cbv beta. now rewrite Hu, Hn.
  - destruct (truthy (to_account_number req')); [|reflexivity].
    eapply find_stepped; [|exact Hrows].
    intros row row' (_ & _ & _ & Hn & _). cbv beta. now rewrite Hn.
Qed.

(** With the amount in hundredths.
    Opposite transfers cancel when served one after the other. A
    transfer from one account to another and then a transfer of the same
    amount back, each by the owner of its source, on a store that raises
    nothing, both complete when the first source holds the amount and the
    first target is not overdrawn: every balance is then what it was
    before the two, and the ledger has two rows more. *)
Theorem opposite_transfers_cancel (env env' : Env) (db : Database)
    (req req' : Request) (a b : Z) (amt : Decimal) :
  primary_key db ->
  fault env = None -> fault env' = None ->
  type req = Some "transfer" -> type req' = Some "transfer" ->
  amount req = Some amt -> amount req' = Some amt ->
  source_of db req = Some a -> target_of db req = Some b ->
  source_of db req' = Some b -> target_of db req' = Some a ->
  a <> b ->
  amt <= balance_of db a ->
  0 <= balance_of db b ->
  fst (create_transaction env db req) = completed /\
  fst (create_transaction env' (snd (create_transaction env db req)) req') = completed /\
  (forall pk,
     balance_of (snd (create_transaction env' (snd (create_transaction env db req)) req')) pk
     = balance_of db pk) /\
  List.length (transactions
                 (snd (create_transaction env' (snd (create_transaction env db req)) req')))
  = S (S (List.length (transactions db))).
Proof.
  intros Hpk Hf Hf' Hty Hty' Hamt Hamt' Hsrc Htgt Hsrc' Htgt' Hab Hle Hb.
  assert (Hok : fst (create_transaction env db req) = completed).
  { eapply (create_transaction_sound env db req a amt); try eassumption.
    rewrite Hty, Htgt. apply process_transfer. now rewrite get_balance_SessionLocal. }
  destruct (completed_balances env db req Hpk Hok)
    as (src & amt1 & ts & Hs & Ha & _ & Hled & _ & Hbal).
  rewrite Hsrc in Hs. injection Hs as <-. rewrite Hamt in Ha. injection Ha as <-.
  set (db1 := snd (create_transaction env db req)) in *.
  assert (Hpk1 : primary_key db1) by now apply primary_key_create_transaction.
  destruct (lookups_kept env db req req' Hpk) as (Hs1 & Ht1). fold db1 in Hs1, Ht1.
  rewrite Hsrc' in Hs1. rewrite Htgt' in Ht1.
  assert (Hb1 : balance_of db1 b = balance_of db b + amt).
  { rewrite Hbal. unfold effect, credit, debit. rewrite Hty, Htgt. simpl.
    rewrite Z.eqb_refl.
    replace (a =? b) with false by (symmetry; now apply Z.eqb_neq). simpl. lia. }
  assert (Hok' : fst (create_transaction env' db1 req') = completed).
  { eapply (create_transaction_sound env' db1 req' b amt); try eassumption.
    rewrite Hty', Ht1. apply process_transfer. rewrite get_balance_SessionLocal. lia. }
  destruct (completed_balances env' db1 req' Hpk1 Hok')
    as (src & amt2 & ts' & Hs & Ha & _ & Hled' & _ & Hbal').
  rewrite Hs1 in Hs. injection Hs as <-. rewrite Hamt' in Ha. injection Ha as <-.
  repeat split; try assumption.
  - intros pk. rewrite Hbal', Hbal. unfold effect, credit, debit.
    rewrite Hty, Hty', Htgt, Ht1. simpl.
    destruct (a =? pk), (b =? pk); simpl; lia.
  - rewrite Hled', Hled, !length_app. simpl. lia.
Qed.

Lemma opposite_transfers_cancel_witness :
  fst (create_transaction sound bank (transfer_req 10 "ACC-1" "ACC-2" 250)) = completed /\
  fst (create_transaction sound
         (snd (create_transaction sound bank (transfer_req 10 "ACC-1" "ACC-2" 250)))
         (transfer_req 20 "ACC-2" "ACC-1" 250)) = completed /\
  (forall pk,
     balance_of (snd (create_transaction sound
                        (snd (create_transaction sound bank (transfer_req 10 "ACC-1" "ACC-2" 250)))
                        (transfer_req 20 "ACC-2" "ACC-1" 250))) pk
     = balance_of bank pk) /\
  List.length (transactions
                 (snd (create_transaction sound
                         (snd (create_transaction sound bank (transfer_req 10 "ACC-1" "ACC-2" 250)))
                         (transfer_req 20 "ACC-2" "ACC-1" 250))))
  = S (S (List.length (transactions bank))).
Proof.
  apply (opposite_transfers_cancel sound sound bank
           (transfer_req 10 "ACC-1" "ACC-2" 250) (transfer_req 20 "ACC-2" "ACC-1" 250)
           1 2 250 primary_key_bank); try reflexivity; discriminate.
Defined.

(** * The amount as posted: facts *)

Lemma commit_plan (env : Env) (delta : Z -> Decimal) (db : Database)
    (s : Session) (p : Transaction.pending) :
  tracks delta db s ->
  match commit env (add p s) with
  | Returns s' =>
      (Reply (message "Transaction completed successfully") 201, close_session s')
  | SQLAlchemyError s' =>
      (Reply (error (fault_text env)) 500, close_session (rollback s'))
  end
  = match run_statements env 0 (writes delta (accounts db) ++ [INSERT_transactions p]) db with
    | (d, true) =>
        if faults_at env (List.length (writes delta (accounts db) ++ [INSERT_transactions p]))
        then (Reply (error (fault_text env)) 500, db)
        else (Reply (message "Transaction completed successfully") 201, d)
    | (_, false) => (Reply (error (fault_text env)) 500, db)
    end.
Proof.
  intros Htr. unfold commit. rewrite (flush_plan_tracks delta db s p Htr).
  destruct Htr as (Hc & Ht & _ & _).
  replace (txn (add p s)) with db by (symmetry; exact Ht).
  replace (committed (add p s)) with db by (symmetry; exact Hc).
  destruct (run_statements env 0 _ db) as [d [|]]; simpl; [|reflexivity].
  destruct (faults_at env _); reflexivity.
Qed.

Section PostedFacts.
Variable Json : Type.
Variable PyDecimal : Type.
Variable Decimal_of : Json -> option PyDecimal.
Variable of_column : Z -> PyDecimal.
Variable py_add : PyDecimal -> PyDecimal -> option PyDecimal.
Variable py_sub : PyDecimal -> PyDecimal -> option PyDecimal.
Variable py_ge : PyDecimal -> PyDecimal -> option bool.
Variable py_same : PyDecimal -> PyDecimal -> bool.
Variable to_column : PyDecimal -> option Z.

Lemma run_sent_received (env : Env) (sts : list (Sent PyDecimal))
    (statements : list Statement) :
  map (received PyDecimal to_column) sts = map Some statements ->
  forall i d,
    run_sent PyDecimal to_column env i sts d = run_statements env i statements d.
Proof.
  revert statements. induction sts as [|st sts IH]; intros [|c cs] Hmap i d;
    try discriminate; [reflexivity|].
  simpl in Hmap. injection Hmap as Hst Hrest. simpl. rewrite Hst.
  destruct (faults_at env i); [reflexivity|]. now apply IH.
Qed.

Lemma plan_posted_writes (delta : Z -> Decimal) (db : Database)
    (objects : Objects PyDecimal) :
  exact_on_hundredths PyDecimal of_column py_add py_sub py_ge py_same to_column ->
  primary_key db ->
  (forall k, objects k = of_column (balance_of db k + delta k)) ->
  map (received PyDecimal to_column) (plan_posted PyDecimal of_column py_same db objects)
  = map Some (writes delta (accounts db)).
Proof.
  intros (_ & _ & _ & Hsame & Hstore) Hpk Hobj. unfold plan_posted, writes.
  assert (Hrows : forall row, In row (accounts db) ->
                    balance_of db (Account.id row) = Account.balance row)
    by (intros row Hin; now apply balance_of_in).
  induction (accounts db) as [|row rows IH]; [reflexivity|].
  simpl. rewrite Hobj, Hsame, (Hrows row) by now left.
  unfold moved at 1.
  replace (Account.balance row + delta (Account.id row) =? Account.balance row)
    with (delta (Account.id row) =? 0)
    by (destruct (Z.eqb_spec (delta (Account.id row)) 0),
                 (Z.eqb_spec (Account.balance row + delta (Account.id row))
                             (Account.balance row)); (reflexivity || lia)).
  destruct (negb (delta (Account.id row) =? 0)); simpl.
  - rewrite Hobj, Hstore, (Hrows row) by now left. simpl. unfold write_of at 1.
    f_equal. apply IH. intros r Hr. apply Hrows. now right.
  - apply IH. intros r Hr. apply Hrows. now right.
Qed.

Lemma process_posted_hundredths (db : Database) (ty : option string)
    (h : Decimal) (src : Z) (tgt : option Z) :
  exact_on_hundredths PyDecimal of_column py_add py_sub py_ge py_same to_column ->
  primary_key db ->
  match process ty h src tgt (SessionLocal db),
        process_posted PyDecimal py_add py_sub py_ge ty (of_column h) src tgt
          (loaded PyDecimal of_column db) with
  | inl s', inl objects =>
      exists delta, tracks delta db s' /\
                    forall k, objects k = of_column (balance_of db k + delta k)
  | inr early, inr early' => early = early'
  | _, _ => False
  end.
Proof.
  intros (Hadd & Hsub & Hge & _ & _) Hpk.
  pose proof (tracks_SessionLocal db) as H0.
  unfold process, process_posted, loaded.
  rewrite get_balance_SessionLocal.
  destruct (py_eq ty "deposit").
  { rewrite Hadd. eexists. split; [apply (tracks_iadd _ _ _ src h Hpk H0)|].
    intros k. unfold assign_balance. cbv beta.
    destruct (k =? src) eqn:E; [apply Z.eqb_eq in E; subst k|]; f_equal; lia. }
  destruct (py_eq ty "withdrawal").
  { rewrite Hge. destruct (balance_of db src >=? h); [|reflexivity].
    rewrite Hsub. eexists. split; [apply (tracks_isub _ _ _ src h Hpk H0)|].
    intros k. unfold assign_balance. cbv beta.
    destruct (k =? src) eqn:E; [apply Z.eqb_eq in E; subst k|]; f_equal; lia. }
  destruct (py_eq ty "transfer"); [|reflexivity].
  rewrite Hge. destruct (py_and (balance_of db src >=? h) tgt) as [target|]; [|reflexivity].
  rewrite Hsub. unfold assign_balance at 1.
  destruct (target =? src) eqn:Et.
  - rewrite Hadd. eexists.
    split; [apply (tracks_iadd _ _ _ target h Hpk (tracks_isub _ _ _ src h Hpk H0))|].
    intros k. unfold assign_balance. cbv beta. apply Z.eqb_eq in Et. subst target.
    destruct (k =? src) eqn:E; [apply Z.eqb_eq in E; subst k|]; f_equal; lia.
  - rewrite Hadd. eexists.
    split; [apply (tracks_iadd _ _ _ target h Hpk (tracks_isub _ _ _ src h Hpk H0))|].
    intros k. unfold assign_balance. cbv beta.
    destruct (k =? target) eqn:E1; destruct (k =? src) eqn:E2;
      try (apply Z.eqb_eq in E1; subst k); try (apply Z.eqb_eq in E2; subst k);
      try (rewrite Z.eqb_refl in Et; discriminate); f_equal; lia.
Qed.

(** On an amount of at most two decimals the route with the amount as
    posted does what the route on hundredths does. *)
Lemma posted_hundredths (env : Env) (db : Database) (body : Posted Json) (h : Decimal) :
  exact_on_hundredths PyDecimal of_column py_add py_sub py_ge py_same to_column ->
  primary_key db ->
  Decimal_of (posted_amount body) = Some (of_column h) ->
  create_transaction_posted Json PyDecimal Decimal_of of_column py_add py_sub py_ge
    py_same to_column env db body
  = create_transaction env db (in_hundredths body (Some h)).
Proof.
  intros Hexact Hpk Hdec. unfold create_transaction_posted, create_transaction.
  rewrite Hdec. cbn [amount in_hundredths].
  change (validate_account_owner_by_number
            (jwt_identity (in_hundredths body (Some h)))
            (from_account_number (in_hundredths body (Some h))) (SessionLocal db))
    with (source_of db (in_hundredths body None)).
  destruct (source_of db (in_hundredths body None)) as [src|]; [|reflexivity].
  change (if truthy (to_account_number (in_hundredths body (Some h)))
          then query_account_by_number (to_account_number (in_hundredths body (Some h)))
                 (SessionLocal db)
          else None)
    with (target_of db (in_hundredths body None)).
  cbn [type description in_hundredths].
  pose proof (process_posted_hundredths db (posted_type body) h src
                (target_of db (in_hundredths body None)) Hexact Hpk) as Hproc.
  destruct (process _ h src _ (SessionLocal db)) as [s'|early],
           (process_posted _ _ _ _ _ _ _ _ _) as [objects|early'];
    try contradiction; [|now subst].
  destruct Hproc as (delta & Htr & Hobj).
  rewrite (commit_plan env delta db s' _ Htr).
  pose proof (plan_posted_writes delta db objects Hexact Hpk Hobj) as Hplan.
  assert (Hall : map (received PyDecimal to_column)
                   (plan_posted PyDecimal of_column py_same db objects
                    ++ [ADD_transaction PyDecimal (Some src)
                          (target_of db (in_hundredths body None)) (of_column h)
                          (type_text (posted_type body)) (posted_description body)])
                 = map Some (writes delta (accounts db)
                             ++ [INSERT_transactions
                                   (Transaction.new (Some src)
                                      (target_of db (in_hundredths body None)) h
                                      (type_text (posted_type body))
                                      (posted_description body))])).
  { rewrite !map_app, Hplan. simpl. destruct Hexact as (_ & _ & _ & _ & Hstore).
    now rewrite Hstore. }
  rewrite (run_sent_received env _ _ Hall).
  assert (Hlen : List.length (plan_posted PyDecimal of_column py_same db objects
                              ++ [ADD_transaction PyDecimal (Some src)
                                    (target_of db (in_hundredths body None)) (of_column h)
                                    (type_text (posted_type body))
                                    (posted_description body)])
                 = List.length (writes delta (accounts db)
                                ++ [INSERT_transactions
                                      (Transaction.new (Some src)
                                         (target_of db (in_hundredths body None)) h
                                         (type_text (posted_type body))
                                         (posted_description body))])).
  { rewrite <- (length_map (received PyDecimal to_column)), Hall. apply length_map. }
  rewrite Hlen. reflexivity.
Qed.

Lemma posted_two_decimals (env : Env) (db : Database) (body : Posted Json) :
  exact_on_hundredths PyDecimal of_column py_add py_sub py_ge py_same to_column ->
  primary_key db ->
  two_decimals Json PyDecimal Decimal_of of_column body ->
  create_transaction_posted Json PyDecimal Decimal_of of_column py_add py_sub py_ge
       py_same to_column env db body = (Uncaught, db) \/
  exists h, create_transaction_posted Json PyDecimal Decimal_of of_column py_add py_sub py_ge
       py_same to_column env db body = create_transaction env db (in_hundredths body (Some h)).
Proof.
  intros Hexact Hpk [Hnone|(h & Hh)].
  - left. unfold create_transaction_posted. now rewrite Hnone.
  - right. exists h. now apply posted_hundredths.
Qed.

(** C7 (amended). Conservation for amounts of at most two decimals. When
    sums, differences and comparisons of such amounts are exact and the
    server stores them as they are, then for every account the balance
    minus the credits plus the debits that the ledger records for it is
    the same after a request as before, and after any sequence of
    requests, provided each amount that the constructor accepts has at
    most two decimals; with an empty ledger at the start that constant is
    the balance the account was provisioned with. *)
Theorem C7_conservation_two_decimals (db : Database) (pk : Z) :
  exact_on_hundredths PyDecimal of_column py_add py_sub py_ge py_same to_column ->
  primary_key db ->
  (forall env body, two_decimals Json PyDecimal Decimal_of of_column body ->
     provisioned (snd (create_transaction_posted Json PyDecimal Decimal_of of_column py_add py_sub py_ge
       py_same to_column env db body)) pk = provisioned db pk) /\
  (forall calls,
     Forall (fun call => two_decimals Json PyDecimal Decimal_of of_column (snd call)) calls ->
     provisioned (serve_posted Json PyDecimal Decimal_of of_column py_add py_sub py_ge
                    py_same to_column db calls) pk
     = provisioned db pk) /\
  (transactions db = [] ->
   forall calls,
     Forall (fun call => two_decimals Json PyDecimal Decimal_of of_column (snd call)) calls ->
     balance_of (serve_posted Json PyDecimal Decimal_of of_column py_add py_sub py_ge
                   py_same to_column db calls) pk
     - credits (transactions (serve_posted Json PyDecimal Decimal_of of_column py_add
                                py_sub py_ge py_same to_column db calls)) pk
     + debits (transactions (serve_posted Json PyDecimal Decimal_of of_column py_add
                               py_sub py_ge py_same to_column db calls)) pk
     = balance_of db pk).
Proof.
  intros Hexact Hpk.
  assert (Hstep : forall env d body, primary_key d -> two_decimals Json PyDecimal Decimal_of of_column body ->
            primary_key (snd (create_transaction_posted Json PyDecimal Decimal_of of_column py_add py_sub py_ge
       py_same to_column env d body)) /\
            provisioned (snd (create_transaction_posted Json PyDecimal Decimal_of of_column py_add py_sub py_ge
       py_same to_column env d body)) pk = provisioned d pk).
  { intros env d body Hd Htwo.
    destruct (posted_two_decimals env d body Hexact Hd Htwo) as [->|(h & ->)].
    - split; [assumption|reflexivity].
    - split; [now apply primary_key_create_transaction
             |now apply provisioned_create_transaction]. }
  assert (Hrun : forall calls d, primary_key d ->
            Forall (fun call => two_decimals Json PyDecimal Decimal_of of_column (snd call)) calls ->
            provisioned (serve_posted Json PyDecimal Decimal_of of_column py_add py_sub
                           py_ge py_same to_column d calls) pk
            = provisioned d pk).
  { induction calls as [|[env body] rest IH]; intros d Hd Hall; [reflexivity|].
    inversion Hall as [|? ? Htwo Hrest]; subst. simpl in Htwo.
    destruct (Hstep env d body Hd Htwo) as (Hd' & Heq).
    simpl. now rewrite IH, Heq. }
  split; [|split].
  - intros env body Htwo. now apply Hstep.
  - intros calls Hall. now apply Hrun.
  - intros Hempty calls Hall.
    pose proof (Hrun calls db Hpk Hall) as H. unfold provisioned in H.
    rewrite H, Hempty. simpl. lia.
Qed.

(** C2 (amended). An amount that the constructor refuses ends the request
    before a session is opened, whatever its type, with no reply built,
    no balance changed and no ledger row written. An amount that the
    constructor accepts, whatever its value, goes on to the ownership
    check, which answers 403 on an account that is not the caller's. And
    an amount of at most two decimals
    that is zero or negative is not rejected: on the caller's own account
    with a balance that is not negative, a deposit, a withdrawal, or a
    transfer to an account that exists completes, when sums, differences
    and comparisons of such amounts are exact and the store raises
    nothing. *)
Theorem C2_amount_refused_or_taken (env : Env) (db : Database) (body : Posted Json) :
  exact_on_hundredths PyDecimal of_column py_add py_sub py_ge py_same to_column ->
  primary_key db ->
  (Decimal_of (posted_amount body) = None ->
   create_transaction_posted Json PyDecimal Decimal_of of_column py_add py_sub py_ge
     py_same to_column env db body = (Uncaught, db)) /\
  (forall d, Decimal_of (posted_amount body) = Some d ->
     source_of db (in_hundredths body None) = None ->
     create_transaction_posted Json PyDecimal Decimal_of of_column py_add py_sub py_ge
       py_same to_column env db body
     = (Reply (error "Unauthorized access to the account") 403, db)) /\
  (forall h src,
     Decimal_of (posted_amount body) = Some (of_column h) ->
     h <= 0 ->
     source_of db (in_hundredths body None) = Some src ->
     0 <= balance_of db src ->
     fault env = None ->
     posted_type body = Some "deposit" \/
     posted_type body = Some "withdrawal" \/
     (posted_type body = Some "transfer" /\
      target_of db (in_hundredths body None) <> None) ->
     fst (create_transaction_posted Json PyDecimal Decimal_of of_column py_add py_sub
            py_ge py_same to_column env db body) = completed).
Proof.
  intros Hexact Hpk. split; [|split].
  - intros Hnone. unfold create_transaction_posted. now rewrite Hnone.
  - intros d Hd Hsrc. unfold create_transaction_posted. now rewrite Hd, Hsrc.
  - intros h src Hh Hneg Hsrc Hbal Hf Hkind.
    rewrite (posted_hundredths env db body h Hexact Hpk Hh).
    destruct Hkind as [Hty|[Hty|(Hty & Htgt)]].
    + eapply (create_transaction_sound env db _ src h);
        [assumption|reflexivity|exact Hsrc|].
      cbn [type in_hundredths]. rewrite Hty. apply process_deposit.
    + eapply (create_transaction_sound env db _ src h);
        [assumption|reflexivity|exact Hsrc|].
      cbn [type in_hundredths]. rewrite Hty. apply process_withdrawal.
      rewrite get_balance_SessionLocal. lia.
    + destruct (target_of db (in_hundredths body None)) as [tgt|] eqn:Et;
        [|contradiction].
      eapply (create_transaction_sound env db _ src h);
        [assumption|reflexivity|exact Hsrc|].
      cbn [type in_hundredths].
      change (target_of db (in_hundredths body (Some h)))
        with (target_of db (in_hundredths body None)).
      rewrite Hty, Et. apply process_transfer.
      rewrite get_balance_SessionLocal. lia.
Qed.

(** X1. A deposit of an amount of at most two decimals by the owner of
    the source account completes, when sums of such amounts are exact and
    the store raises nothing: the source balance grows by the amount and
    no other balance moves. The amount may be of any sign. *)
Theorem deposit_posted_completes (env : Env) (db : Database) (body : Posted Json)
    (src : Z) (amt : Decimal) :
  exact_on_hundredths PyDecimal of_column py_add py_sub py_ge py_same to_column ->
  primary_key db ->
  fault env = None ->
  posted_type body = Some "deposit" ->
  Decimal_of (posted_amount body) = Some (of_column amt) ->
  source_of db (in_hundredths body None) = Some src ->
  fst (create_transaction_posted Json PyDecimal Decimal_of of_column py_add py_sub py_ge
         py_same to_column env db body) = completed /\
  balance_of (snd (create_transaction_posted Json PyDecimal Decimal_of of_column py_add
                     py_sub py_ge py_same to_column env db body)) src
  = balance_of db src + amt /\
  forall pk, pk <> src ->
    balance_of (snd (create_transaction_posted Json PyDecimal Decimal_of of_column py_add
                       py_sub py_ge py_same to_column env db body)) pk
    = balance_of db pk.
Proof.
  intros Hexact Hpk Hf Hty Hamt Hsrc.
  rewrite (posted_hundredths env db body amt Hexact Hpk Hamt).
  now apply deposit_completes.
Qed.

(** X2. A withdrawal by the owner of the source account. With an amount
    of at most two decimals that does not exceed the balance it
    completes, when differences and comparisons of such amounts are exact
    and the store raises nothing: the source balance shrinks by the
    amount and no other balance moves. With any amount that the
    comparison of the library finds above the balance, by however small a
    fraction, it is answered 400 "Insufficient funds" and the store is
    left as it was. *)
Theorem withdrawal_posted_completes (env : Env) (db : Database) (body : Posted Json)
    (src : Z) :
  exact_on_hundredths PyDecimal of_column py_add py_sub py_ge py_same to_column ->
  primary_key db ->
  posted_type body = Some "withdrawal" ->
  source_of db (in_hundredths body None) = Some src ->
  (forall amt,
     Decimal_of (posted_amount body) = Some (of_column amt) ->
     amt <= balance_of db src ->
     fault env = None ->
     fst (create_transaction_posted Json PyDecimal Decimal_of of_column py_add py_sub
            py_ge py_same to_column env db body) = completed /\
     balance_of (snd (create_transaction_posted Json PyDecimal Decimal_of of_column
                        py_add py_sub py_ge py_same to_column env db body)) src
     = balance_of db src - amt /\
     forall pk, pk <> src ->
       balance_of (snd (create_transaction_posted Json PyDecimal Decimal_of of_column
                          py_add py_sub py_ge py_same to_column env db body)) pk
       = balance_of db pk) /\
  (forall d,
     Decimal_of (posted_amount body) = Some d ->
     py_ge (of_column (balance_of db src)) d = Some false ->
     create_transaction_posted Json PyDecimal Decimal_of of_column py_add py_sub py_ge
       py_same to_column env db body
     = (Reply (error "Insufficient funds") 400, db)).
Proof.
  intros Hexact Hpk Hty Hsrc. split.
  - intros amt Hamt Hle Hf.
    rewrite (posted_hundredths env db body amt Hexact Hpk Hamt).
    now apply withdrawal_completes.
  - intros d Hd Hshort. unfold create_transaction_posted.
    rewrite Hd, Hsrc. unfold process_posted, loaded. rewrite Hty. simpl py_eq. cbv iota.
    now rewrite Hshort.
Qed.

(** X3. A transfer of an amount of at most two decimals, no more than the
    source balance, to a different existing account, by the owner of the
    source, completes when the arithmetic on such amounts is exact and the
    store raises nothing: the source loses the amount, the target gains
    it, whoever owns the target, and no other balance moves. The amount
    may be negative, in which case the money flows from the target to the
    source. *)
Theorem transfer_posted_completes (env : Env) (db : Database) (body : Posted Json)
    (src tgt : Z) (amt : Decimal) :
  exact_on_hundredths PyDecimal of_column py_add py_sub py_ge py_same to_column ->
  primary_key db ->
  fault env = None ->
  posted_type body = Some "transfer" ->
  Decimal_of (posted_amount body) = Some (of_column amt) ->
  source_of db (in_hundredths body None) = Some src ->
  target_of db (in_hundredths body None) = Some tgt ->
  tgt <> src ->
  amt <= balance_of db src ->
  fst (create_transaction_posted Json PyDecimal Decimal_of of_column py_add py_sub py_ge
         py_same to_column env db body) = completed /\
  balance_of (snd (create_transaction_posted Json PyDecimal Decimal_of of_column py_add
                     py_sub py_ge py_same to_column env db body)) src
  = balance_of db src - amt /\
  balance_of (snd (create_transaction_posted Json PyDecimal Decimal_of of_column py_add
                     py_sub py_ge py_same to_column env db body)) tgt
  = balance_of db tgt + amt /\
  forall pk, pk <> src -> pk <> tgt ->
    balance_of (snd (create_transaction_posted Json PyDecimal Decimal_of of_column py_add
                       py_sub py_ge py_same to_column env db body)) pk
    = balance_of db pk.
Proof.
  intros Hexact Hpk Hf Hty Hamt Hsrc Htgt Hne Hle.
  rewrite (posted_hundredths env db body amt Hexact Hpk Hamt).
  now apply transfer_completes.
Qed.

(** X6. For a completed request with an amount of at most two decimals,
    when the arithmetic on such amounts is exact, the money held in all
    accounts together grows by the amount on a deposit, shrinks by the
    amount on a withdrawal and is the same after a transfer. *)
Theorem total_balance_posted (env : Env) (db : Database) (body : Posted Json)
    (amt : Decimal) :
  exact_on_hundredths PyDecimal of_column py_add py_sub py_ge py_same to_column ->
  primary_key db ->
  Decimal_of (posted_amount body) = Some (of_column amt) ->
  fst (create_transaction_posted Json PyDecimal Decimal_of of_column py_add py_sub py_ge
         py_same to_column env db body) = completed ->
  total_balance (snd (create_transaction_posted Json PyDecimal Decimal_of of_column
                        py_add py_sub py_ge py_same to_column env db body))
  = total_balance db + inflow (posted_type body) amt.
Proof.
  intros Hexact Hpk Hamt.
  rewrite (posted_hundredths env db body amt Hexact Hpk Hamt). intros Hok.
  now apply (total_balance_completed env db (in_hundredths body (Some amt)) amt).
Qed.

(** X26. Two transfers of the same amount of at most two decimals in
    opposite directions between two different accounts, one after the
    other, when the arithmetic on such amounts is exact and the store
    raises nothing: both complete, every balance is back at its value
    before the two, and the ledger is two rows longer. *)
Theorem opposite_transfers_posted_cancel (env env' : Env) (db : Database)
    (body body' : Posted Json) (a b : Z) (amt : Decimal) :
  exact_on_hundredths PyDecimal of_column py_add py_sub py_ge py_same to_column ->
  primary_key db ->
  fault env = None -> fault env' = None ->
  posted_type body = Some "transfer" -> posted_type body' = Some "transfer" ->
  Decimal_of (posted_amount body) = Some (of_column amt) ->
  Decimal_of (posted_amount body') = Some (of_column amt) ->
  source_of db (in_hundredths body None) = Some a ->
  target_of db (in_hundredths body None) = Some b ->
  source_of db (in_hundredths body' None) = Some b ->
  target_of db (in_hundredths body' None) = Some a ->
  a <> b ->
  amt <= balance_of db a ->
  0 <= balance_of db b ->
  fst (create_transaction_posted Json PyDecimal Decimal_of of_column py_add py_sub py_ge
         py_same to_column env db body) = completed /\
  fst (create_transaction_posted Json PyDecimal Decimal_of of_column py_add py_sub py_ge
         py_same to_column env'
         (snd (create_transaction_posted Json PyDecimal Decimal_of of_column py_add py_sub
                 py_ge py_same to_column env db body)) body') = completed /\
  (forall pk,
     balance_of
       (snd (create_transaction_posted Json PyDecimal Decimal_of of_column py_add py_sub
               py_ge py_same to_column env'
               (snd (create_transaction_posted Json PyDecimal Decimal_of of_column py_add
                       py_sub py_ge py_same to_column env db body)) body')) pk
     = balance_of db pk) /\
  List.length
    (transactions
       (snd (create_transaction_posted Json PyDecimal Decimal_of of_column py_add py_sub
               py_ge py_same to_column env'
               (snd (create_transaction_posted Json PyDecimal Decimal_of of_column py_add
                       py_sub py_ge py_same to_column env db body)) body')))
  = S (S (List.length (transactions db))).
Proof.
  intros Hexact Hpk Hf Hf' Hty Hty' Hamt Hamt' Hsrc Htgt Hsrc' Htgt' Hab Hle Hb.
  rewrite (posted_hundredths env db body amt Hexact Hpk Hamt).
  assert (Hpk1 : primary_key (snd (create_transaction env db (in_hundredths body (Some amt)))))
    by now apply primary_key_create_transaction.
  rewrite (posted_hundredths env' _ body' amt Hexact Hpk1 Hamt').
  now apply (opposite_transfers_cancel env env' db _ _ a b amt).
Qed.

(** X14. An account that create_account has just made can be used at
    once: a deposit of an amount of at most two decimals posted by its
    owner under its number completes, when sums of such amounts are exact
    and the store raises nothing, and get_account then shows the initial
    balance plus the deposit. *)
Theorem deposit_posted_on_created_account (env env' : Env) (pk : Z)
    (users : list User.t) (db : Database) (user_id : Z) (data : NewAccount)
    (body : Posted Json) (amt : Decimal) :
  exact_on_hundredths PyDecimal of_column py_add py_sub py_ge py_same to_column ->
  primary_key db ->
  (forall row, In row (accounts db) -> Account.id row <> pk) ->
  fst (create_account env pk users db user_id data) = created ->
  fault env' = None ->
  posted_identity body = user_id ->
  posted_from body = new_account_number data ->
  posted_type body = Some "deposit" ->
  Decimal_of (posted_amount body) = Some (of_column amt) ->
  fst (create_transaction_posted Json PyDecimal Decimal_of of_column py_add py_sub py_ge
         py_same to_column env' (snd (create_account env pk users db user_id data)) body)
  = completed /\
  exists v,
    get_account users
      (snd (create_transaction_posted Json PyDecimal Decimal_of of_column py_add py_sub
              py_ge py_same to_column env'
              (snd (create_account env pk users db user_id data)) body))
      user_id pk = Data v 200 /\
    j_id v = pk /\
    new_account_number data = Some (j_account_number v) /\
    j_balance v = initial_balance data + amt.
Proof.
  intros Hexact Hpk Hfresh Hok Hf Hjwt Hfrom Hty Hamt.
  assert (Hpk1 : primary_key (snd (create_account env pk users db user_id data))).
  { destruct (create_account_created env pk users db user_id data Hok)
      as (account_type & account_number & usr & _ & _ & _ & _ & ->).
    apply primary_key_appended; assumption. }
  rewrite (posted_hundredths env' _ body amt Hexact Hpk1 Hamt).
  now apply (deposit_on_created_account env env' pk users db user_id data
               (in_hundredths body (Some amt)) amt).
Qed.

End PostedFacts.

(** * The amount as posted: what holds for every amount *)

Section PostedRoute.
Variable Json : Type.
Variable PyDecimal : Type.
Variable Decimal_of : Json -> option PyDecimal.
Variable of_column : Z -> PyDecimal.
Variable py_add : PyDecimal -> PyDecimal -> option PyDecimal.
Variable py_sub : PyDecimal -> PyDecimal -> option PyDecimal.
Variable py_ge : PyDecimal -> PyDecimal -> option bool.
Variable py_same : PyDecimal -> PyDecimal -> bool.
Variable to_column : PyDecimal -> option Z.

Lemma run_sent_updates_then_insert (env : Env) (key : Account.t -> Z)
    (value : Account.t -> PyDecimal) (f t : option Z) (v : PyDecimal)
    (ty memo : string) (rows : list Account.t) :
  forall i d d',
    run_sent PyDecimal to_column env i
      (map (fun row => SET_balance PyDecimal (key row) (value row)) rows
       ++ [ADD_transaction PyDecimal f t v ty memo]) d = (d', true) ->
    exists a now,
      to_column v = Some a /\
      transactions d'
      = transactions d ++ [Transaction.mk (auto_increment (transactions d)) f t a ty memo now].
Proof.
  induction rows as [|row rows IH]; intros i d d'; simpl.
  - destruct (faults_at env i); [discriminate|].
    destruct (to_column v) as [a|]; simpl; [|discriminate].
    intros H. injection H as <-. exists a, (utcnow env i). split; reflexivity.
  - destruct (faults_at env i); [discriminate|].
    destruct (to_column (value row)) as [b|]; simpl; [|discriminate].
    intros H. apply IH in H. exact H.
Qed.

Lemma process_posted_kind (ty : option string) (amount : PyDecimal) (src : Z)
    (tgt : option Z) (objects objects' : Objects PyDecimal) :
  process_posted PyDecimal py_add py_sub py_ge ty amount src tgt objects = inl objects' ->
  ty = Some "deposit" \/ ty = Some "withdrawal" \/ (ty = Some "transfer" /\ tgt <> None).
Proof.
  unfold process_posted.
  destruct (py_eq ty "deposit") eqn:Ed; [intros _; left; now apply py_eq_true|].
  destruct (py_eq ty "withdrawal") eqn:Ew;
    [intros _; right; left; now apply py_eq_true|].
  destruct (py_eq ty "transfer") eqn:Et; [|discriminate].
  intros H. right; right. split; [now apply py_eq_true|].
  destruct (py_ge (objects src) amount) as [[|]|]; simpl in H; try discriminate.
  destruct tgt; [discriminate|discriminate H].
Qed.

(** The ledger after a posted request, whatever the amount. *)
Lemma create_transaction_posted_ledger (env : Env) (db : Database) (body : Posted Json) :
  transactions (snd (create_transaction_posted Json PyDecimal Decimal_of of_column py_add
                       py_sub py_ge py_same to_column env db body))
  = transactions db
  \/
  exists src a now,
    source_of db (in_hundredths body None) = Some src /\
    (posted_type body = Some "deposit" \/ posted_type body = Some "withdrawal" \/
     (posted_type body = Some "transfer" /\
      target_of db (in_hundredths body None) <> None)) /\
    transactions (snd (create_transaction_posted Json PyDecimal Decimal_of of_column py_add
                         py_sub py_ge py_same to_column env db body))
    = transactions db
      ++ [Transaction.mk (auto_increment (transactions db)) (Some src)
            (target_of db (in_hundredths body None)) a
            (type_text (posted_type body)) (posted_description body) now].
Proof.
  unfold create_transaction_posted.
  destruct (Decimal_of (posted_amount body)) as [amount|]; [|now left].
  destruct (source_of db (in_hundredths body None)) as [src|]; [|now left].
  destruct (process_posted _ _ _ _ _ _ _ _ _) as [objects|early] eqn:Ep; [|now left].
  apply process_posted_kind in Ep.
  unfold plan_posted.
  destruct (run_sent _ _ _ _ _ _) as [d' [|]] eqn:Erun; [|now left].
  destruct (faults_at env _); [now left|].
  right. apply run_sent_updates_then_insert in Erun as (a & now & _ & Hled).
  exists src, a, now. repeat split; assumption.
Qed.

(** C6 (amended). When no account carries the source account number under
    the caller's ownership (the number belongs to some other user, or to
    no account at all, or the body gives none), no request changes the
    store, whatever its type, its target, its amount and the balances.
    When the constructor accepts the amount, whatever its value, the
    answer is 403 "Unauthorized access to the account", the same for a
    foreign account and for a missing one. When the constructor refuses
    the amount, the request ends before the ownership check and no reply
    is built. *)
Theorem C6_not_owner_no_mutation (env : Env) (db : Database) (body : Posted Json) :
  (forall row, In row (accounts db) ->
     posted_from body = Some (Account.account_number row) ->
     Account.user_id row <> posted_identity body) ->
  snd (create_transaction_posted Json PyDecimal Decimal_of of_column py_add py_sub py_ge
         py_same to_column env db body) = db /\
  (forall d, Decimal_of (posted_amount body) = Some d ->
     create_transaction_posted Json PyDecimal Decimal_of of_column py_add py_sub py_ge
       py_same to_column env db body
     = (Reply (error "Unauthorized access to the account") 403, db)) /\
  (Decimal_of (posted_amount body) = None ->
   create_transaction_posted Json PyDecimal Decimal_of of_column py_add py_sub py_ge
     py_same to_column env db body = (Uncaught, db)).
Proof.
  intros Hforeign.
  assert (Hsrc : source_of db (in_hundredths body None) = None).
  { unfold source_of, validate_account_owner_by_number. simpl.
    destruct (find _ (accounts db)) as [row|] eqn:Efind; [|reflexivity].
    exfalso. apply find_some in Efind as (Hin & Hrow).
    apply andb_prop in Hrow as (Hnum & Huser).
    apply py_eq_true in Hnum. apply Z.eqb_eq in Huser.
    exact (Hforeign row Hin Hnum Huser). }
  unfold create_transaction_posted. rewrite Hsrc.
  destruct (Decimal_of (posted_amount body)) as [amount|].
  - split; [reflexivity|]. split; [intros d _; reflexivity|discriminate].
  - split; [reflexivity|]. split; [discriminate|reflexivity].
Qed.

(** C8 (amended). What each route does to the ledger, whatever the amount
    and whatever the store does. create_transaction leaves the rows
    already there as they are and appends at most one; the appended row
    has its source reference present, the caller's source account, and
    its target reference is the account that the target number resolves
    to, whatever the type: always present on a transfer row, present on a
    deposit or withdrawal row exactly when the body names an existing
    target; its type is one of deposit, withdrawal, transfer.
    create_account and update_account leave the ledger as it is.
    delete_account removes no row and adds none, and keeps the id, the
    amount, the type, the memo and the creation time of every row; it
    rewrites the references: one that points to the deleted account is
    set to NULL, the others stay, so a row can end with both references
    absent. *)
Theorem C8_ledger_under_the_routes (env : Env) (db : Database) (body : Posted Json)
    (pk : Z) (users : list User.t) (user_id account_id : Z) (data : NewAccount)
    (update : AccountUpdate) :
  (exists rows,
     transactions (snd (create_transaction_posted Json PyDecimal Decimal_of of_column
                          py_add py_sub py_ge py_same to_column env db body))
     = transactions db ++ rows /\
     (List.length rows <= 1)%nat /\
     Forall (fun e =>
               Transaction.from_account_id e <> None /\
               Transaction.from_account_id e = source_of db (in_hundredths body None) /\
               Transaction.to_account_id e = target_of db (in_hundredths body None) /\
               posted_type body = Some (Transaction.type e) /\
               In (Transaction.type e) ["deposit"; "withdrawal"; "transfer"] /\
               (Transaction.type e = "transfer" -> Transaction.to_account_id e <> None))
       rows) /\
  transactions (snd (create_account env pk users db user_id data)) = transactions db /\
  transactions (snd (update_account env db user_id account_id update)) = transactions db /\
  (transactions (snd (delete_account env db user_id account_id)) = transactions db \/
   transactions (snd (delete_account env db user_id account_id))
   = map (detach account_id) (transactions db)) /\
  (forall t,
     Transaction.id (detach account_id t) = Transaction.id t /\
     Transaction.amount (detach account_id t) = Transaction.amount t /\
     Transaction.type (detach account_id t) = Transaction.type t /\
     Transaction.description (detach account_id t) = Transaction.description t /\
     Transaction.created_at (detach account_id t) = Transaction.created_at t /\
     Transaction.from_account_id (detach account_id t)
     = (if refers (Transaction.from_account_id t) account_id then None
        else Transaction.from_account_id t) /\
     Transaction.to_account_id (detach account_id t)
     = (if refers (Transaction.to_account_id t) account_id then None
        else Transaction.to_account_id t)).
Proof.
  split; [|split; [|split; [|split]]].
  - destruct (create_transaction_posted_ledger env db body)
      as [->|(src & a & now & Hsrc & Hkind & ->)].
    + exists []. rewrite app_nil_r. repeat split; [apply Nat.le_0_l | constructor].
    + eexists. split; [reflexivity|]. split; [apply Nat.le_refl|].
      constructor; [|constructor]. simpl. rewrite Hsrc.
      destruct Hkind as [Hty|[Hty|(Hty & Htgt)]]; rewrite Hty; simpl;
        repeat split; try discriminate; auto.
  - unfold create_account.
    destruct (admitted users db user_id data) as [[account_type account_number]|];
      [|reflexivity].
    destruct (fault_within env 1); reflexivity.
  - unfold update_account.
    destruct (query_own_account db user_id account_id) as [account|]; [|reflexivity].
    destruct (modified _ _); destruct (fault_within env _); reflexivity.
  - unfold delete_account.
    destruct (query_own_account db user_id account_id) as [account|] eqn:Eq; [|now left].
    pose proof (query_own_account_some _ _ _ _ Eq) as (_ & Hid & _). rewrite Hid.
    destruct (fault_within env _); [now left|now right].
  - intros t. repeat split.
Qed.

End PostedRoute.

(** * The instance of three decimals *)

Lemma milli_exact :
  exact_on_hundredths Z milli_of_column milli_add milli_sub milli_ge Z.eqb milli_to_column.
Proof.
  unfold exact_on_hundredths, milli_of_column, milli_add, milli_sub, milli_ge,
    milli_to_column.
  split; [|split; [|split; [|split]]].
  - intros a b. f_equal. lia.
  - intros a b. f_equal. lia.
  - intros a b. f_equal.
    destruct (Z.geb_spec (10 * a) (10 * b)), (Z.geb_spec a b); try reflexivity; lia.
  - intros a b.
    destruct (Z.eqb_spec (10 * a) (10 * b)), (Z.eqb_spec a b); try reflexivity; lia.
  - intros a. f_equal.
    destruct (Z.abs_spec (10 * a)) as [(Hs & ->)|(Hs & ->)].
    + destruct (Z.eq_dec a 0) as [->|Hne]; [reflexivity|].
      rewrite Z.sgn_pos by lia.
      replace (10 * a + 5) with (5 + a * 10) by lia.
      rewrite Z.div_add by lia. change (5 / 10) with 0. lia.
    + rewrite Z.sgn_neg by lia.
      replace (- (10 * a) + 5) with (5 + (- a) * 10) by lia.
      rewrite Z.div_add by lia. change (5 / 10) with 0. lia.
Defined.

(** C7 (as stated, refuted). A withdrawal of 0.125 from a balance of
    100.00 on a server that rounds to the nearest hundredth: the request
    completes, the balance is stored as 99.88 and the ledger row carries
    0.13, so balance minus credits plus debits has moved from 100.00 to
    100.01. *)
Lemma C7_third_decimal_breaks_conservation :
  fst (create_transaction_milli sound bank (posted 10 "ACC-1" None (Some 125) "withdrawal"))
  = completed /\
  balance_of (snd (create_transaction_milli sound bank
                     (posted 10 "ACC-1" None (Some 125) "withdrawal"))) 1 = 9988 /\
  map Transaction.amount
    (transactions (snd (create_transaction_milli sound bank
                          (posted 10 "ACC-1" None (Some 125) "withdrawal")))) = [13] /\
  provisioned bank 1 = 10000 /\
  provisioned (snd (create_transaction_milli sound bank
                      (posted 10 "ACC-1" None (Some 125) "withdrawal"))) 1 = 10001.
Proof. vm_compute. repeat split. Qed.

Lemma C7_conservation_two_decimals_witness :
  provisioned (snd (create_transaction_milli sound bank
                      (posted 10 "ACC-1" None (Some 2500) "withdrawal"))) 1
  = provisioned bank 1.
Proof.
  apply (proj1 (C7_conservation_two_decimals (option Z) Z milli_Decimal milli_of_column
                  milli_add milli_sub milli_ge Z.eqb milli_to_column bank 1
                  milli_exact primary_key_bank)).
  right. exists 250. reflexivity.
Defined.

Lemma C2_amount_refused_or_taken_witness :
  fst (create_transaction_milli sound bank
         (posted 10 "ACC-1" None (Some (-2500)) "deposit")) = completed.
Proof.
  apply (proj2 (proj2 (C2_amount_refused_or_taken (option Z) Z milli_Decimal
                         milli_of_column milli_add milli_sub milli_ge Z.eqb
                         milli_to_column sound bank
                         (posted 10 "ACC-1" None (Some (-2500)) "deposit")
                         milli_exact primary_key_bank)) (-250) 1).
  - reflexivity.
  - lia.
  - reflexivity.
  - vm_compute. discriminate.
  - reflexivity.
  - left. reflexivity.
Defined.

(** C6 (as stated, refuted). A withdrawal from an account of another user
    with an amount that the constructor refuses: the request ends with no
    reply built, not with the 403 of the ownership check. *)
Lemma C6_refused_amount_before_ownership :
  source_of bank (in_hundredths (posted 20 "ACC-1" None None "withdrawal") None) = None /\
  create_transaction_milli sound bank (posted 20 "ACC-1" None None "withdrawal")
  = (Uncaught, bank).
Proof. split; reflexivity. Qed.

Lemma C6_not_owner_no_mutation_witness :
  snd (create_transaction_milli sound bank
         (posted 20 "ACC-1" None (Some 2500) "withdrawal")) = bank /\
  create_transaction_milli sound bank (posted 20 "ACC-1" None (Some 2500) "withdrawal")
  = (Reply (error "Unauthorized access to the account") 403, bank).
Proof.
  pose proof (C6_not_owner_no_mutation (option Z) Z milli_Decimal milli_of_column
                milli_add milli_sub milli_ge Z.eqb milli_to_column sound bank
                (posted 20 "ACC-1" None (Some 2500) "withdrawal") foreign_to_bob)
    as (Hsame & Htaken & _).
  split; [exact Hsame|]. exact (Htaken 2500 eq_refl).
Defined.

Lemma deposit_posted_completes_witness :
  fst (create_transaction_milli sound bank (posted 10 "ACC-1" None (Some 2500) "deposit"))
  = completed /\
  balance_of (snd (create_transaction_milli sound bank
                     (posted 10 "ACC-1" None (Some 2500) "deposit"))) 1
  = balance_of bank 1 + 250.
Proof.
  destruct (deposit_posted_completes (option Z) Z milli_Decimal milli_of_column
              milli_add milli_sub milli_ge Z.eqb milli_to_column sound bank
              (posted 10 "ACC-1" None (Some 2500) "deposit") 1 250
              milli_exact primary_key_bank eq_refl eq_refl eq_refl eq_refl)
    as (Hok & Hbal & _).
  split; [exact Hok|exact Hbal].
Defined.

Lemma withdrawal_posted_completes_witness :
  (fst (create_transaction_milli sound bank
          (posted 10 "ACC-1" None (Some 2500) "withdrawal")) = completed /\
   balance_of (snd (create_transaction_milli sound bank
                      (posted 10 "ACC-1" None (Some 2500) "withdrawal"))) 1
   = balance_of bank 1 - 250) /\
  create_transaction_milli sound bank (posted 30 "ACC-3" None (Some 751) "withdrawal")
  = (Reply (error "Insufficient funds") 400, bank).
Proof.
  split.
  - destruct (proj1 (withdrawal_posted_completes (option Z) Z milli_Decimal
                       milli_of_column milli_add milli_sub milli_ge Z.eqb milli_to_column
                       sound bank (posted 10 "ACC-1" None (Some 2500) "withdrawal") 1
                       milli_exact primary_key_bank eq_refl eq_refl)
                    250 eq_refl)
      as (Hok & Hbal & _); [vm_compute; discriminate|reflexivity|].
    split; [exact Hok|exact Hbal].
  - exact (proj2 (withdrawal_posted_completes (option Z) Z milli_Decimal
                    milli_of_column milli_add milli_sub milli_ge Z.eqb milli_to_column
                    sound bank (posted 30 "ACC-3" None (Some 751) "withdrawal") 3
                    milli_exact primary_key_bank eq_refl eq_refl)
                 751 eq_refl eq_refl).
Defined.

Lemma transfer_posted_completes_witness :
  fst (create_transaction_milli sound bank
         (posted 10 "ACC-1" (Some "ACC-2") (Some 2500) "transfer")) = completed /\
  balance_of (snd (create_transaction_milli sound bank
                     (posted 10 "ACC-1" (Some "ACC-2") (Some 2500) "transfer"))) 1
  = balance_of bank 1 - 250 /\
  balance_of (snd (create_transaction_milli sound bank
                     (posted 10 "ACC-1" (Some "ACC-2") (Some 2500) "transfer"))) 2
  = balance_of bank 2 + 250.
Proof.
  destruct (transfer_posted_completes (option Z) Z milli_Decimal milli_of_column
              milli_add milli_sub milli_ge Z.eqb milli_to_column sound bank
              (posted 10 "ACC-1" (Some "ACC-2") (Some 2500) "transfer") 1 2 250
              milli_exact primary_key_bank eq_refl eq_refl eq_refl eq_refl eq_refl)
    as (Hok & Hsrc & Htgt & _); [discriminate|vm_compute; discriminate|].
  split; [exact Hok|]. split; [exact Hsrc|exact Htgt].
Defined.

Lemma total_balance_posted_witness :
  total_balance (snd (create_transaction_milli sound bank
                        (posted 10 "ACC-1" None (Some 2500) "deposit")))
  = total_balance bank + inflow (Some "deposit") 250.
Proof.
  exact (total_balance_posted (option Z) Z milli_Decimal milli_of_column
           milli_add milli_sub milli_ge Z.eqb milli_to_column sound bank
           (posted 10 "ACC-1" None (Some 2500) "deposit") 250
           milli_exact primary_key_bank eq_refl eq_refl).
Defined.

Lemma opposite_transfers_posted_cancel_witness :
  fst (create_transaction_milli sound
         (snd (create_transaction_milli sound bank
                 (posted 10 "ACC-1" (Some "ACC-2") (Some 2500) "transfer")))
         (posted 20 "ACC-2" (Some "ACC-1") (Some 2500) "transfer")) = completed /\
  forall pk,
    balance_of
      (snd (create_transaction_milli sound
              (snd (create_transaction_milli sound bank
                      (posted 10 "ACC-1" (Some "ACC-2") (Some 2500) "transfer")))
              (posted 20 "ACC-2" (Some "ACC-1") (Some 2500) "transfer"))) pk
    = balance_of bank pk.
Proof.
  destruct (opposite_transfers_posted_cancel (option Z) Z milli_Decimal milli_of_column
              milli_add milli_sub milli_ge Z.eqb milli_to_column sound sound bank
              (posted 10 "ACC-1" (Some "ACC-2") (Some 2500) "transfer")
              (posted 20 "ACC-2" (Some "ACC-1") (Some 2500) "transfer") 1 2 250
              milli_exact primary_key_bank eq_refl eq_refl eq_refl eq_refl eq_refl eq_refl
              eq_refl eq_refl eq_refl eq_refl)
    as (_ & Hok & Hbal & _);
    [discriminate|vm_compute; discriminate|vm_compute; discriminate|].
  split; [exact Hok|exact Hbal].
Defined.

Lemma deposit_posted_on_created_account_witness :
  fst (create_transaction_milli sound
         (snd (create_account sound 4 people bank 20
                 (mkNewAccount (Some "Savings") (Some "ACC-4") (Some 100))))
         (posted 20 "ACC-4" None (Some 2500) "deposit")) = completed /\
  exists v,
    get_account people
      (snd (create_transaction_milli sound
              (snd (create_account sound 4 people bank 20
                      (mkNewAccount (Some "Savings") (Some "ACC-4") (Some 100))))
              (posted 20 "ACC-4" None (Some 2500) "deposit")))
      20 4 = Data v 200 /\
    j_id v = 4 /\
    new_account_number (mkNewAccount (Some "Savings") (Some "ACC-4") (Some 100))
    = Some (j_account_number v) /\
    j_balance v = initial_balance (mkNewAccount (Some "Savings") (Some "ACC-4") (Some 100)) + 250.
Proof.
  apply (deposit_posted_on_created_account (option Z) Z milli_Decimal milli_of_column
           milli_add milli_sub milli_ge Z.eqb milli_to_column sound sound 4 people bank 20
           (mkNewAccount (Some "Savings") (Some "ACC-4") (Some 100))
           (posted 20 "ACC-4" None (Some 2500) "deposit") 250
           milli_exact primary_key_bank); try reflexivity.
  intros row [<-|[<-|[<-|[]]]]; simpl; discriminate.
Defined.

(** C8 (as stated, refuted). A withdrawal that names an existing account
    as its target is recorded with that target reference. When the owner
    then deletes the source account, the committed row is rewritten: its
    source reference becomes NULL. And the row of a deposit with no
    target, after the same deletion, has both references absent. *)
Lemma C8_row_with_target_then_rewritten :
  map (fun t => (Transaction.type t, Transaction.from_account_id t, Transaction.to_account_id t))
    (transactions (snd (create_transaction_milli sound bank
       (posted 10 "ACC-1" (Some "ACC-2") (Some 1000) "withdrawal"))))
  = [("withdrawal", Some 1, Some 2)] /\
  fst (delete_account sound
         (snd (create_transaction_milli sound bank
                 (posted 10 "ACC-1" (Some "ACC-2") (Some 1000) "withdrawal"))) 10 1)
  = deleted /\
  map (fun t => (Transaction.type t, Transaction.from_account_id t, Transaction.to_account_id t))
    (transactions
       (snd (delete_account sound
               (snd (create_transaction_milli sound bank
                       (posted 10 "ACC-1" (Some "ACC-2") (Some 1000) "withdrawal"))) 10 1)))
  = [("withdrawal", None, Some 2)] /\
  map (fun t => (Transaction.type t, Transaction.from_account_id t, Transaction.to_account_id t))
    (transactions (snd (create_transaction_milli sound bank
       (posted 10 "ACC-1" None (Some 1000) "deposit"))))
  = [("deposit", Some 1, None)] /\
  map (fun t => (Transaction.type t, Transaction.from_account_id t, Transaction.to_account_id t))
    (transactions
       (snd (delete_account sound
               (snd (create_transaction_milli sound bank
                       (posted 10 "ACC-1" None (Some 1000) "deposit"))) 10 1)))
  = [("deposit", None, None)].
Proof. vm_compute. repeat split. Qed.
